(** * EnterpriseChatX: the session hub, its lifecycle routes and the in-memory store

    A shallow embedding of [server/routes.ts] ([registerRoutes]: the WebSocket
    hub and the REST routes for login, chat start / transfer / end and the
    agent list), of [server/storage.ts] ([IStorage], [MemStorage]) and of the
    record types of [shared/schema.ts].

    Conventions of the embedding.
    - A JavaScript [Map] is an association list in insertion order
      ([JSMap]); [Array.from(m.values()).find(p)] is [List.find] on it.
    - [undefined] and [null] are both [None]; a value typed [string] that
      the code tests for truthiness is truthy when it is not the empty
      string.
    - [randomUUID()], [Date.now()] and [new Date()] read an entropy source
      carried by the world: the n-th call returns the n-th value.
    - An [async] handler is run to completion: the interleaving of two
      handlers at an [await] is not modelled.
    - Objects are values.  [MemStorage] hands out the stored object itself,
      and two places then write to it: [updateUserOnlineStatus] sets
      [isOnline] on the user the login route is about to answer with, and
      both transfer paths [push] onto the stored [transferHistory] before
      they call [updateChatSession].  The push is overwritten by that call
      with the same array whenever the session is filed under its id
      ([stored_by_id], which every reachable store satisfies), so the
      stores agree; the [isOnline] member of the login answer is the one
      read before the update, and what is stated of the login answer
      leaves that member open between the stored value and [true].
    - A request body is read at the types the handler destructures it to
      (strings).
    - [IStorage] is an interface in the source, so the routes are written
      against a type class and [MemStorage] is its instance; a storage
      call either returns or throws.

    The second half of the definitions covers the remaining methods of
    [MemStorage] and the routes that list sessions, read a transcript,
    search and edit the SOP documents, export conversations and count for
    the dashboard; they are written against [MemStorage] itself.
    - [Array.prototype.sort] is stable; [toLowerCase] is taken on ASCII
      text.
    - The [readyState] of a socket is the one the connection was entered
      with, until its close event, when it is CLOSED.
    - A frame's [sessionId] that is [None] is a member that is missing;
      what is stated of a broadcast is stated for frames that name a
      session.
    - The text [Date.prototype.toString] gives depends on the time zone of
      the process and is a parameter of the export. *)

From Stdlib Require Import String Ascii List Bool NArith Arith Lia DecimalString.
From Stdlib Require Import Sorting.Sorted Sorting.Permutation.
Import ListNotations.
Open Scope string_scope.

#[local] Set Warnings "-register-all".

(* ------------------------------------------------------------------ *)
(** ** JavaScript values used by the code *)

Module JS.

(** Truthiness of a [string | undefined | null]. *)
Definition truthy (o : option string) : bool :=
  match o with
  | Some s => negb (s =? "")
  | None => false
  end.

(** [x || null] *)
Definition or_null (o : option string) : option string :=
  if truthy o then o else None.

(** [x || d] for a string default [d] *)
Definition or_else (o : option string) (d : string) : option string :=
  if truthy o then o else Some d.

(** [n || 0] *)
Definition num_or_zero (o : option N) : option N :=
  match o with
  | Some n => Some n
  | None => Some 0%N
  end.

(** [a === b] on [string | undefined] *)
Definition opt_eqb (a b : option string) : bool :=
  match a, b with
  | Some x, Some y => x =? y
  | None, None => true
  | _, _ => false
  end.

(** Truthiness of a [boolean | null]. *)
Definition is_true (o : option bool) : bool :=
  match o with
  | Some b => b
  | None => false
  end.

(** [s.replace(c, d)] for one-character strings [c] and [d]: only the
    first occurrence is replaced. *)
Fixpoint replace (c d : ascii) (s : string) : string :=
  match s with
  | EmptyString => EmptyString
  | String a r => if Ascii.eqb a c then String d r else String a (replace c d r)
  end.

(** [s.slice(0, n)] *)
Definition slice0 (n : nat) (s : string) : string := substring 0 n s.

(** [`${n}`] for a non-negative integer. *)
Definition number_to_string (n : N) : string :=
  NilEmpty.string_of_uint (N.to_uint n).

(** [s.includes(sub)] *)
Fixpoint includes (sub s : string) : bool :=
  if prefix sub s then true
  else match s with
       | EmptyString => false
       | String _ r => includes sub r
       end.

End JS.

(* ------------------------------------------------------------------ *)
(** ** [Map<string, V>] *)

Module JSMap.

Definition t (V : Type) : Type := list (string * V).

Fixpoint get {V} (m : t V) (k : string) : option V :=
  match m with
  | [] => None
  | (k', v) :: r => if k' =? k then Some v else get r k
  end.

(** [m.set(k, v)]: an existing key keeps its place, a new key goes last. *)
Fixpoint set {V} (m : t V) (k : string) (v : V) : t V :=
  match m with
  | [] => [(k, v)]
  | (k', v') :: r => if k' =? k then (k', v) :: r else (k', v') :: set r k v
  end.

(** [m.delete(k)] *)
Fixpoint delete {V} (m : t V) (k : string) : t V :=
  match m with
  | [] => []
  | (k', v') :: r => if k' =? k then r else (k', v') :: delete r k
  end.

Definition values {V} (m : t V) : list V := map snd m.

Definition keys {V} (m : t V) : list string := map fst m.

Definition entries {V} (m : t V) : list (string * V) := m.

End JSMap.

(* ------------------------------------------------------------------ *)
(** ** shared/schema.ts *)

Module User.
Record t := mk {
  id : string;
  username : string;
  password : string;
  role : string;
  name : string;
  email : string;
  isOnline : option bool;
  createdAt : option N
}.

Definition with_isOnline (u : t) (b : option bool) : t :=
  mk (id u) (username u) (password u) (role u) (name u) (email u) b (createdAt u).

Definition with_password (u : t) (p : string) : t :=
  mk (id u) (username u) p (role u) (name u) (email u) (isOnline u) (createdAt u).
End User.

Module Customer.
Record t := mk {
  id : string;
  name : string;
  email : string;
  customerId : option string;
  memberSince : option N;
  totalOrders : option N;
  status : option string
}.
End Customer.

Module InsertCustomer.
Record t := mk {
  name : string;
  email : string;
  customerId : option string;
  totalOrders : option N;
  status : option string
}.
End InsertCustomer.

Module TransferRecord.
Record t := mk {
  fromAgent : option string;
  toAgent : option string;
  timestamp : N;
  reason : option string
}.
End TransferRecord.

Module ChatSession.
(** [transferHistory] is a [jsonb] column: [Some l] is an array, [None]
    any value for which [Array.isArray] is false. *)
Record t := mk {
  id : string;
  sessionId : string;
  customerId : option string;
  agentId : option string;
  status : option string;
  startTime : option N;
  endTime : option N;
  transferHistory : option (list TransferRecord.t);
  rating : option N
}.
End ChatSession.

Module InsertChatSession.
Record t := mk {
  sessionId : string;
  customerId : option string;
  agentId : option string;
  status : option string
}.
End InsertChatSession.

Module PartialChatSession.
(** [Partial<ChatSession>]: [None] is a property the object does not have,
    [Some v] a property present with value [v] (which may itself be
    [undefined] or [null]). *)
Record t := mk {
  id : option string;
  sessionId : option string;
  customerId : option (option string);
  agentId : option (option string);
  status : option (option string);
  startTime : option (option N);
  endTime : option (option N);
  transferHistory : option (option (list TransferRecord.t));
  rating : option (option N)
}.

Definition override {A} (old : A) (upd : option A) : A :=
  match upd with
  | Some v => v
  | None => old
  end.

(** [{ ...session, ...updates }] *)
Definition spread (session : ChatSession.t) (updates : t) : ChatSession.t :=
  ChatSession.mk
    (override (ChatSession.id session) (id updates))
    (override (ChatSession.sessionId session) (sessionId updates))
    (override (ChatSession.customerId session) (customerId updates))
    (override (ChatSession.agentId session) (agentId updates))
    (override (ChatSession.status session) (status updates))
    (override (ChatSession.startTime session) (startTime updates))
    (override (ChatSession.endTime session) (endTime updates))
    (override (ChatSession.transferHistory session) (transferHistory updates))
    (override (ChatSession.rating session) (rating updates)).
End PartialChatSession.

Module Message.
Record t := mk {
  id : string;
  sessionId : option string;
  senderId : option string;
  senderType : option string;
  content : option string;
  messageType : option string;
  timestamp : option N;
  readBy : list string
}.
End Message.

Module InsertMessage.
(** The socket handler fills [senderId], [senderType] and [content] from
    the frame without a check, so they can be [undefined] at run time. *)
Record t := mk {
  sessionId : option string;
  senderId : option string;
  senderType : option string;
  content : option string;
  messageType : option string
}.
End InsertMessage.

(** [WSMessage.data] is typed [any].  The shapes below are the objects the
    server builds, and [Payload] is an object received from a client, with
    the four properties the handlers read; a property that is missing reads
    as [None].  Absent or falsy [data] is [None] in [WSMessage.data]. *)
Inductive WSData : Type :=
| Payload (content senderName newAgentId reason : option string)
| StatusData (status : string) (userId userType : option string)
| MessageData (m : Message.t) (senderName : option string)
| EndedData (endedBy : option string).

Module WSData_.
Definition content (d : WSData) : option string :=
  match d with
  | Payload c _ _ _ => c
  | MessageData m _ => Message.content m
  | _ => None
  end.

Definition senderName (d : WSData) : option string :=
  match d with
  | Payload _ n _ _ => n
  | MessageData _ n => n
  | _ => None
  end.

Definition newAgentId (d : WSData) : option string :=
  match d with
  | Payload _ _ a _ => a
  | _ => None
  end.

Definition reason (d : WSData) : option string :=
  match d with
  | Payload _ _ _ r => r
  | _ => None
  end.
End WSData_.

Module WSMessage.
Record t := mk {
  type : string;
  sessionId : option string;
  data : option WSData;
  userId : option string;
  userType : option string
}.
End WSMessage.

(* ------------------------------------------------------------------ *)
(** ** Values handed to [res.json] and [JSON.stringify] *)

Inductive jsv : Type :=
| JUndefined
| JNull
| JBool (b : bool)
| JNum (n : N)
| JStr (s : string)
| JDate (ms : N)
| JArr (l : list jsv)
| JObj (props : list (string * jsv)).

Module JSON.

Definition of_bool (o : option bool) : jsv :=
  match o with Some b => JBool b | None => JNull end.

Definition of_date (o : option N) : jsv :=
  match o with Some t => JDate t | None => JNull end.

(** [{ ...o, k: v }] for an object [o] *)
Fixpoint assign (props : list (string * jsv)) (k : string) (v : jsv)
  : list (string * jsv) :=
  match props with
  | [] => [(k, v)]
  | (k', v') :: r => if k' =? k then (k', v) :: r else (k', v') :: assign r k v
  end.

Definition spread_with (o : jsv) (k : string) (v : jsv) : jsv :=
  match o with
  | JObj props => JObj (assign props k v)
  | _ => JObj [(k, v)]
  end.

(** What [JSON.stringify] writes: a property whose value is [undefined]
    is left out, an [undefined] array element is written [null]. *)
Fixpoint stringify (v : jsv) : jsv :=
  match v with
  | JArr l =>
      JArr (map (fun x => match x with
                          | JUndefined => JNull
                          | _ => stringify x
                          end) l)
  | JObj props =>
      JObj ((fix members (ps : list (string * jsv)) : list (string * jsv) :=
               match ps with
               | [] => []
               | (k, JUndefined) :: r => members r
               | (k, x) :: r => (k, stringify x) :: members r
               end) props)
  | _ => v
  end.

(** The keys of a written object. *)
Definition keys (v : jsv) : list string :=
  match v with
  | JObj props => map fst props
  | _ => []
  end.

End JSON.

Definition User_to_js (u : User.t) : jsv :=
  JObj [ ("id", JStr (User.id u));
         ("username", JStr (User.username u));
         ("password", JStr (User.password u));
         ("role", JStr (User.role u));
         ("name", JStr (User.name u));
         ("email", JStr (User.email u));
         ("isOnline", JSON.of_bool (User.isOnline u));
         ("createdAt", JSON.of_date (User.createdAt u)) ].

(* ------------------------------------------------------------------ *)
(** ** The process: storage, connection map, sockets, entropy *)

Inductive ReadyState : Type := CONNECTING | OPEN | CLOSING | CLOSED.

Definition ReadyState_eqb (a b : ReadyState) : bool :=
  match a, b with
  | CONNECTING, CONNECTING | OPEN, OPEN | CLOSING, CLOSING | CLOSED, CLOSED => true
  | _, _ => false
  end.

Module ConnectedClient.
(** Of the socket [ws] only [readyState] is read. *)
Record t := mk {
  ws : ReadyState;
  userId : option string;
  userType : option string;
  sessionId : option string
}.
End ConnectedClient.

Record World (St : Type) : Type := mkWorld {
  storage : St;
  connectedClients : JSMap.t ConnectedClient.t;
  (** every [ws.send], oldest first: the receiving client and the frame *)
  sent : list (string * WSMessage.t);
  (** every [console.error], oldest first *)
  console : list string;
  (** what the n-th [randomUUID()] returns, and how many were made *)
  uuid_src : nat -> string;
  uuid_calls : nat;
  (** what the n-th clock reading returns, and how many were made *)
  clock_src : nat -> N;
  clock_calls : nat
}.

Arguments mkWorld {St}.
Arguments storage {St}.
Arguments connectedClients {St}.
Arguments sent {St}.
Arguments console {St}.
Arguments uuid_src {St}.
Arguments uuid_calls {St}.
Arguments clock_src {St}.
Arguments clock_calls {St}.

Definition with_storage {St} (w : World St) (s : St) : World St :=
  mkWorld s (connectedClients w) (sent w) (console w)
          (uuid_src w) (uuid_calls w) (clock_src w) (clock_calls w).

Definition with_clients {St} (w : World St) (c : JSMap.t ConnectedClient.t) : World St :=
  mkWorld (storage w) c (sent w) (console w)
          (uuid_src w) (uuid_calls w) (clock_src w) (clock_calls w).

Definition with_sent {St} (w : World St) (l : list (string * WSMessage.t)) : World St :=
  mkWorld (storage w) (connectedClients w) l (console w)
          (uuid_src w) (uuid_calls w) (clock_src w) (clock_calls w).

Definition with_console {St} (w : World St) (l : list string) : World St :=
  mkWorld (storage w) (connectedClients w) (sent w) l
          (uuid_src w) (uuid_calls w) (clock_src w) (clock_calls w).

(** A computation that returns or throws, and changes the world. *)
Inductive outcome (A : Type) : Type :=
| Returned (a : A)
| Thrown (e : string).

Arguments Returned {A}.
Arguments Thrown {A}.

Definition Task (St A : Type) : Type := World St -> outcome A * World St.

Definition ret {St A} (a : A) : Task St A := fun w => (Returned a, w).

Definition bind {St A B} (c : Task St A) (k : A -> Task St B) : Task St B :=
  fun w =>
    match c w with
    | (Returned a, w') => k a w'
    | (Thrown e, w') => (Thrown e, w')
    end.

Definition throw {St A} (e : string) : Task St A := fun w => (Thrown e, w).

(** [try { c } catch (error) { h(error) }] *)
Definition try_catch {St A} (c : Task St A) (h : string -> Task St A) : Task St A :=
  fun w =>
    match c w with
    | (Returned a, w') => (Returned a, w')
    | (Thrown e, w') => h e w'
    end.

Declare Scope task_scope.
Delimit Scope task_scope with task.
Notation "x <- c ;; k" := (bind c (fun x => k))
  (at level 61, c at next level, right associativity) : task_scope.
Notation "c ;;; k" := (bind c (fun _ => k))
  (at level 61, right associativity) : task_scope.
Open Scope task_scope.

Definition randomUUID {St} : Task St string :=
  fun w =>
    (Returned (uuid_src w (uuid_calls w)),
     mkWorld (storage w) (connectedClients w) (sent w) (console w)
             (uuid_src w) (S (uuid_calls w)) (clock_src w) (clock_calls w)).

(** [Date.now()] and [new Date()]: milliseconds since the epoch. *)
Definition Date_now {St} : Task St N :=
  fun w =>
    (Returned (clock_src w (clock_calls w)),
     mkWorld (storage w) (connectedClients w) (sent w) (console w)
             (uuid_src w) (uuid_calls w) (clock_src w) (S (clock_calls w))).

Definition console_error {St} (label e : string) : Task St unit :=
  fun w => (Returned tt, with_console w (console w ++ [label ++ " " ++ e])).

Definition run {St A} (c : Task St A) (w : World St) : World St := snd (c w).

Definition result {St A} (c : Task St A) (w : World St) : outcome A := fst (c w).

(* ------------------------------------------------------------------ *)
(** ** server/storage.ts *)

(** [IStorage]: the operations the modelled routes call. *)
Class IStorage (St : Type) : Type := {
  getUser : string -> Task St (option User.t);
  getUserByUsername : string -> Task St (option User.t);
  updateUserOnlineStatus : string -> bool -> Task St unit;
  getAgentsByRole : string -> Task St (list User.t);
  getOnlineAgents : Task St (list User.t);
  getCustomerByEmail : string -> Task St (option Customer.t);
  createCustomer : InsertCustomer.t -> Task St Customer.t;
  getChatSessionBySessionId : string -> Task St (option ChatSession.t);
  createChatSession : InsertChatSession.t -> Task St ChatSession.t;
  updateChatSession : string -> PartialChatSession.t -> Task St (option ChatSession.t);
  createMessage : InsertMessage.t -> Task St Message.t
}.

Module MemStorage.

(** The maps the modelled routes reach ([sopDocuments] and [quickReplies]
    are left out). *)
Record t := mk {
  users : JSMap.t User.t;
  customers : JSMap.t Customer.t;
  chatSessions : JSMap.t ChatSession.t;
  messages : JSMap.t Message.t
}.

Definition with_users (s : t) (m : JSMap.t User.t) : t :=
  mk m (customers s) (chatSessions s) (messages s).
Definition with_customers (s : t) (m : JSMap.t Customer.t) : t :=
  mk (users s) m (chatSessions s) (messages s).
Definition with_chatSessions (s : t) (m : JSMap.t ChatSession.t) : t :=
  mk (users s) (customers s) m (messages s).
Definition with_messages (s : t) (m : JSMap.t Message.t) : t :=
  mk (users s) (customers s) (chatSessions s) m.

Definition read {A} (f : t -> A) : Task t A :=
  fun w => (Returned (f (storage w)), w).

Definition write (f : t -> t) : Task t unit :=
  fun w => (Returned tt, with_storage w (f (storage w))).

Definition getUser (id : string) : Task t (option User.t) :=
  read (fun this => JSMap.get (users this) id).

Definition getUserByUsername (username : string) : Task t (option User.t) :=
  read (fun this =>
          find (fun user => User.username user =? username)
               (JSMap.values (users this))).

Definition updateUserOnlineStatus (id : string) (isOnline : bool) : Task t unit :=
  user <- read (fun this => JSMap.get (users this) id) ;;
  match user with
  | Some user =>
      write (fun this =>
               with_users this
                 (JSMap.set (users this) id (User.with_isOnline user (Some isOnline))))
  | None => ret tt
  end.

Definition getAgentsByRole (role : string) : Task t (list User.t) :=
  read (fun this =>
          filter (fun user => User.role user =? role) (JSMap.values (users this))).

Definition getOnlineAgents : Task t (list User.t) :=
  read (fun this =>
          filter (fun user =>
                    negb (User.role user =? "customer") && JS.is_true (User.isOnline user))
                 (JSMap.values (users this))).

Definition getCustomerByEmail (email : string) : Task t (option Customer.t) :=
  read (fun this =>
          find (fun customer => Customer.email customer =? email)
               (JSMap.values (customers this))).

Definition createCustomer (insertCustomer : InsertCustomer.t) : Task t Customer.t :=
  id <- randomUUID ;;
  now <- Date_now ;;
  let customer :=
    Customer.mk id
      (InsertCustomer.name insertCustomer)
      (InsertCustomer.email insertCustomer)
      (JS.or_null (InsertCustomer.customerId insertCustomer))
      (Some now)
      (JS.num_or_zero (InsertCustomer.totalOrders insertCustomer))
      (JS.or_else (InsertCustomer.status insertCustomer) "regular") in
  write (fun this => with_customers this (JSMap.set (customers this) id customer)) ;;;
  ret customer.

Definition getChatSessionBySessionId (sessionId : string) : Task t (option ChatSession.t) :=
  read (fun this =>
          find (fun session => ChatSession.sessionId session =? sessionId)
               (JSMap.values (chatSessions this))).

Definition createChatSession (insertSession : InsertChatSession.t) : Task t ChatSession.t :=
  id <- randomUUID ;;
  now <- Date_now ;;
  let session :=
    ChatSession.mk id
      (InsertChatSession.sessionId insertSession)
      (JS.or_null (InsertChatSession.customerId insertSession))
      (JS.or_null (InsertChatSession.agentId insertSession))
      (JS.or_else (InsertChatSession.status insertSession) "active")
      (Some now)
      None
      (Some [])
      None in
  write (fun this => with_chatSessions this (JSMap.set (chatSessions this) id session)) ;;;
  ret session.

Definition updateChatSession (id : string) (updates : PartialChatSession.t)
  : Task t (option ChatSession.t) :=
  session <- read (fun this => JSMap.get (chatSessions this) id) ;;
  match session with
  | Some session =>
      let updated := PartialChatSession.spread session updates in
      write (fun this =>
               with_chatSessions this (JSMap.set (chatSessions this) id updated)) ;;;
      ret (Some updated)
  | None => ret None
  end.

Definition createMessage (insertMessage : InsertMessage.t) : Task t Message.t :=
  id <- randomUUID ;;
  now <- Date_now ;;
  let message :=
    Message.mk id
      (JS.or_null (InsertMessage.sessionId insertMessage))
      (JS.or_null (InsertMessage.senderId insertMessage))
      (InsertMessage.senderType insertMessage)
      (InsertMessage.content insertMessage)
      (JS.or_else (InsertMessage.messageType insertMessage) "text")
      (Some now)
      [] in
  write (fun this => with_messages this (JSMap.set (messages this) id message)) ;;;
  ret message.

End MemStorage.

#[export] Instance MemStorage_IStorage : IStorage MemStorage.t := {|
  getUser := MemStorage.getUser;
  getUserByUsername := MemStorage.getUserByUsername;
  updateUserOnlineStatus := MemStorage.updateUserOnlineStatus;
  getAgentsByRole := MemStorage.getAgentsByRole;
  getOnlineAgents := MemStorage.getOnlineAgents;
  getCustomerByEmail := MemStorage.getCustomerByEmail;
  createCustomer := MemStorage.createCustomer;
  getChatSessionBySessionId := MemStorage.getChatSessionBySessionId;
  createChatSession := MemStorage.createChatSession;
  updateChatSession := MemStorage.updateChatSession;
  createMessage := MemStorage.createMessage
|}.

(* ------------------------------------------------------------------ *)
(** ** server/routes.ts *)

Inductive Body : Type :=
| ErrorBody (error : string)
| LoginBody (user : jsv)
| StartBody (session : ChatSession.t) (customer : Customer.t) (agent : User.t)
| SessionBody (session : option ChatSession.t)
| AgentsBody (agents : list jsv).

Record Response : Type := mkResponse {
  status : nat;
  body : Body
}.

(** What the process is asked to do: a socket event or a REST request. *)
Inductive Request : Type :=
| WsConnection (ws : ReadyState)
| WsMessage (clientId : string) (data : option WSMessage.t)
| WsClose (clientId : string)
| PostAuthLogin (username password : string)
| PostChatStart (customerEmail customerName : string)
| PostChatTransfer (sessionId newAgentId reason : string)
| PostChatEnd (sessionId : string)
| GetAgents.

(** The connections the loop of [broadcastToSession] writes to, in the
    order of the map: those bound to [sessionId], other than
    [excludeClientId], whose socket is open. *)
Definition receivers (clients : JSMap.t ConnectedClient.t) (sessionId : option string)
           (excludeClientId : option string) : list string :=
  map fst
      (filter (fun entry : string * ConnectedClient.t =>
                 let '(clientId, client) := entry in
                 JS.opt_eqb (ConnectedClient.sessionId client) sessionId
                 && negb (JS.opt_eqb (Some clientId) excludeClientId)
                 && ReadyState_eqb (ConnectedClient.ws client) OPEN)
              (JSMap.entries clients)).

(** The socket of the connection [clientId] has closed: from then on its
    [readyState] is CLOSED. *)
Definition socket_closed (clients : JSMap.t ConnectedClient.t) (clientId : string)
  : JSMap.t ConnectedClient.t :=
  match JSMap.get clients clientId with
  | Some client =>
      JSMap.set clients clientId
                (ConnectedClient.mk CLOSED
                                    (ConnectedClient.userId client)
                                    (ConnectedClient.userType client)
                                    (ConnectedClient.sessionId client))
  | None => clients
  end.

Section Routes.

Context {St : Type} `{IStorage St}.

(** [JSON.parse(data.toString())]: [None] is a text that does not parse. *)
Definition JSON_parse (data : option WSMessage.t) : Task St WSMessage.t :=
  match data with
  | Some message => ret message
  | None => throw "SyntaxError"
  end.

Definition broadcastToSession (sessionId : option string) (message : WSMessage.t)
           (excludeClientId : option string) : Task St unit :=
  fun w =>
    (Returned tt,
     with_sent w (sent w ++ map (fun clientId => (clientId, message))
                                (receivers (connectedClients w) sessionId excludeClientId))).

Definition ws_on_connection (ws : ReadyState) : Task St unit :=
  clientId <- randomUUID ;;
  fun w =>
    (Returned tt,
     with_clients w
       (JSMap.set (connectedClients w) clientId
                  (ConnectedClient.mk ws None (Some "customer") None))).

Definition case_join_session (clientId : string) (client : ConnectedClient.t)
           (message : WSMessage.t) : Task St unit :=
  (fun w =>
     (Returned tt,
      with_clients w
        (JSMap.set (connectedClients w) clientId
                   (ConnectedClient.mk (ConnectedClient.ws client)
                                       (WSMessage.userId message)
                                       (WSMessage.userType message)
                                       (WSMessage.sessionId message))))) ;;;
  broadcastToSession (WSMessage.sessionId message)
    (WSMessage.mk "agent_status" None
       (Some (StatusData "joined" (WSMessage.userId message) (WSMessage.userType message)))
       None None)
    None.

Definition case_chat_message (message : WSMessage.t) : Task St unit :=
  match WSMessage.data message with
  | Some data =>
      if JS.truthy (WSMessage.sessionId message) then
        newMessage <- createMessage
                        (InsertMessage.mk (WSMessage.sessionId message)
                                          (WSMessage.userId message)
                                          (WSMessage.userType message)
                                          (WSData_.content data)
                                          (Some "text")) ;;
        broadcastToSession (WSMessage.sessionId message)
          (WSMessage.mk "chat_message" (WSMessage.sessionId message)
             (Some (MessageData newMessage (WSData_.senderName data)))
             None None)
          None
      else ret tt
  | None => ret tt
  end.

Definition case_typing (clientId : string) (message : WSMessage.t) : Task St unit :=
  if JS.truthy (WSMessage.sessionId message) then
    broadcastToSession (WSMessage.sessionId message) message (Some clientId)
  else ret tt.

(** [Array.isArray(h) ? h : []] *)
Definition array_or_empty (h : option (list TransferRecord.t)) : list TransferRecord.t :=
  match h with
  | Some l => l
  | None => []
  end.

Definition case_session_transfer (message : WSMessage.t) : Task St unit :=
  match WSMessage.sessionId message, WSMessage.data message with
  | Some sessionId, Some data =>
      if JS.truthy (Some sessionId) then
        session <- getChatSessionBySessionId sessionId ;;
        match session with
        | Some session =>
            now <- Date_now ;;
            let transferHistory :=
              (array_or_empty (ChatSession.transferHistory session)
               ++ [TransferRecord.mk (ChatSession.agentId session)
                                     (WSData_.newAgentId data)
                                     now
                                     (WSData_.reason data)])%list in
            updateChatSession (ChatSession.id session)
              (PartialChatSession.mk None None None
                 (Some (WSData_.newAgentId data))
                 None None None
                 (Some (Some transferHistory))
                 None) ;;;
            broadcastToSession (Some sessionId)
              (WSMessage.mk "session_transfer" (Some sessionId) (Some data) None None)
              None
        | None => ret tt
        end
      else ret tt
  | _, _ => ret tt
  end.

Definition case_session_ended (message : WSMessage.t) : Task St unit :=
  match WSMessage.sessionId message with
  | Some sessionId =>
      if JS.truthy (Some sessionId) then
        session <- getChatSessionBySessionId sessionId ;;
        match session with
        | Some session =>
            now <- Date_now ;;
            updateChatSession (ChatSession.id session)
              (PartialChatSession.mk None None None None
                 (Some (Some "resolved"))
                 None
                 (Some (Some now))
                 None None) ;;;
            broadcastToSession (Some sessionId)
              (WSMessage.mk "session_ended" (Some sessionId)
                 (Some (EndedData (WSMessage.userId message)))
                 None None)
              None
        | None => ret tt
        end
      else ret tt
  | None => ret tt
  end.

(** [ws.on('message', ...)] of the connection [clientId] *)
Definition ws_on_message (clientId : string) (data : option WSMessage.t) : Task St unit :=
  try_catch
    (message <- JSON_parse data ;;
     client <- (fun w => (Returned (JSMap.get (connectedClients w) clientId), w)) ;;
     match client with
     | None => ret tt
     | Some client =>
         let type := WSMessage.type message in
         if type =? "join_session" then case_join_session clientId client message
         else if type =? "chat_message" then case_chat_message message
         else if (type =? "agent_typing") || (type =? "customer_typing")
              then case_typing clientId message
         else if type =? "session_transfer" then case_session_transfer message
         else if type =? "session_ended" then case_session_ended message
         else ret tt
     end)
    (fun error => console_error "WebSocket message error:" error).

(** [ws.on('close', ...)] of the connection [clientId].  The event fires
    once the socket is closed, so the loop of [broadcastToSession] finds
    the closing connection with a [readyState] that is not OPEN. *)
Definition ws_on_close (clientId : string) : Task St unit :=
  (fun w => (Returned tt, with_clients w (socket_closed (connectedClients w) clientId))) ;;;
  client <- (fun w => (Returned (JSMap.get (connectedClients w) clientId), w)) ;;
  match client with
  | Some client =>
      if JS.truthy (ConnectedClient.sessionId client) then
        broadcastToSession (ConnectedClient.sessionId client)
          (WSMessage.mk "agent_status" None
             (Some (StatusData "left" (ConnectedClient.userId client)
                               (ConnectedClient.userType client)))
             None None)
          None
      else ret tt
  | None => ret tt
  end ;;;
  fun w => (Returned tt, with_clients w (JSMap.delete (connectedClients w) clientId)).

Definition json (status : nat) (body : Body) : Task St Response :=
  ret (mkResponse status body).

(** [app.post('/api/auth/login')] *)
Definition post_auth_login (username password : string) : Task St Response :=
  try_catch
    (user <- getUserByUsername username ;;
     match user with
     | None => json 401 (ErrorBody "Invalid credentials")
     | Some user =>
         if negb (User.password user =? password) then
           json 401 (ErrorBody "Invalid credentials")
         else
           updateUserOnlineStatus (User.id user) true ;;;
           json 200 (LoginBody (JSON.spread_with (User_to_js user) "password" JUndefined))
     end)
    (fun _ => json 500 (ErrorBody "Internal server error")).

(** [app.post('/api/chat/start')] *)
Definition post_chat_start (customerEmail customerName : string) : Task St Response :=
  try_catch
    (found <- getCustomerByEmail customerEmail ;;
     customer <- match found with
                 | Some customer => ret customer
                 | None =>
                     now <- Date_now ;;
                     createCustomer
                       (InsertCustomer.mk customerName customerEmail
                          (Some ("CUS-" ++ JS.number_to_string now))
                          (Some 0%N)
                          (Some "regular"))
                 end ;;
     availableAgents <- getAgentsByRole "agent" ;;
     match find (fun agent => JS.is_true (User.isOnline agent)) availableAgents with
     | None => json 503 (ErrorBody "No agents available")
     | Some onlineAgent =>
         now <- Date_now ;;
         uuid <- randomUUID ;;
         let sessionId := "CHT-" ++ JS.number_to_string now ++ "-" ++ JS.slice0 8 uuid in
         session <- createChatSession
                      (InsertChatSession.mk sessionId
                         (Some (Customer.id customer))
                         (Some (User.id onlineAgent))
                         (Some "active")) ;;
         json 200 (StartBody session customer onlineAgent)
     end)
    (fun _ => json 500 (ErrorBody "Failed to start chat session")).

(** [app.post('/api/chat/transfer')] *)
Definition post_chat_transfer (sessionId newAgentId reason : string) : Task St Response :=
  try_catch
    (session <- getChatSessionBySessionId sessionId ;;
     match session with
     | None => json 404 (ErrorBody "Session not found")
     | Some session =>
         newAgent <- getUser newAgentId ;;
         match newAgent with
         | None => json 404 (ErrorBody "Agent not found")
         | Some newAgent =>
             now <- Date_now ;;
             let transferHistory :=
               (array_or_empty (ChatSession.transferHistory session)
                ++ [TransferRecord.mk (ChatSession.agentId session)
                                      (Some newAgentId)
                                      now
                                      (Some reason)])%list in
             updatedSession <- updateChatSession (ChatSession.id session)
                                 (PartialChatSession.mk None None None
                                    (Some (Some newAgentId))
                                    None None None
                                    (Some (Some transferHistory))
                                    None) ;;
             createMessage
               (InsertMessage.mk (Some (ChatSession.id session))
                  (Some "system")
                  (Some "system")
                  (Some ("Chat transferred to " ++ User.name newAgent ++ " ("
                         ++ JS.replace "_" " " (User.role newAgent) ++ ")"))
                  (Some "system")) ;;;
             json 200 (SessionBody updatedSession)
         end
     end)
    (fun _ => json 500 (ErrorBody "Failed to transfer chat")).

(** [app.post('/api/chat/end/:sessionId')] *)
Definition post_chat_end (sessionId : string) : Task St Response :=
  try_catch
    (session <- getChatSessionBySessionId sessionId ;;
     match session with
     | None => json 404 (ErrorBody "Session not found")
     | Some session =>
         now <- Date_now ;;
         updatedSession <- updateChatSession (ChatSession.id session)
                             (PartialChatSession.mk None None None None
                                (Some (Some "resolved"))
                                None
                                (Some (Some now))
                                None None) ;;
         json 200 (SessionBody updatedSession)
     end)
    (fun _ => json 500 (ErrorBody "Failed to end chat session")).

(** [app.get('/api/agents')] *)
Definition get_agents : Task St Response :=
  try_catch
    (agents <- getOnlineAgents ;;
     json 200 (AgentsBody
                 (map (fun agent => JSON.spread_with (User_to_js agent) "password" JUndefined)
                      agents)))
    (fun _ => json 500 (ErrorBody "Failed to fetch agents")).

(** One event or request, its response dropped. *)
Definition handle (r : Request) : Task St unit :=
  match r with
  | WsConnection ws => ws_on_connection ws
  | WsMessage clientId data => ws_on_message clientId data
  | WsClose clientId => ws_on_close clientId
  | PostAuthLogin username password => post_auth_login username password ;;; ret tt
  | PostChatStart customerEmail customerName =>
      post_chat_start customerEmail customerName ;;; ret tt
  | PostChatTransfer sessionId newAgentId reason =>
      post_chat_transfer sessionId newAgentId reason ;;; ret tt
  | PostChatEnd sessionId => post_chat_end sessionId ;;; ret tt
  | GetAgents => get_agents ;;; ret tt
  end.

(** The process serving a sequence of events and requests. *)
Fixpoint serve (rs : list Request) (w : World St) : World St :=
  match rs with
  | [] => w
  | r :: rest => serve rest (run (handle r) w)
  end.

End Routes.

(* ------------------------------------------------------------------ *)
(** ** A storage that fails

    [IStorage] promises nothing about failure; a backend that cannot be
    reached rejects every call.  It stands for any implementation whose
    [createMessage] throws. *)

Module Unreachable.
Inductive t : Type := down.

Definition refuse {A} : Task t A := throw "ECONNREFUSED".
End Unreachable.

#[export] Instance Unreachable_IStorage : IStorage Unreachable.t := {|
  getUser := fun _ => Unreachable.refuse;
  getUserByUsername := fun _ => Unreachable.refuse;
  updateUserOnlineStatus := fun _ _ => Unreachable.refuse;
  getAgentsByRole := fun _ => Unreachable.refuse;
  getOnlineAgents := Unreachable.refuse;
  getCustomerByEmail := fun _ => Unreachable.refuse;
  createCustomer := fun _ => Unreachable.refuse;
  getChatSessionBySessionId := fun _ => Unreachable.refuse;
  createChatSession := fun _ => Unreachable.refuse;
  updateChatSession := fun _ _ => Unreachable.refuse;
  createMessage := fun _ => Unreachable.refuse
|}.

(* ------------------------------------------------------------------ *)
(** ** Properties of sessions and responses *)

(** A session has an end time exactly when it is resolved or terminated. *)
Definition endTime_iff_ended (s : ChatSession.t) : Prop :=
  ChatSession.endTime s <> None
  <-> (ChatSession.status s = Some "resolved" \/ ChatSession.status s = Some "terminated").

Definition lifecycle_invariant (st : MemStorage.t) : Prop :=
  forall k s, In (k, s) (MemStorage.chatSessions st) -> endTime_iff_ended s.

(** [MemStorage] files every session under its own id, once. *)
Definition stored_by_id (st : MemStorage.t) : Prop :=
  NoDup (JSMap.keys (MemStorage.chatSessions st))
  /\ forall k s, In (k, s) (MemStorage.chatSessions st) -> ChatSession.id s = k.

(** A user of the base tier is stored as online. *)
Definition base_agent_online (st : MemStorage.t) : Prop :=
  exists k a, In (k, a) (MemStorage.users st)
              /\ User.role a = "agent" /\ User.isOnline a = Some true.

(** What is written for the user [u] when every member but the password is
    written as it is stored. *)
Definition public_members (u : User.t) : jsv :=
  JObj [ ("id", JStr (User.id u));
         ("username", JStr (User.username u));
         ("role", JStr (User.role u));
         ("name", JStr (User.name u));
         ("email", JStr (User.email u));
         ("isOnline", JSON.of_bool (User.isOnline u));
         ("createdAt", JSON.of_date (User.createdAt u)) ].

(** The user object the login and agent-list routes hand to [res.json]. *)
Definition without_password (u : User.t) : jsv :=
  JSON.spread_with (User_to_js u) "password" JUndefined.

(** What is written for [v] has no [password] member, and is what would
    be written for some user whatever that user's password. *)
Definition written_without_password (v : jsv) : Prop :=
  ~ In "password" (JSON.keys (JSON.stringify v))
  /\ exists u : User.t,
      forall p : string,
        JSON.stringify v = JSON.stringify (without_password (User.with_password u p)).

(** The record [createMessage] receives from the chat_message case. *)
Definition chat_insert (message : WSMessage.t) (data : WSData) : InsertMessage.t :=
  InsertMessage.mk (WSMessage.sessionId message)
                   (WSMessage.userId message)
                   (WSMessage.userType message)
                   (WSData_.content data)
                   (Some "text").

(** The frame the chat_message case broadcasts for a stored message. *)
Definition chat_frame (message : WSMessage.t) (data : WSData) (stored : Message.t)
  : WSMessage.t :=
  WSMessage.mk "chat_message" (WSMessage.sessionId message)
               (Some (MessageData stored (WSData_.senderName data)))
               None None.

(* ------------------------------------------------------------------ *)
(** ** Example worlds

    The users and customers of [MemStorage.seedData], with short ids
    standing for the UUIDs drawn there. *)

Module Demo.

Definition admin : User.t :=
  User.mk "u-admin" "admin" "admin123" "admin" "Sarah Chen"
          "sarah.chen@company.com" (Some true) (Some 1700000000000%N).
Definition teamLead : User.t :=
  User.mk "u-lead" "teamlead1" "password123" "team_lead" "Jennifer Park"
          "jennifer.park@company.com" (Some true) (Some 1700000000000%N).
Definition seniorAgent : User.t :=
  User.mk "u-senior" "senior1" "password123" "senior_agent" "David Kim"
          "david.kim@company.com" (Some true) (Some 1700000000000%N).
Definition mike : User.t :=
  User.mk "u-mike" "agent1" "password123" "agent" "Mike Thompson"
          "mike.thompson@company.com" (Some true) (Some 1700000000000%N).
Definition anna : User.t :=
  User.mk "u-anna" "agent2" "password123" "agent" "Anna Martinez"
          "anna.martinez@company.com" (Some true) (Some 1700000000000%N).

Definition emma : Customer.t :=
  Customer.mk "c-emma" "Emma Wilson" "emma.wilson@email.com" (Some "CUS-2024-5678")
              (Some 1673740800000%N) (Some 24%N) (Some "premium").
Definition alex : Customer.t :=
  Customer.mk "c-alex" "Alex Kumar" "alex.kumar@email.com" (Some "CUS-2024-1234")
              (Some 1679270400000%N) (Some 12%N) (Some "regular").

Definition seed_users : JSMap.t User.t :=
  [ ("u-admin", admin); ("u-lead", teamLead); ("u-senior", seniorAgent);
    ("u-mike", mike); ("u-anna", anna) ].

Definition seed : MemStorage.t :=
  MemStorage.mk seed_users [ ("c-emma", emma); ("c-alex", alex) ] [] [].

(** The same store with both base-tier agents offline. *)
Definition seed_agents_offline : MemStorage.t :=
  MemStorage.with_users seed
    [ ("u-admin", admin); ("u-lead", teamLead); ("u-senior", seniorAgent);
      ("u-mike", User.with_isOnline mike (Some false));
      ("u-anna", User.with_isOnline anna (Some false)) ].

Definition digit (n : nat) : string := JS.number_to_string (N.of_nat (n mod 10)).

(** Distinct UUIDs with distinct first eight characters. *)
Definition uuids (n : nat) : string :=
  "c0ffee0" ++ digit n ++ "-0000-4000-8000-000000000000".

(** Distinct UUIDs that share their first eight characters. *)
Definition uuids_same_prefix (n : nat) : string :=
  "deadbeef-0000-4000-8000-00000000000" ++ digit n.

Definition clock (n : nat) : N := (1700000000000 + N.of_nat n)%N.

(** Every reading falls in the same millisecond. *)
Definition clock_stalled (n : nat) : N := 1700000000000%N.

Definition world (s : MemStorage.t) : World MemStorage.t :=
  mkWorld s [] [] [] uuids 0 clock 0.

Definition open_client (sessionId : option string) : ConnectedClient.t :=
  ConnectedClient.mk OPEN None (Some "customer") sessionId.

(** Three open connections, two bound to CHT-1 and one to CHT-2, and a
    closed one bound to CHT-1. *)
Definition world_with_clients {St} (s : St) : World St :=
  mkWorld s
    [ ("k1", open_client (Some "CHT-1"));
      ("k2", open_client (Some "CHT-1"));
      ("k3", open_client (Some "CHT-2"));
      ("k4", ConnectedClient.mk CLOSED None (Some "customer") (Some "CHT-1"));
      ("k5", open_client None) ]
    [] [] uuids 0 clock 0.

(** A world whose UUIDs share a prefix and whose clock does not advance
    between two requests. *)
Definition world_colliding (s : MemStorage.t) : World MemStorage.t :=
  mkWorld s [] [] [] uuids_same_prefix 0 clock_stalled 0.

(** The session code [post_chat_start] gives the first chat started in
    [world seed] for a new customer. *)
Definition first_code : string := "CHT-1700000000002-c0ffee01".

(** Frames a client may send. *)
Definition typing_frame : WSMessage.t :=
  WSMessage.mk "customer_typing" (Some "CHT-1") None (Some "visitor-1") (Some "customer").

Definition chat_frame_hello : WSMessage.t :=
  WSMessage.mk "chat_message" (Some "CHT-1")
               (Some (Payload (Some "Hello") (Some "Jane") None None))
               (Some "visitor-1") (Some "customer").

Definition chat_frame_empty : WSMessage.t :=
  WSMessage.mk "chat_message" (Some "CHT-1")
               (Some (Payload (Some "") None None None))
               (Some "visitor-5") (Some "customer").

Definition transfer_frame (newAgentId : string) : WSMessage.t :=
  WSMessage.mk "session_transfer" (Some first_code)
               (Some (Payload None None (Some newAgentId) (Some "escalation")))
               (Some "u-mike") (Some "agent").

(** Two chats started in [world_colliding seed]. *)
Definition started_twice : World MemStorage.t :=
  run (post_chat_start "alex.kumar@email.com" "Alex Kumar")
      (run (post_chat_start "jane@x.com" "Jane Doe") (world_colliding seed)).

(** [world_with_clients seed] after Jane Doe started a chat. *)
Definition started : World MemStorage.t :=
  run (post_chat_start "jane@x.com" "Jane Doe") (world_with_clients seed).

End Demo.

(* ------------------------------------------------------------------ *)
(** ** Arrays and strings: what the remaining code uses *)

Module JSArray.

(** [a.sort((x, y) => key(x) - key(y))].  [Array.prototype.sort] is
    stable, so the result is the one stable arrangement by [key]; it is
    computed here by insertion from the right. *)
Fixpoint insert_by {A} (key : A -> N) (x : A) (l : list A) : list A :=
  match l with
  | [] => [x]
  | y :: r => if (key x <=? key y)%N then x :: y :: r else y :: insert_by key x r
  end.

Definition sort_by {A} (key : A -> N) (l : list A) : list A :=
  fold_right (insert_by key) [] l.

(** [a.slice(-n)] for an integer [n >= 0]: [-0] is [0], so [a.slice(-0)] is
    the whole array. *)
Definition slice_last {A} (n : nat) (l : list A) : list A :=
  match n with
  | 0 => l
  | S _ => skipn (List.length l - n) l
  end.

End JSArray.

Module JSString.

(** [c.toLowerCase()] on one ASCII character; the text handled here is
    taken to be ASCII. *)
Definition lower (c : ascii) : ascii :=
  let n := nat_of_ascii c in
  if (65 <=? n)%nat && (n <=? 90)%nat then ascii_of_nat (n + 32) else c.

Fixpoint toLowerCase (s : string) : string :=
  match s with
  | EmptyString => EmptyString
  | String c r => String (lower c) (toLowerCase r)
  end.

End JSString.

(* ------------------------------------------------------------------ *)
(** ** server/storage.ts: the remaining methods of [MemStorage] *)

Module InsertUser.
Record t := mk {
  username : string;
  password : string;
  role : option string;
  name : string;
  email : string
}.
End InsertUser.

Module PartialCustomer.
(** [Partial<Customer>], read as [PartialChatSession] is. *)
Record t := mk {
  id : option string;
  name : option string;
  email : option string;
  customerId : option (option string);
  memberSince : option (option N);
  totalOrders : option (option N);
  status : option (option string)
}.

(** [{ ...customer, ...updates }] *)
Definition spread (customer : Customer.t) (updates : t) : Customer.t :=
  Customer.mk
    (PartialChatSession.override (Customer.id customer) (id updates))
    (PartialChatSession.override (Customer.name customer) (name updates))
    (PartialChatSession.override (Customer.email customer) (email updates))
    (PartialChatSession.override (Customer.customerId customer) (customerId updates))
    (PartialChatSession.override (Customer.memberSince customer) (memberSince updates))
    (PartialChatSession.override (Customer.totalOrders customer) (totalOrders updates))
    (PartialChatSession.override (Customer.status customer) (status updates)).
End PartialCustomer.

Module MemStorageRest.

Import MemStorage.

Definition createUser (insertUser : InsertUser.t) : Task MemStorage.t User.t :=
  id <- randomUUID ;;
  now <- Date_now ;;
  let user :=
    User.mk id
      (InsertUser.username insertUser)
      (InsertUser.password insertUser)
      (match JS.or_else (InsertUser.role insertUser) "agent" with
       | Some role => role
       | None => "agent"
       end)
      (InsertUser.name insertUser)
      (InsertUser.email insertUser)
      (Some false)
      (Some now) in
  write (fun this => with_users this (JSMap.set (users this) id user)) ;;;
  ret user.

Definition getCustomer (id : string) : Task MemStorage.t (option Customer.t) :=
  read (fun this => JSMap.get (customers this) id).

Definition updateCustomer (id : string) (updates : PartialCustomer.t)
  : Task MemStorage.t (option Customer.t) :=
  customer <- read (fun this => JSMap.get (customers this) id) ;;
  match customer with
  | Some customer =>
      let updated := PartialCustomer.spread customer updates in
      write (fun this => with_customers this (JSMap.set (customers this) id updated)) ;;;
      ret (Some updated)
  | None => ret None
  end.

Definition getChatSession (id : string) : Task MemStorage.t (option ChatSession.t) :=
  read (fun this => JSMap.get (chatSessions this) id).

Definition getActiveSessions : Task MemStorage.t (list ChatSession.t) :=
  read (fun this =>
          filter (fun session =>
                    JS.opt_eqb (ChatSession.status session) (Some "active")
                    || JS.opt_eqb (ChatSession.status session) (Some "waiting"))
                 (JSMap.values (chatSessions this))).

Definition getSessionsByAgent (agentId : string) : Task MemStorage.t (list ChatSession.t) :=
  read (fun this =>
          filter (fun session => JS.opt_eqb (ChatSession.agentId session) (Some agentId))
                 (JSMap.values (chatSessions this))).

Definition getSessionsByCustomer (customerId : string)
  : Task MemStorage.t (list ChatSession.t) :=
  read (fun this =>
          filter (fun session => JS.opt_eqb (ChatSession.customerId session) (Some customerId))
                 (JSMap.values (chatSessions this))).

Definition getMessage (id : string) : Task MemStorage.t (option Message.t) :=
  read (fun this => JSMap.get (messages this) id).

(** [m.timestamp?.getTime() || 0] *)
Definition time_or_zero (m : Message.t) : N :=
  match Message.timestamp m with
  | Some t => t
  | None => 0%N
  end.

Definition getMessagesBySession (sessionId : string) : Task MemStorage.t (list Message.t) :=
  read (fun this =>
          JSArray.sort_by time_or_zero
            (filter (fun message => JS.opt_eqb (Message.sessionId message) (Some sessionId))
                    (JSMap.values (messages this)))).

Definition getRecentMessages (sessionId : string) (limit : nat)
  : Task MemStorage.t (list Message.t) :=
  messages <- getMessagesBySession sessionId ;;
  ret (JSArray.slice_last limit messages).

End MemStorageRest.

Module SOPDocument.
Record t := mk {
  id : string;
  title : string;
  category : string;
  content : string;
  keywords : option (list string);
  version : option string;
  lastUpdated : option N;
  uploadedBy : option string
}.
End SOPDocument.

Module InsertSOPDocument.
Record t := mk {
  title : string;
  category : string;
  content : string;
  keywords : option (list string);
  version : option string;
  uploadedBy : option string
}.
End InsertSOPDocument.

Module PartialSOPDocument.
(** [Partial<SOPDocument>], read as [PartialChatSession] is. *)
Record t := mk {
  id : option string;
  title : option string;
  category : option string;
  content : option string;
  keywords : option (option (list string));
  version : option (option string);
  lastUpdated : option (option N);
  uploadedBy : option (option string)
}.

(** [{ ...sop, ...updates, lastUpdated: now }] *)
Definition spread_at (sop : SOPDocument.t) (updates : t) (now : N) : SOPDocument.t :=
  SOPDocument.mk
    (PartialChatSession.override (SOPDocument.id sop) (id updates))
    (PartialChatSession.override (SOPDocument.title sop) (title updates))
    (PartialChatSession.override (SOPDocument.category sop) (category updates))
    (PartialChatSession.override (SOPDocument.content sop) (content updates))
    (PartialChatSession.override (SOPDocument.keywords sop) (keywords updates))
    (PartialChatSession.override (SOPDocument.version sop) (version updates))
    (Some now)
    (PartialChatSession.override (SOPDocument.uploadedBy sop) (uploadedBy updates)).
End PartialSOPDocument.

(** The [sopDocuments] map of [MemStorage]; its methods read and write no
    other map. *)
Module SopStorage.

Record t := mk {
  sopDocuments : JSMap.t SOPDocument.t
}.

Definition read {A} (f : t -> A) : Task t A :=
  fun w => (Returned (f (storage w)), w).

Definition write (f : t -> t) : Task t unit :=
  fun w => (Returned tt, with_storage w (f (storage w))).

Definition getSOPDocument (id : string) : Task t (option SOPDocument.t) :=
  read (fun this => JSMap.get (sopDocuments this) id).

Definition getSOPDocuments : Task t (list SOPDocument.t) :=
  read (fun this => JSMap.values (sopDocuments this)).

Definition getSOPByCategory (category : string) : Task t (list SOPDocument.t) :=
  read (fun this =>
          filter (fun sop => SOPDocument.category sop =? category)
                 (JSMap.values (sopDocuments this))).

(** The body of [keywords.some(keyword => ...)] for a keyword that is a
    string. *)
Definition mentions (sop : SOPDocument.t) (keyword : string) : bool :=
  let k := JSString.toLowerCase keyword in
  JS.includes k (JSString.toLowerCase (SOPDocument.title sop))
  || JS.includes k (JSString.toLowerCase (SOPDocument.content sop))
  || match SOPDocument.keywords sop with
     | Some ks => existsb (fun x => JS.includes k (JSString.toLowerCase x)) ks
     | None => false
     end.

(** [keywords.some(...)]: a keyword that is not a string ([None]) makes
    [keyword.toLowerCase()] throw when it is reached. *)
Fixpoint some_keyword (sop : SOPDocument.t) (keywords : list (option string))
  : outcome bool :=
  match keywords with
  | [] => Returned false
  | None :: _ => Thrown "TypeError"
  | Some keyword :: rest =>
      if mentions sop keyword then Returned true else some_keyword sop rest
  end.

(** [docs.filter(sop => keywords.some(...))], which stops at the first
    document whose test throws. *)
Fixpoint filter_some (keywords : list (option string)) (docs : list SOPDocument.t)
  : outcome (list SOPDocument.t) :=
  match docs with
  | [] => Returned []
  | sop :: rest =>
      match some_keyword sop keywords with
      | Thrown e => Thrown e
      | Returned hit =>
          match filter_some keywords rest with
          | Thrown e => Thrown e
          | Returned found => Returned (if hit then sop :: found else found)
          end
      end
  end.

Definition searchSOPs (keywords : list (option string)) : Task t (list SOPDocument.t) :=
  fun w => (filter_some keywords (JSMap.values (sopDocuments (storage w))), w).

Definition createSOPDocument (insertSOP : InsertSOPDocument.t) : Task t SOPDocument.t :=
  id <- randomUUID ;;
  now <- Date_now ;;
  let sop :=
    SOPDocument.mk id
      (InsertSOPDocument.title insertSOP)
      (InsertSOPDocument.category insertSOP)
      (InsertSOPDocument.content insertSOP)
      (InsertSOPDocument.keywords insertSOP)
      (JS.or_else (InsertSOPDocument.version insertSOP) "1.0")
      (Some now)
      (JS.or_null (InsertSOPDocument.uploadedBy insertSOP)) in
  write (fun this => mk (JSMap.set (sopDocuments this) id sop)) ;;;
  ret sop.

Definition updateSOPDocument (id : string) (updates : PartialSOPDocument.t)
  : Task t (option SOPDocument.t) :=
  sop <- read (fun this => JSMap.get (sopDocuments this) id) ;;
  match sop with
  | Some sop =>
      now <- Date_now ;;
      let updated := PartialSOPDocument.spread_at sop updates now in
      write (fun this => mk (JSMap.set (sopDocuments this) id updated)) ;;;
      ret (Some updated)
  | None => ret None
  end.

(** [this.sopDocuments.delete(id)]: whether the key was there. *)
Definition deleteSOPDocument (id : string) : Task t bool :=
  existed <- read (fun this =>
                     match JSMap.get (sopDocuments this) id with
                     | Some _ => true
                     | None => false
                     end) ;;
  write (fun this => mk (JSMap.delete (sopDocuments this) id)) ;;;
  ret existed.

End SopStorage.

(* ------------------------------------------------------------------ *)
(** ** server/routes.ts: the remaining routes, on [MemStorage] *)

(** [res.json(value)] with its status, or [res.status(n).json({ error })]. *)
Inductive Reply (A : Type) : Type :=
| Answer (status : nat) (value : A)
| Refusal (status : nat) (error : string).

Arguments Answer {A}.
Arguments Refusal {A}.

(** [for (const x of l) ys.push(await f(x))]: what
    [Promise.all(l.map(async x => f(x)))] gives when [f] only reads. *)
Fixpoint for_each {St A B} (f : A -> Task St B) (l : list A) : Task St (list B) :=
  match l with
  | [] => ret []
  | x :: rest =>
      y <- f x ;;
      ys <- for_each f rest ;;
      ret (y :: ys)
  end.

Module EnrichedSession.
(** [{ ...session, customer, agent, lastMessage }] *)
Record t := mk {
  session : ChatSession.t;
  customer : option Customer.t;
  agent : option User.t;
  lastMessage : option Message.t
}.
End EnrichedSession.

Module DashboardStats.
Record t := mk {
  activeChats : nat;
  waitingChats : nat;
  onlineAgents : nat;
  totalSessions : nat
}.
End DashboardStats.

(** The function mapped over the sessions by GET /api/chat/sessions. *)
Definition enrich_session (session : ChatSession.t) : Task MemStorage.t EnrichedSession.t :=
  customer <- match ChatSession.customerId session with
              | Some customerId =>
                  if JS.truthy (Some customerId)
                  then MemStorageRest.getCustomer customerId
                  else ret None
              | None => ret None
              end ;;
  agent <- match ChatSession.agentId session with
           | Some agentId =>
               if JS.truthy (Some agentId)
               then MemStorage.getUser agentId
               else ret None
           | None => ret None
           end ;;
  messages <- MemStorageRest.getRecentMessages (ChatSession.id session) 1 ;;
  ret (EnrichedSession.mk session customer agent (hd_error messages)).

(** [app.get('/api/chat/sessions')] *)
Definition get_chat_sessions : Task MemStorage.t (Reply (list EnrichedSession.t)) :=
  try_catch
    (sessions <- MemStorageRest.getActiveSessions ;;
     enrichedSessions <- for_each enrich_session sessions ;;
     ret (Answer 200 enrichedSessions))
    (fun _ => ret (Refusal 500 "Failed to fetch chat sessions")).

(** [app.get('/api/chat/sessions/:sessionId/messages')] *)
Definition get_session_messages (sessionId : string)
  : Task MemStorage.t (Reply (list Message.t)) :=
  try_catch
    (session <- MemStorage.getChatSessionBySessionId sessionId ;;
     match session with
     | None => ret (Refusal 404 "Session not found")
     | Some session =>
         messages <- MemStorageRest.getMessagesBySession (ChatSession.id session) ;;
         ret (Answer 200 messages)
     end)
    (fun _ => ret (Refusal 500 "Failed to fetch messages")).

(** [app.get('/api/agents/by-role/:role')] *)
Definition get_agents_by_role (role : string) : Task MemStorage.t (Reply (list jsv)) :=
  try_catch
    (agents <- MemStorage.getAgentsByRole role ;;
     ret (Answer 200
            (map (fun agent => JSON.spread_with (User_to_js agent) "password" JUndefined)
                 agents)))
    (fun _ => ret (Refusal 500 "Failed to fetch agents by role")).

(** [app.get('/api/dashboard/stats')] *)
Definition get_dashboard_stats : Task MemStorage.t (Reply DashboardStats.t) :=
  try_catch
    (activeSessions <- MemStorageRest.getActiveSessions ;;
     onlineAgents <- MemStorage.getOnlineAgents ;;
     let activeChats :=
       List.length (filter (fun s => JS.opt_eqb (ChatSession.status s) (Some "active"))
                           activeSessions) in
     let waitingChats :=
       List.length (filter (fun s => JS.opt_eqb (ChatSession.status s) (Some "waiting"))
                           activeSessions) in
     ret (Answer 200
            (DashboardStats.mk activeChats waitingChats
                               (List.length onlineAgents)
                               (List.length activeSessions))))
    (fun _ => ret (Refusal 500 "Failed to fetch dashboard stats")).

(** ** The SOP routes, on the [sopDocuments] map *)

(** [req.body.keywords], typed [any]: an array, whose elements are strings
    or not, or one value that is no array. *)
Inductive KeywordsField : Type :=
| KeywordArray (keywords : list (option string))
| KeywordValue (keyword : option string).

(** [app.get('/api/sop')] *)
Definition get_sop : Task SopStorage.t (Reply (list SOPDocument.t)) :=
  try_catch
    (sops <- SopStorage.getSOPDocuments ;;
     ret (Answer 200 sops))
    (fun _ => ret (Refusal 500 "Failed to fetch SOP documents")).

(** [app.post('/api/sop/search')] *)
Definition post_sop_search (keywords : KeywordsField)
  : Task SopStorage.t (Reply (list SOPDocument.t)) :=
  try_catch
    (let keywordArray :=
       match keywords with
       | KeywordArray l => l
       | KeywordValue v => [v]
       end in
     sops <- SopStorage.searchSOPs keywordArray ;;
     ret (Answer 200 sops))
    (fun _ => ret (Refusal 500 "Failed to search SOP documents")).

(** [app.post('/api/sop')]; [None] is a body [insertSOPSchema.parse]
    rejects. *)
Definition post_sop (body : option InsertSOPDocument.t)
  : Task SopStorage.t (Reply SOPDocument.t) :=
  try_catch
    (sopData <- match body with
                | Some sopData => ret sopData
                | None => throw "ZodError"
                end ;;
     sop <- SopStorage.createSOPDocument sopData ;;
     ret (Answer 200 sop))
    (fun _ => ret (Refusal 500 "Failed to create SOP document")).

(** [app.put('/api/sop/:id')] *)
Definition put_sop (id : string) (updates : PartialSOPDocument.t)
  : Task SopStorage.t (Reply SOPDocument.t) :=
  try_catch
    (sop <- SopStorage.updateSOPDocument id updates ;;
     match sop with
     | None => ret (Refusal 404 "SOP document not found")
     | Some sop => ret (Answer 200 sop)
     end)
    (fun _ => ret (Refusal 500 "Failed to update SOP document")).

(** [app.delete('/api/sop/:id')]; the answer [{ success: true }] is [tt]. *)
Definition delete_sop (id : string) : Task SopStorage.t (Reply unit) :=
  try_catch
    (deleted <- SopStorage.deleteSOPDocument id ;;
     if deleted then ret (Answer 200 tt)
     else ret (Refusal 404 "SOP document not found"))
    (fun _ => ret (Refusal 500 "Failed to delete SOP document")).

(** ** The export route *)

Module JSText.

(** The double-quote character. *)
Definition quote : string := String "034"%char EmptyString.

(** The line-feed character. *)
Definition newline : string := String "010"%char EmptyString.

(** [l.join(sep)] *)
Fixpoint join (sep : string) (l : list string) : string :=
  match l with
  | [] => EmptyString
  | [x] => x
  | x :: rest => x ++ sep ++ join sep rest
  end.

(** [`${v}`] for a [string | null]. *)
Definition of_nullable (o : option string) : string :=
  match o with
  | Some s => s
  | None => "null"
  end.

(** [`${v}`] for a string property that may be missing. *)
Definition of_optional (o : option string) : string :=
  match o with
  | Some s => s
  | None => "undefined"
  end.

(** [s || d] for a [string | undefined] *)
Definition or_text (o : option string) (d : string) : string :=
  match o with
  | Some s => if s =? "" then d else s
  | None => d
  end.

End JSText.

Module ExportEntry.
(** [{ session: { ...session, customer, agent }, messages }]; [agent] is the
    object [{ ...agent, password: undefined }]. *)
Record t := mk {
  session : ChatSession.t;
  customer : option Customer.t;
  agent : option jsv;
  messages : list Message.t
}.
End ExportEntry.

Module CsvRow.
(** The object built for each message, its properties in the order of
    the literal. *)
Record t := mk {
  sessionId : string;
  customerName : string;
  customerEmail : string;
  agentName : string;
  agentRole : string;
  messageContent : option string;
  senderType : option string;
  timestamp : option N;
  sessionStart : option N;
  sessionEnd : option N;
  sessionStatus : option string
}.

Definition keys : list string :=
  [ "sessionId"; "customerName"; "customerEmail"; "agentName"; "agentRole";
    "messageContent"; "senderType"; "timestamp"; "sessionStart"; "sessionEnd";
    "sessionStatus" ].
End CsvRow.

Inductive ExportBody : Type :=
| ExportJson (exportData : list ExportEntry.t)
| ExportCsv (text : string).

Module ExportAnswer.
Record t := mk {
  contentType : string;
  contentDisposition : string;
  body : ExportBody
}.
End ExportAnswer.

(** [o.k] for an object [o], when it is a string. *)
Definition js_string_prop (o : jsv) (k : string) : option string :=
  match o with
  | JObj props =>
      match find (fun p : string * jsv => fst p =? k) props with
      | Some (_, JStr s) => Some s
      | _ => None
      end
  | _ => None
  end.

Section ExportRoute.

(** [`${d}`] for a [Date]: the text [Date.prototype.toString] gives, which
    depends on the time zone of the process. *)
Variable Date_toString : N -> string.

Definition date_text (o : option N) : string :=
  match o with
  | Some t => Date_toString t
  | None => "null"
  end.

(** The function mapped over the sessions by the export route. *)
Definition export_session (session : ChatSession.t) : Task MemStorage.t ExportEntry.t :=
  customer <- match ChatSession.customerId session with
              | Some customerId =>
                  if JS.truthy (Some customerId)
                  then MemStorageRest.getCustomer customerId
                  else ret None
              | None => ret None
              end ;;
  agent <- match ChatSession.agentId session with
           | Some agentId =>
               if JS.truthy (Some agentId)
               then MemStorage.getUser agentId
               else ret None
           | None => ret None
           end ;;
  messages <- MemStorageRest.getMessagesBySession (ChatSession.id session) ;;
  ret (ExportEntry.mk session customer
         (option_map (fun agent => JSON.spread_with (User_to_js agent) "password" JUndefined)
                     agent)
         messages).

(** The rows [exportData.flatMap(...)] builds for one entry. *)
Definition csv_rows (entry : ExportEntry.t) : list CsvRow.t :=
  map (fun message =>
         CsvRow.mk
           (ChatSession.sessionId (ExportEntry.session entry))
           (JSText.or_text (option_map Customer.name (ExportEntry.customer entry)) "Unknown")
           (JSText.or_text (option_map Customer.email (ExportEntry.customer entry)) "Unknown")
           (JSText.or_text
              (match ExportEntry.agent entry with
               | Some agent => js_string_prop agent "name"
               | None => None
               end) "Unknown")
           (JSText.or_text
              (match ExportEntry.agent entry with
               | Some agent => js_string_prop agent "role"
               | None => None
               end) "Unknown")
           (Message.content message)
           (Message.senderType message)
           (Message.timestamp message)
           (ChatSession.startTime (ExportEntry.session entry))
           (ChatSession.endTime (ExportEntry.session entry))
           (ChatSession.status (ExportEntry.session entry)))
      (ExportEntry.messages entry).

(** [Object.values(row).map(val => `"${val}"`).join(',')] *)
Definition csv_line (row : CsvRow.t) : string :=
  JSText.join ","
    (map (fun val => JSText.quote ++ val ++ JSText.quote)
         [ CsvRow.sessionId row;
           CsvRow.customerName row;
           CsvRow.customerEmail row;
           CsvRow.agentName row;
           CsvRow.agentRole row;
           JSText.of_optional (CsvRow.messageContent row);
           JSText.of_optional (CsvRow.senderType row);
           date_text (CsvRow.timestamp row);
           date_text (CsvRow.sessionStart row);
           date_text (CsvRow.sessionEnd row);
           JSText.of_nullable (CsvRow.sessionStatus row) ]).

(** The text sent for the rows [csvData]. *)
Definition csv_text (csvData : list CsvRow.t) : string :=
  let headers :=
    JSText.join "," (match csvData with
                     | [] => []
                     | _ :: _ => CsvRow.keys
                     end) in
  JSText.join JSText.newline (headers :: map csv_line csvData).

(** [app.get('/api/export/conversations/:type')]; [format], [customerId]
    and [agentId] are the query parameters, [None] when absent. *)
Definition get_export_conversations (type : string) (format customerId agentId : option string)
  : Task MemStorage.t (Reply ExportAnswer.t) :=
  try_catch
    (let format := match format with Some f => f | None => "json" end in
     sessions <-
       (if type =? "all" then
          MemStorage.read (fun this => JSMap.values (MemStorage.chatSessions this))
        else if type =? "customer-wise" then
          match customerId with
          | Some customerId =>
              if JS.truthy (Some customerId)
              then MemStorageRest.getSessionsByCustomer customerId
              else ret []
          | None => ret []
          end
        else if type =? "agent-wise" then
          match agentId with
          | Some agentId =>
              if JS.truthy (Some agentId)
              then MemStorageRest.getSessionsByAgent agentId
              else ret []
          | None => ret []
          end
        else ret []) ;;
     exportData <- for_each export_session sessions ;;
     if format =? "csv" then
       let csvData := flat_map csv_rows exportData in
       now <- Date_now ;;
       ret (Answer 200
              (ExportAnswer.mk "text/csv"
                 ("attachment; filename=" ++ JSText.quote ++ "conversations-" ++ type ++ "-"
                    ++ JS.number_to_string now ++ ".csv" ++ JSText.quote)
                 (ExportCsv (csv_text csvData))))
     else
       now <- Date_now ;;
       ret (Answer 200
              (ExportAnswer.mk "application/json"
                 ("attachment; filename=" ++ JSText.quote ++ "conversations-" ++ type ++ "-"
                    ++ JS.number_to_string now ++ ".json" ++ JSText.quote)
                 (ExportJson exportData))))
    (fun _ => ret (Refusal 500 "Failed to export conversations")).

End ExportRoute.

(* ------------------------------------------------------------------ *)
(** ** Properties of the remaining methods and routes *)

(** [a] carries a timestamp no later than [b]'s, a missing timestamp
    counting as the epoch. *)
Definition not_later (a b : Message.t) : Prop :=
  (MemStorageRest.time_or_zero a <= MemStorageRest.time_or_zero b)%N.

(** The stored messages whose [sessionId] is [id], in the order of the
    map. *)
Definition filed_under (st : MemStorage.t) (id : string) : list Message.t :=
  filter (fun m => JS.opt_eqb (Message.sessionId m) (Some id))
         (JSMap.values (MemStorage.messages st)).

Definition has_status (status : string) (s : ChatSession.t) : bool :=
  JS.opt_eqb (ChatSession.status s) (Some status).

(** The sessions the agent console lists. *)
Definition is_listed (s : ChatSession.t) : bool :=
  has_status "active" s || has_status "waiting" s.

(** One entry of an export, read off the store. *)
Definition exported (st : MemStorage.t) (session : ChatSession.t) : ExportEntry.t :=
  ExportEntry.mk session
    (match ChatSession.customerId session with
     | Some customerId =>
         if JS.truthy (Some customerId) then JSMap.get (MemStorage.customers st) customerId
         else None
     | None => None
     end)
    (option_map without_password
       (match ChatSession.agentId session with
        | Some agentId =>
            if JS.truthy (Some agentId) then JSMap.get (MemStorage.users st) agentId
            else None
        | None => None
        end))
    (JSArray.sort_by MemStorageRest.time_or_zero (filed_under st (ChatSession.id session))).

(** Every frame of [frames] went to a connection of [clients] whose
    socket is open. *)
Definition to_open_sockets (clients : JSMap.t ConnectedClient.t)
           (frames : list (string * WSMessage.t)) : Prop :=
  forall c frame, In (c, frame) frames ->
                  exists client, In (c, client) clients /\ ConnectedClient.ws client = OPEN.

(** The frame the join_session case broadcasts. *)
Definition joined_frame (message : WSMessage.t) : WSMessage.t :=
  WSMessage.mk "agent_status" None
    (Some (StatusData "joined" (WSMessage.userId message) (WSMessage.userType message)))
    None None.

(** The frame the close handler broadcasts for the connection [client]. *)
Definition left_frame (client : ConnectedClient.t) : WSMessage.t :=
  WSMessage.mk "agent_status" None
    (Some (StatusData "left" (ConnectedClient.userId client) (ConnectedClient.userType client)))
    None None.

(** The frame types the switch of the message handler has a case for. *)
Definition handled_types : list string :=
  [ "join_session"; "chat_message"; "agent_typing"; "customer_typing";
    "session_transfer"; "session_ended" ].

(** [u'] is [u], or [u] with [isOnline] set. *)
Definition same_but_online (u u' : User.t) : Prop :=
  u' = u \/ u' = User.with_isOnline u (Some true).

(** The users map [us'] has the keys of [us], in the same order, and
    under each key the same user, possibly set online. *)
Definition users_kept (us us' : JSMap.t User.t) : Prop :=
  Forall2 (fun e e' : string * User.t => fst e' = fst e /\ same_but_online (snd e) (snd e'))
          us us'.

(** Every key of the customers, sessions and messages of [st] is a key
    of the same map of [st']. *)
Definition nothing_removed (st st' : MemStorage.t) : Prop :=
  incl (JSMap.keys (MemStorage.customers st)) (JSMap.keys (MemStorage.customers st'))
  /\ incl (JSMap.keys (MemStorage.chatSessions st)) (JSMap.keys (MemStorage.chatSessions st'))
  /\ incl (JSMap.keys (MemStorage.messages st)) (JSMap.keys (MemStorage.messages st')).

(** [s'] is a later state of the session [s]: the same id, code, customer
    and start, a transfer history that extends that of [s], and an end
    that is not taken back. *)
Definition session_continues (s s' : ChatSession.t) : Prop :=
  ChatSession.id s' = ChatSession.id s
  /\ ChatSession.sessionId s' = ChatSession.sessionId s
  /\ ChatSession.customerId s' = ChatSession.customerId s
  /\ ChatSession.startTime s' = ChatSession.startTime s
  /\ (exists added,
         array_or_empty (ChatSession.transferHistory s')
         = (array_or_empty (ChatSession.transferHistory s) ++ added)%list)
  /\ (ChatSession.status s = Some "resolved" -> ChatSession.status s' = Some "resolved")
  /\ (ChatSession.endTime s <> None -> ChatSession.endTime s' <> None).

(* ------------------------------------------------------------------ *)
(** ** More example worlds *)

Module Samples.

(** A chat of Emma Wilson with Mike Thompson, filed under the id [s-1]
    with the code [CHT-1]. *)
Definition session : ChatSession.t :=
  ChatSession.mk "s-1" "CHT-1" (Some "c-emma") (Some "u-mike") (Some "active")
                 (Some 1699999990000%N) None (Some []) None.

Definition store : MemStorage.t :=
  MemStorage.with_chatSessions Demo.seed [ ("s-1", session) ].

(** The connections of [Demo.world_with_clients] around that store. *)
Definition world : World MemStorage.t := Demo.world_with_clients store.

Definition join_frame : WSMessage.t :=
  WSMessage.mk "join_session" (Some "CHT-1") None (Some "visitor-5") (Some "customer").

(** A typing frame that names CHT-2, whoever sends it. *)
Definition typing_frame_elsewhere : WSMessage.t :=
  WSMessage.mk "customer_typing" (Some "CHT-2") None (Some "visitor-1") (Some "customer").

Definition ping_frame : WSMessage.t :=
  WSMessage.mk "ping" (Some "CHT-1") None (Some "visitor-1") (Some "customer").

Definition refunds : SOPDocument.t :=
  SOPDocument.mk "sop-1" "Refund Policy" "billing"
                 "Refunds are issued within 14 days of a request."
                 (Some [ "refund"; "billing" ]) (Some "1.0") (Some 1700000000000%N) None.

Definition escalation : SOPDocument.t :=
  SOPDocument.mk "sop-2" "Escalation" "support"
                 "Hand the chat to a senior agent after two failed answers."
                 None (Some "2.1") (Some 1700000000000%N) (Some "u-admin").

Definition sop_world : World SopStorage.t :=
  mkWorld (SopStorage.mk [ ("sop-1", refunds); ("sop-2", escalation) ])
          [] [] [] Demo.uuids 0 Demo.clock 0.

(** What [post_chat_start] stores and answers for Jane Doe in
    [Demo.world Demo.seed]. *)
Definition jane : Customer.t :=
  Customer.mk "c0ffee00-0000-4000-8000-000000000000" "Jane Doe" "jane@x.com"
              (Some "CUS-1700000000000") (Some 1700000000001%N) (Some 0%N)
              (Some "regular").

Definition jane_session : ChatSession.t :=
  ChatSession.mk "c0ffee02-0000-4000-8000-000000000000" Demo.first_code
                 (Some "c0ffee00-0000-4000-8000-000000000000") (Some "u-mike")
                 (Some "active") (Some 1700000000003%N) None (Some []) None.

(** The text written for a date in the examples: its milliseconds. *)
Definition millis (t : N) : string := JS.number_to_string t.

End Samples.

(* ================================================================== *)
(** * Lemmas *)

Ltac run_task :=
  unfold result, run, try_catch, bind, json, ret;
  cbn -[append JS.number_to_string JS.slice0 JS.replace JS.includes
        JSMap.set JSMap.get find filter receivers socket_closed].

(** Rewrites the lookup [find p l] of the goal with a known result. *)
Ltac know_find H :=
  match type of H with
  | _ = ?r =>
      match goal with
      | |- context [find ?p ?l] =>
          replace (find p l) with r by (symmetry; exact H)
      end
  end.

(** ** Maps *)

Lemma JSMap_get_In {V} (m : JSMap.t V) k v : JSMap.get m k = Some v -> In (k, v) m.
Proof.
  induction m as [|[k' v'] m IH]; cbn; [discriminate|].
  destruct (k' =? k) eqn:E.
  - intros [= ->]. apply String.eqb_eq in E. subst. now left.
  - intros Hg. right. now apply IH.
Qed.

Lemma JSMap_In_set {V} (m : JSMap.t V) k v k' v' :
  In (k', v') (JSMap.set m k v) -> (k' = k /\ v' = v) \/ In (k', v') m.
Proof.
  induction m as [|[k0 v0] m IH]; cbn.
  - intros [[= <- <-]|[]]. now left.
  - destruct (k0 =? k) eqn:E; cbn.
    + apply String.eqb_eq in E. subst.
      intros [[= <- <-]|Hin]; [now left | right; now right].
    + intros [Heq|Hin]; [right; now left|].
      destruct (IH Hin) as [?|?]; [now left | right; now right].
Qed.

Lemma JSMap_get_set_same {V} (m : JSMap.t V) k v : JSMap.get (JSMap.set m k v) k = Some v.
Proof.
  induction m as [|[k' v'] m IH]; cbn.
  - now rewrite String.eqb_refl.
  - destruct (k' =? k) eqn:E; cbn; rewrite E; [reflexivity | exact IH].
Qed.

Lemma JSMap_set_fresh {V} (m : JSMap.t V) k v :
  JSMap.get m k = None -> JSMap.set m k v = (m ++ [(k, v)])%list.
Proof.
  induction m as [|[k' v'] m IH]; cbn; [reflexivity|].
  destruct (k' =? k); [discriminate|]. intros Hg. now rewrite IH.
Qed.

(** ** Strings *)

Lemma prefix_append (s t : string) : prefix s (s ++ t) = true.
Proof.
  induction s as [|a s IH]; cbn; [now destruct t|].
  destruct (ascii_dec a a) as [_|Hne]; [exact IH | now elim Hne].
Qed.



Lemma or_null_nonempty (s : string) : s <> "" -> JS.or_null (Some s) = Some s.
Proof.
  intros Hs. unfold JS.or_null, JS.truthy.
  destruct (s =? "") eqn:E; [apply String.eqb_eq in E; contradiction | reflexivity].
Qed.

(** ** The lifecycle invariant *)

Lemma invariant_set st k s :
  lifecycle_invariant st -> endTime_iff_ended s ->
  lifecycle_invariant
    (MemStorage.with_chatSessions st (JSMap.set (MemStorage.chatSessions st) k s)).
Proof.
  intros Hinv Hs k' s' Hin. cbn in Hin.
  apply JSMap_In_set in Hin. destruct Hin as [[_ ->]|Hin]; [exact Hs|].
  now apply (Hinv k').
Qed.

Lemma created_ok id code c a t :
  endTime_iff_ended (ChatSession.mk id code c a (Some "active") t None (Some []) None).
Proof. split; cbn; [congruence | intros [?|?]; discriminate]. Qed.

Lemma ended_ok s now :
  endTime_iff_ended
    (PartialChatSession.spread s
       (PartialChatSession.mk None None None None (Some (Some "resolved")) None
                              (Some (Some now)) None None)).
Proof. split; cbn; [intros _; now left | discriminate]. Qed.

Lemma transferred_ok s a h :
  endTime_iff_ended s ->
  endTime_iff_ended
    (PartialChatSession.spread s
       (PartialChatSession.mk None None None (Some a) None None None (Some h) None)).
Proof. intros Hs. exact Hs. Qed.

Lemma handle_preserves_invariant (r : Request) (w : World MemStorage.t) :
  lifecycle_invariant (storage w) -> lifecycle_invariant (storage (run (handle r) w)).
Proof.
  intros Hinv. destruct r; unfold handle.
  - exact Hinv.
  - unfold ws_on_message, JSON_parse. destruct data as [message|]; run_task; [|exact Hinv].
    destruct (JSMap.get (connectedClients w) clientId) as [client|]; run_task; [|exact Hinv].
    destruct (WSMessage.type message =? "join_session"); [exact Hinv|].
    destruct (WSMessage.type message =? "chat_message").
    { unfold case_chat_message. destruct (WSMessage.data message); run_task; [|exact Hinv].
      destruct (JS.truthy (WSMessage.sessionId message)); run_task; exact Hinv. }
    destruct ((WSMessage.type message =? "agent_typing")
              || (WSMessage.type message =? "customer_typing")).
    { unfold case_typing. destruct (JS.truthy (WSMessage.sessionId message)); exact Hinv. }
    destruct (WSMessage.type message =? "session_transfer").
    { unfold case_session_transfer.
      destruct (WSMessage.sessionId message) as [sid|]; [|exact Hinv].
      destruct (WSMessage.data message) as [d|]; [|exact Hinv].
      destruct (JS.truthy (Some sid)); [|exact Hinv]. run_task.
      destruct (find _ _) as [s|] eqn:Hf; run_task; [|exact Hinv].
      destruct (JSMap.get _ _) as [s'|] eqn:Hg; run_task; [|exact Hinv].
      apply invariant_set; [exact Hinv|]. apply transferred_ok.
      apply JSMap_get_In in Hg. exact (Hinv _ _ Hg). }
    destruct (WSMessage.type message =? "session_ended"); [|exact Hinv].
    unfold case_session_ended.
    destruct (WSMessage.sessionId message) as [sid|]; [|exact Hinv].
    destruct (JS.truthy (Some sid)); [|exact Hinv]. run_task.
    destruct (find _ _) as [s|] eqn:Hf; run_task; [|exact Hinv].
    destruct (JSMap.get _ _) as [s'|] eqn:Hg; run_task; [|exact Hinv].
    apply invariant_set; [exact Hinv|]. apply ended_ok.
  - unfold ws_on_close. run_task.
    destruct (JSMap.get (socket_closed (connectedClients w) clientId) clientId)
      as [client|]; run_task; [|exact Hinv].
    destruct (JS.truthy (ConnectedClient.sessionId client)); exact Hinv.
  - unfold post_auth_login. run_task.
    destruct (find _ _) as [u|]; run_task; [|exact Hinv].
    destruct (User.password u =? password); run_task; [|exact Hinv].
    destruct (JSMap.get _ _); run_task; exact Hinv.
  - unfold post_chat_start. run_task.
    destruct (find _ (JSMap.values (MemStorage.customers (storage w)))) as [c|]; run_task.
    + destruct (find _ _) as [a|]; run_task; [|exact Hinv].
      apply invariant_set; [exact Hinv|]. apply created_ok.
    + destruct (find _ _) as [a|]; run_task; [|exact Hinv].
      apply (invariant_set (MemStorage.with_customers (storage w) _)); [exact Hinv|].
      apply created_ok.
  - unfold post_chat_transfer. run_task.
    destruct (find _ _) as [s|] eqn:Hf; run_task; [|exact Hinv].
    destruct (JSMap.get (MemStorage.users _) _) as [a|]; run_task; [|exact Hinv].
    destruct (JSMap.get _ _) as [s'|] eqn:Hg; run_task; [|exact Hinv].
    apply (invariant_set (MemStorage.with_messages (storage w) _)).
    + exact Hinv.
    + apply transferred_ok. apply JSMap_get_In in Hg. exact (Hinv _ _ Hg).
  - unfold post_chat_end. run_task.
    destruct (find _ _) as [s|] eqn:Hf; run_task; [|exact Hinv].
    destruct (JSMap.get _ _) as [s'|] eqn:Hg; run_task; [|exact Hinv].
    apply invariant_set; [exact Hinv|]. apply ended_ok.
  - unfold get_agents. run_task. exact Hinv.
Qed.

(** C1. Whatever sequence of socket events and REST requests the process
    serves (chats started by POST /api/chat/start, ended by POST
    /api/chat/end/:sessionId or by a session_ended event, and every other
    modelled request in between), if each stored session had an end time
    exactly when its status was resolved or terminated, then each stored
    session still does afterwards.  A fresh [MemStorage] holds no session,
    so the invariant holds of every session the process ever stores. *)
Theorem endTime_set_iff_session_ended (requests : list Request) (w : World MemStorage.t) :
  lifecycle_invariant (storage w) -> lifecycle_invariant (storage (serve requests w)).
Proof.
  revert w. induction requests as [|r rest IH]; intros w Hinv; cbn [serve].
  - exact Hinv.
  - apply IH. now apply handle_preserves_invariant.
Qed.

Lemma endTime_set_iff_session_ended_witness :
  lifecycle_invariant (storage (Demo.world Demo.seed))
  /\ lifecycle_invariant
       (storage (serve [ PostChatStart "jane@x.com" "Jane Doe";
                         PostChatEnd Demo.first_code ]
                       (Demo.world Demo.seed))).
Proof.
  assert (Hseed : lifecycle_invariant (storage (Demo.world Demo.seed)))
    by (intros k s Hin; destruct Hin).
  split; [exact Hseed|].
  apply (endTime_set_iff_session_ended
           [ PostChatStart "jane@x.com" "Jane Doe"; PostChatEnd Demo.first_code ]
           (Demo.world Demo.seed)).
  exact Hseed.
Defined.

Example start_then_end_resolves :
  map (fun s => (ChatSession.sessionId s, ChatSession.status s, ChatSession.endTime s))
      (JSMap.values
         (MemStorage.chatSessions
            (storage (serve [ PostChatStart "jane@x.com" "Jane Doe";
                               PostChatEnd Demo.first_code ]
                             (Demo.world Demo.seed)))))
  = [ (Demo.first_code, Some "resolved", Some 1700000000004%N) ].
Proof. vm_compute. reflexivity. Qed.

(** ** Starting a chat *)

Lemma no_online_agent_find (us : JSMap.t User.t) :
  (forall k u, In (k, u) us -> User.role u = "agent" -> User.isOnline u <> Some true) ->
  find (fun agent => JS.is_true (User.isOnline agent))
       (filter (fun user => User.role user =? "agent") (JSMap.values us)) = None.
Proof.
  induction us as [|[k u] us IH]; intros Hno; [reflexivity|].
  assert (Hrest : forall k' u', In (k', u') us ->
                                User.role u' = "agent" -> User.isOnline u' <> Some true)
    by (intros k' u' Hin; apply (Hno k' u'); now right).
  cbn. destruct (User.role u =? "agent") eqn:Hr; [|now apply IH].
  cbn. destruct (User.isOnline u) as [[|]|] eqn:Ho; cbn; try now apply IH.
  exfalso. apply (Hno k u); [now left | now apply String.eqb_eq | exact Ho].
Qed.

(** C2. A start-chat request served while no user of role agent is online
    is answered 503 "No agents available", and the stored chat sessions
    are the ones stored before the request. *)
Theorem start_without_online_agent_is_503
        (w : World MemStorage.t) (customerEmail customerName : string) :
  (forall k u, In (k, u) (MemStorage.users (storage w)) ->
               User.role u = "agent" -> User.isOnline u <> Some true) ->
  result (post_chat_start customerEmail customerName) w
  = Returned (mkResponse 503 (ErrorBody "No agents available"))
  /\ MemStorage.chatSessions (storage (run (post_chat_start customerEmail customerName) w))
     = MemStorage.chatSessions (storage w).
Proof.
  intros Hno. pose proof (no_online_agent_find _ Hno) as Hfind.
  unfold post_chat_start. run_task.
  destruct (find _ (JSMap.values (MemStorage.customers (storage w)))) as [c|]; run_task;
    know_find Hfind; split; reflexivity.
Qed.

Lemma start_without_online_agent_is_503_witness :
  (forall k u, In (k, u) (MemStorage.users Demo.seed_agents_offline) ->
               User.role u = "agent" -> User.isOnline u <> Some true)
  /\ result (post_chat_start "jane@x.com" "Jane Doe") (Demo.world Demo.seed_agents_offline)
     = Returned (mkResponse 503 (ErrorBody "No agents available"))
  /\ MemStorage.chatSessions
       (storage (run (post_chat_start "jane@x.com" "Jane Doe")
                     (Demo.world Demo.seed_agents_offline)))
     = [].
Proof.
  assert (Hoff : forall k u, In (k, u) (MemStorage.users Demo.seed_agents_offline) ->
                             User.role u = "agent" -> User.isOnline u <> Some true).
  { intros k u Hin Hrole.
    cbn in Hin.
    repeat (destruct Hin as [Heq|Hin];
            [injection Heq as _ <-; first [discriminate Hrole | cbn; discriminate]|]).
    destruct Hin. }
  split; [exact Hoff|].
  exact (start_without_online_agent_is_503
           (Demo.world Demo.seed_agents_offline) "jane@x.com" "Jane Doe" Hoff).
Defined.

Lemma find_values_In {V} (p : V -> bool) (m : JSMap.t V) v :
  find p (JSMap.values m) = Some v -> (exists k, In (k, v) m) /\ p v = true.
Proof.
  intros Hf. apply find_some in Hf. destruct Hf as [Hin Hp]. split; [|exact Hp].
  unfold JSMap.values in Hin. apply in_map_iff in Hin.
  destruct Hin as [[k v'] [Hv Hin]]. cbn in Hv. subst. now exists k.
Qed.

Lemma find_values_none {V} (p : V -> bool) (m : JSMap.t V) :
  (forall k v, In (k, v) m -> p v = false) -> find p (JSMap.values m) = None.
Proof.
  induction m as [|[k v] m IH]; intros Hp; [reflexivity|].
  cbn. rewrite (Hp k v) by now left. apply IH. intros k' v' Hin. apply (Hp k'). now right.
Qed.

Lemma online_agent_find (us : JSMap.t User.t) :
  (exists k a, In (k, a) us /\ User.role a = "agent" /\ User.isOnline a = Some true) ->
  exists a, find (fun agent => JS.is_true (User.isOnline agent))
                 (filter (fun user => User.role user =? "agent") (JSMap.values us)) = Some a.
Proof.
  intros (k & a & Hin & Hrole & Honline).
  destruct (find _ _) as [a'|] eqn:Hf; [now exists a'|].
  exfalso. apply find_none with (x := a) in Hf.
  - rewrite Honline in Hf. discriminate Hf.
  - apply filter_In. split.
    + unfold JSMap.values. apply in_map_iff. now exists (k, a).
    + rewrite Hrole. reflexivity.
Qed.

(** C9. A start-chat request whose email matches a stored customer creates
    no customer record; when an agent of the base tier is online it is
    answered 200, the customer of the answer is a stored customer with that
    email, and the one session it stores carries that customer's id.  A
    request whose email matches no stored customer creates one record,
    with that email and name, and the session stored then carries the id of
    the new record. *)
Theorem start_reuses_customer_with_same_email
        (w : World MemStorage.t) (customerEmail customerName : string) :
  let w' := run (post_chat_start customerEmail customerName) w in
  ((exists k c, In (k, c) (MemStorage.customers (storage w))
                /\ Customer.email c = customerEmail) ->
   MemStorage.customers (storage w') = MemStorage.customers (storage w)
   /\ (base_agent_online (storage w) ->
       exists session customer agent,
         result (post_chat_start customerEmail customerName) w
         = Returned (mkResponse 200 (StartBody session customer agent))
         /\ (exists k, In (k, customer) (MemStorage.customers (storage w)))
         /\ Customer.email customer = customerEmail
         /\ (Customer.id customer <> "" ->
             ChatSession.customerId session = Some (Customer.id customer))
         /\ MemStorage.chatSessions (storage w')
            = JSMap.set (MemStorage.chatSessions (storage w)) (ChatSession.id session)
                        session))
  /\ ((forall k c, In (k, c) (MemStorage.customers (storage w)) ->
                   Customer.email c <> customerEmail) ->
      exists created,
        MemStorage.customers (storage w')
        = JSMap.set (MemStorage.customers (storage w)) (uuid_src w (uuid_calls w)) created
        /\ Customer.id created = uuid_src w (uuid_calls w)
        /\ Customer.email created = customerEmail
        /\ Customer.name created = customerName
        /\ (base_agent_online (storage w) ->
            exists session agent,
              result (post_chat_start customerEmail customerName) w
              = Returned (mkResponse 200 (StartBody session created agent))
              /\ (Customer.id created <> "" ->
                  ChatSession.customerId session = Some (Customer.id created))
              /\ MemStorage.chatSessions (storage w')
                 = JSMap.set (MemStorage.chatSessions (storage w)) (ChatSession.id session)
                             session)).
Proof.
  intros w'. subst w'. split.
  - intros (k & c & Hin & Hemail).
    unfold post_chat_start. run_task.
    destruct (find _ (JSMap.values (MemStorage.customers (storage w)))) as [c0|] eqn:Hf.
    + apply find_values_In in Hf. destruct Hf as [Hstored Hmatch].
      apply String.eqb_eq in Hmatch. run_task.
      destruct (find _ _) as [a|] eqn:Hagent; run_task.
      * split; [reflexivity|]. intros _. eexists _, c0, a.
        split; [reflexivity|]. split; [exact Hstored|]. split; [exact Hmatch|].
        split; [intros Hid; cbn; now apply or_null_nonempty | reflexivity].
      * split; [reflexivity|]. intros Honline.
        apply online_agent_find in Honline. destruct Honline as [a Ha].
        enough (Hno : Some a = None) by discriminate Hno.
        rewrite <- Ha. exact Hagent.
    + exfalso. apply find_none with (x := c) in Hf.
      * rewrite Hemail, String.eqb_refl in Hf. discriminate.
      * unfold JSMap.values. apply in_map_iff. now exists (k, c).
  - intros Hnone.
    assert (Hf : find (fun customer => Customer.email customer =? customerEmail)
                      (JSMap.values (MemStorage.customers (storage w))) = None).
    { apply find_values_none. intros k c Hin. apply String.eqb_neq. now apply (Hnone k). }
    unfold post_chat_start. run_task. know_find Hf. clear Hf. run_task.
    destruct (find _ _) as [a|] eqn:Hagent; run_task; eexists;
      (split; [reflexivity|]); (split; [reflexivity|]); (split; [reflexivity|]);
      (split; [reflexivity|]).
    + intros _. eexists _, a. split; [reflexivity|].
      split; [intros Hid; cbn; now apply or_null_nonempty | reflexivity].
    + intros Honline.
      apply online_agent_find in Honline. destruct Honline as [a Ha].
      enough (Hno : Some a = None) by discriminate Hno.
      rewrite <- Ha. exact Hagent.
Qed.

Lemma start_reuses_customer_with_same_email_witness :
  let w := Demo.world Demo.seed in
  let w' := run (post_chat_start "emma.wilson@email.com" "Emma W.") w in
  MemStorage.customers (storage w') = MemStorage.customers Demo.seed
  /\ exists session customer agent,
      result (post_chat_start "emma.wilson@email.com" "Emma W.") w
      = Returned (mkResponse 200 (StartBody session customer agent))
      /\ Customer.email customer = "emma.wilson@email.com"
      /\ MemStorage.chatSessions (storage w') = [ (ChatSession.id session, session) ].
Proof.
  destruct (proj1 (start_reuses_customer_with_same_email
                     (Demo.world Demo.seed) "emma.wilson@email.com" "Emma W."))
    as [Hsame Hsession].
  - exists "c-emma", Demo.emma. split; [now left | reflexivity].
  - split; [exact Hsame|].
    destruct Hsession as (session & customer & agent & Hanswer & _ & Hemail & _ & Hstored).
    + exists "u-mike", Demo.mike. split; [cbn; tauto|]. split; reflexivity.
    + exists session, customer, agent.
      split; [exact Hanswer|]. split; [exact Hemail | exact Hstored].
Defined.

Example start_with_known_email_reuses_id :
  match result (post_chat_start "emma.wilson@email.com" "Emma W.") (Demo.world Demo.seed) with
  | Returned (mkResponse 200 (StartBody session customer _)) =>
      (ChatSession.customerId session, Customer.id customer, Customer.name customer)
  | _ => (None, "", "")
  end
  = (Some "c-emma", "c-emma", "Emma Wilson").
Proof. vm_compute. reflexivity. Qed.

Example start_for_new_customer :
  match post_chat_start "jane@x.com" "Jane Doe" (Demo.world Demo.seed) with
  | (Returned (mkResponse 200 (StartBody session customer agent)), w') =>
      (ChatSession.sessionId session, ChatSession.status session,
       ChatSession.agentId session, User.name agent,
       List.length (MemStorage.customers (storage w')))
  | _ => ("", None, None, "", 0)
  end
  = (Demo.first_code, Some "active", Some "u-mike", "Mike Thompson", 3).
Proof. vm_compute. reflexivity. Qed.

(** C8. Two chats started within one millisecond, with UUIDs that agree
    on their first eight characters, are both stored, under different ids
    and with the same session code: [post_chat_start] never looks the new
    code up in the store.  [getChatSessionBySessionId] then answers the
    first of the two for that code. *)
Theorem start_can_repeat_a_session_code :
  map (fun s => (ChatSession.id s, ChatSession.sessionId s, ChatSession.customerId s))
      (JSMap.values (MemStorage.chatSessions (storage Demo.started_twice)))
  = [ ("deadbeef-0000-4000-8000-000000000002", "CHT-1700000000000-deadbeef",
       Some "deadbeef-0000-4000-8000-000000000000");
      ("deadbeef-0000-4000-8000-000000000004", "CHT-1700000000000-deadbeef",
       Some "c-alex") ]
  /\ option_map ChatSession.id
       (match result (getChatSessionBySessionId "CHT-1700000000000-deadbeef")
                     Demo.started_twice with
        | Returned found => found
        | Thrown _ => None
        end)
     = Some "deadbeef-0000-4000-8000-000000000002".
Proof. vm_compute. split; reflexivity. Qed.

(** ** Transfers *)



(** The roles of the schema as the notice displays them, and the notice
    stored for a transfer to the senior agent. *)
Example schema_roles_as_displayed :
  map (JS.replace "_" " ") [ "agent"; "senior_agent"; "team_lead"; "admin" ]
  = [ "agent"; "senior agent"; "team lead"; "admin" ].
Proof. reflexivity. Qed.

Example rest_transfer_notice_text :
  map Message.content
      (JSMap.values
         (MemStorage.messages
            (storage
               (run (post_chat_transfer Demo.first_code "u-senior" "needs billing expertise")
                    Demo.started))))
  = [ Some "Chat transferred to David Kim (senior agent)" ].
Proof. vm_compute. reflexivity. Qed.

(** C4. The socket path and the REST path of a transfer differ.  For a
    target id that is no stored user, POST /api/chat/transfer answers 404
    and leaves the store as it was, while the session_transfer event
    reassigns the session to that id and appends the record.  For a stored
    target, both paths leave the same sessions, but only the REST path
    stores the system message. *)
Theorem socket_transfer_diverges_from_rest_transfer :
  JSMap.get (MemStorage.users (storage Demo.started)) "u-ghost" = None
  /\ result (post_chat_transfer Demo.first_code "u-ghost" "escalation") Demo.started
     = Returned (mkResponse 404 (ErrorBody "Agent not found"))
  /\ storage (run (post_chat_transfer Demo.first_code "u-ghost" "escalation") Demo.started)
     = storage Demo.started
  /\ map (fun s => (ChatSession.agentId s, ChatSession.transferHistory s))
         (JSMap.values
            (MemStorage.chatSessions
               (storage (run (ws_on_message "k1" (Some (Demo.transfer_frame "u-ghost")))
                             Demo.started))))
     = [ (Some "u-ghost",
          Some [ TransferRecord.mk (Some "u-mike") (Some "u-ghost") 1700000000004%N
                                   (Some "escalation") ]) ]
  /\ MemStorage.chatSessions
       (storage (run (ws_on_message "k1" (Some (Demo.transfer_frame "u-anna"))) Demo.started))
     = MemStorage.chatSessions
         (storage (run (post_chat_transfer Demo.first_code "u-anna" "escalation") Demo.started))
  /\ MemStorage.messages
       (storage (run (ws_on_message "k1" (Some (Demo.transfer_frame "u-anna"))) Demo.started))
     = []
  /\ map (fun m => (Message.senderType m, Message.content m))
         (JSMap.values
            (MemStorage.messages
               (storage (run (post_chat_transfer Demo.first_code "u-anna" "escalation")
                             Demo.started))))
     = [ (Some "system", Some "Chat transferred to Anna Martinez (agent)") ].
Proof. vm_compute. repeat split; reflexivity. Qed.

(** ** The socket hub *)

Lemma in_receivers (clients : JSMap.t ConnectedClient.t) (sid : string) (sender c : string) :
  In c (receivers clients (Some sid) (Some sender))
  <-> c <> sender
      /\ exists client, In (c, client) clients
                        /\ ConnectedClient.sessionId client = Some sid
                        /\ ConnectedClient.ws client = OPEN.
Proof.
  unfold receivers, JSMap.entries. rewrite in_map_iff. split.
  - intros [[c' client] [Hc Hin]]. cbn in Hc. subst c'.
    apply filter_In in Hin. destruct Hin as [Hin Hp].
    apply andb_true_iff in Hp. destruct Hp as [Hp Hopen].
    apply andb_true_iff in Hp. destruct Hp as [Hsid Hother].
    split.
    + intros ->. cbn in Hother. rewrite String.eqb_refl in Hother. discriminate.
    + exists client. split; [exact Hin|]. split.
      * destruct (ConnectedClient.sessionId client) as [s|]; cbn in Hsid; [|discriminate].
        apply String.eqb_eq in Hsid. now subst.
      * now destruct (ConnectedClient.ws client).
  - intros [Hne (client & Hin & Hsid & Hopen)].
    exists (c, client). split; [reflexivity|].
    apply filter_In. split; [exact Hin|].
    rewrite Hsid, Hopen. cbn. rewrite String.eqb_refl. cbn.
    destruct (c =? sender) eqn:E; [apply String.eqb_eq in E; contradiction | reflexivity].
Qed.

(** C7 (as amended). A typing event (agent_typing or customer_typing)
    that names a session is written, unchanged, to every open connection
    bound to the session it names other than the one that sent it, and to
    no other connection, whatever session its sender is bound to; the
    storage and the connection map are left as they were. *)
Theorem typing_reaches_the_others_only
        {St : Type} `{IStorage St} (w : World St)
        (clientId : string) (client : ConnectedClient.t)
        (message : WSMessage.t) (sid : string) :
  JSMap.get (connectedClients w) clientId = Some client ->
  WSMessage.type message = "agent_typing" \/ WSMessage.type message = "customer_typing" ->
  WSMessage.sessionId message = Some sid ->
  sid <> "" ->
  let w' := run (ws_on_message clientId (Some message)) w in
  storage w' = storage w
  /\ connectedClients w' = connectedClients w
  /\ sent w' = (sent w ++ map (fun c => (c, message))
                              (receivers (connectedClients w) (Some sid) (Some clientId)))%list
  /\ forall c,
      In c (receivers (connectedClients w) (Some sid) (Some clientId))
      <-> c <> clientId
          /\ exists other, In (c, other) (connectedClients w)
                           /\ ConnectedClient.sessionId other = Some sid
                           /\ ConnectedClient.ws other = OPEN.
Proof.
  intros Hclient Htype Hsid Hne w'. subst w'.
  assert (Htruthy : JS.truthy (Some sid) = true).
  { cbn. destruct (sid =? "") eqn:E; [apply String.eqb_eq in E; contradiction | reflexivity]. }
  assert (Hrun : run (ws_on_message clientId (Some message)) w
                 = with_sent w (sent w ++ map (fun c => (c, message))
                                              (receivers (connectedClients w) (Some sid)
                                                         (Some clientId)))%list).
  { unfold ws_on_message, JSON_parse. run_task. rewrite Hclient. run_task.
    unfold case_typing, broadcastToSession.
    destruct Htype as [Ht|Ht]; rewrite Ht, Hsid; cbn -[filter];
      destruct (sid =? "") eqn:E; try (apply String.eqb_eq in E; contradiction);
      reflexivity. }
  rewrite Hrun. cbn.
  split; [reflexivity|]. split; [reflexivity|]. split; [reflexivity|].
  intros c. apply in_receivers.
Qed.

Lemma typing_reaches_the_others_only_witness :
  sent (run (ws_on_message "k1" (Some Demo.typing_frame))
            (Demo.world_with_clients Demo.seed))
  = [ ("k2", Demo.typing_frame) ]
  /\ storage (run (ws_on_message "k1" (Some Demo.typing_frame))
                  (Demo.world_with_clients Demo.seed))
     = Demo.seed.
Proof.
  destruct (typing_reaches_the_others_only
              (Demo.world_with_clients Demo.seed) "k1"
              (Demo.open_client (Some "CHT-1")) Demo.typing_frame "CHT-1")
    as (Hstore & _ & Hsent & _).
  - reflexivity.
  - right. reflexivity.
  - reflexivity.
  - discriminate.
  - split; [exact Hsent | exact Hstore].
Defined.

(** C7, as stated, fails: the session a typing event goes to is the one
    the frame names, not the one its sender is bound to.  [k1] and [k2] are
    open and bound to CHT-1; a typing frame from [k1] that names CHT-2 is
    written to [k3], which is bound to CHT-2, and not to [k2]. *)
Lemma typing_follows_the_frame_not_the_binding_counterexample :
  ~ (forall (w : World MemStorage.t) (clientId sid : string) (client : ConnectedClient.t)
            (message : WSMessage.t),
        JSMap.get (connectedClients w) clientId = Some client ->
        ConnectedClient.sessionId client = Some sid ->
        WSMessage.type message = "customer_typing" ->
        forall (c : string) (other : ConnectedClient.t),
          c <> clientId ->
          In (c, other) (connectedClients w) ->
          ConnectedClient.sessionId other = Some sid ->
          ConnectedClient.ws other = OPEN ->
          In (c, message) (sent (run (ws_on_message clientId (Some message)) w)))
  /\ sent (run (ws_on_message "k1" (Some Samples.typing_frame_elsewhere))
               (Demo.world_with_clients Demo.seed))
     = [ ("k3", Samples.typing_frame_elsewhere) ].
Proof.
  assert (Hsent : sent (run (ws_on_message "k1" (Some Samples.typing_frame_elsewhere))
                            (Demo.world_with_clients Demo.seed))
                  = [ ("k3", Samples.typing_frame_elsewhere) ])
    by (vm_compute; reflexivity).
  split; [|exact Hsent].
  intros Hclaim.
  specialize (Hclaim (Demo.world_with_clients Demo.seed) "k1" "CHT-1"
                     (Demo.open_client (Some "CHT-1")) Samples.typing_frame_elsewhere
                     eq_refl eq_refl eq_refl "k2" (Demo.open_client (Some "CHT-1"))).
  rewrite Hsent in Hclaim.
  destruct Hclaim as [Heq|[]].
  - discriminate.
  - right. left. reflexivity.
  - reflexivity.
  - reflexivity.
  - discriminate Heq.
Qed.

Lemma chat_message_dispatch {St : Type} `{IStorage St} (w : World St)
      (clientId : string) (client : ConnectedClient.t) (message : WSMessage.t) :
  JSMap.get (connectedClients w) clientId = Some client ->
  WSMessage.type message = "chat_message" ->
  ws_on_message clientId (Some message) w
  = try_catch (case_chat_message message)
              (fun error => console_error "WebSocket message error:" error) w.
Proof.
  intros Hclient Htype. unfold ws_on_message, JSON_parse, try_catch, bind, ret.
  rewrite Hclient, Htype. reflexivity.
Qed.

(** C5 (as amended). For a chat_message event that names a session and
    carries data: when [createMessage] throws, the handler writes to no
    connection at all, the sending one included, and the error goes to the
    server console only; when [createMessage] returns, the stored message
    is then broadcast to the session.  Nothing is written to a socket
    before the storage has answered. *)
Theorem chat_message_failure_is_logged_not_sent
        {St : Type} `{IStorage St} (w : World St)
        (clientId : string) (client : ConnectedClient.t)
        (message : WSMessage.t) (data : WSData) :
  JSMap.get (connectedClients w) clientId = Some client ->
  WSMessage.type message = "chat_message" ->
  WSMessage.data message = Some data ->
  JS.truthy (WSMessage.sessionId message) = true ->
  match createMessage (chat_insert message data) w with
  | (Thrown e, w1) =>
      ws_on_message clientId (Some message) w
      = (Returned tt, with_console w1 (console w1 ++ ["WebSocket message error: " ++ e]))
      /\ sent (run (ws_on_message clientId (Some message)) w) = sent w1
  | (Returned stored, w1) =>
      ws_on_message clientId (Some message) w
      = broadcastToSession (WSMessage.sessionId message) (chat_frame message data stored)
                           None w1
  end.
Proof.
  intros Hclient Htype Hdata Htruthy.
  unfold run. rewrite (chat_message_dispatch w clientId client message Hclient Htype).
  unfold case_chat_message, try_catch, bind. rewrite Hdata, Htruthy.
  fold (chat_insert message data).
  destruct (createMessage (chat_insert message data) w) as [[stored|e] w1].
  - fold (chat_frame message data stored).
    destruct (broadcastToSession _ _ _ w1) as [[[]|e'] w2] eqn:Hb; [reflexivity|].
    unfold broadcastToSession in Hb. discriminate Hb.
  - split; reflexivity.
Qed.

Lemma chat_message_failure_is_logged_not_sent_witness :
  ws_on_message "k1" (Some Demo.chat_frame_hello) (Demo.world_with_clients Unreachable.down)
  = (Returned tt,
     with_console (Demo.world_with_clients Unreachable.down)
                  ["WebSocket message error: ECONNREFUSED"])
  /\ sent (run (ws_on_message "k1" (Some Demo.chat_frame_hello))
               (Demo.world_with_clients Unreachable.down))
     = [].
Proof.
  exact (chat_message_failure_is_logged_not_sent
           (Demo.world_with_clients Unreachable.down) "k1"
           (Demo.open_client (Some "CHT-1")) Demo.chat_frame_hello
           (Payload (Some "Hello") (Some "Jane") None None)
           eq_refl eq_refl eq_refl eq_refl).
Defined.

(** C5, as stated, fails: when [createMessage] throws, nothing is written
    to the connection that sent the event; the error is only logged. *)
Lemma chat_message_failure_reaches_no_socket_counterexample :
  result (createMessage (chat_insert Demo.chat_frame_hello
                                     (Payload (Some "Hello") (Some "Jane") None None)))
         (Demo.world_with_clients Unreachable.down)
  = Thrown "ECONNREFUSED"
  /\ ~ (exists frame,
          In ("k1", frame)
             (sent (run (ws_on_message "k1" (Some Demo.chat_frame_hello))
                        (Demo.world_with_clients Unreachable.down))))
  /\ console (run (ws_on_message "k1" (Some Demo.chat_frame_hello))
                  (Demo.world_with_clients Unreachable.down))
     = ["WebSocket message error: ECONNREFUSED"].
Proof.
  assert (Hsent : sent (run (ws_on_message "k1" (Some Demo.chat_frame_hello))
                            (Demo.world_with_clients Unreachable.down))
                  = [])
    by (vm_compute; reflexivity).
  split; [vm_compute; reflexivity|]. split; [|vm_compute; reflexivity].
  intros [frame Hin]. rewrite Hsent in Hin. exact Hin.
Qed.

(** C6 (as amended). A chat_message event is handed to [createMessage]
    exactly when the event itself names a session (a non-empty
    [sessionId]) and carries data; the binding of the sending connection
    and the content are not looked at.  Such an event stores one message
    with the content it carries, empty or not, and broadcasts it to the
    open connections of the named session; any other chat_message event
    leaves the storage and the sockets untouched. *)
Theorem chat_message_persists_iff_session_and_data
        (w : World MemStorage.t) (clientId : string) (client : ConnectedClient.t)
        (message : WSMessage.t) :
  JSMap.get (connectedClients w) clientId = Some client ->
  WSMessage.type message = "chat_message" ->
  let w' := run (ws_on_message clientId (Some message)) w in
  match WSMessage.data message with
  | Some data =>
      if JS.truthy (WSMessage.sessionId message) then
        exists stored : Message.t,
          MemStorage.messages (storage w')
          = JSMap.set (MemStorage.messages (storage w)) (uuid_src w (uuid_calls w)) stored
          /\ Message.id stored = uuid_src w (uuid_calls w)
          /\ Message.sessionId stored = WSMessage.sessionId message
          /\ Message.content stored = WSData_.content data
          /\ sent w'
             = (sent w ++ map (fun c => (c, chat_frame message data stored))
                              (receivers (connectedClients w) (WSMessage.sessionId message)
                                         None))%list
      else storage w' = storage w /\ sent w' = sent w
  | None => storage w' = storage w /\ sent w' = sent w
  end.
Proof.
  intros Hclient Htype w'. subst w'.
  unfold run. rewrite (chat_message_dispatch w clientId client message Hclient Htype).
  unfold case_chat_message.
  destruct (WSMessage.data message) as [data|]; [|split; reflexivity].
  destruct (JS.truthy (WSMessage.sessionId message)) eqn:Htruthy; [|split; reflexivity].
  run_task. eexists. split; [reflexivity|]. split; [reflexivity|].
  split.
  - cbn. unfold JS.or_null. now rewrite Htruthy.
  - split; reflexivity.
Qed.

Lemma chat_message_persists_iff_session_and_data_witness :
  exists stored : Message.t,
    MemStorage.messages
      (storage (run (ws_on_message "k1" (Some Demo.chat_frame_hello))
                    (Demo.world_with_clients Demo.seed)))
    = [ ("c0ffee00-0000-4000-8000-000000000000", stored) ]
    /\ Message.content stored = Some "Hello"
    /\ map fst (sent (run (ws_on_message "k1" (Some Demo.chat_frame_hello))
                          (Demo.world_with_clients Demo.seed)))
       = [ "k1"; "k2" ].
Proof.
  destruct (chat_message_persists_iff_session_and_data
              (Demo.world_with_clients Demo.seed) "k1"
              (Demo.open_client (Some "CHT-1")) Demo.chat_frame_hello eq_refl eq_refl)
    as (stored & Hm & _ & _ & Hc & Hs).
  exists stored. split; [exact Hm|]. split; [exact Hc|].
  rewrite Hs. reflexivity.
Defined.

(** C6, as stated, fails: a connection bound to no session sends a
    chat_message with empty content for CHT-1; the message is stored with
    its empty content and broadcast to the open connections of CHT-1. *)
Lemma chat_message_with_empty_content_is_stored_counterexample :
  option_map ConnectedClient.sessionId
             (JSMap.get (connectedClients (Demo.world_with_clients Demo.seed)) "k5")
  = Some None
  /\ WSData_.content (Payload (Some "") None None None) = Some ""
  /\ map (fun m => (Message.sessionId m, Message.senderId m, Message.content m))
         (JSMap.values
            (MemStorage.messages
               (storage (run (ws_on_message "k5" (Some Demo.chat_frame_empty))
                             (Demo.world_with_clients Demo.seed)))))
     = [ (Some "CHT-1", Some "visitor-5", Some "") ]
  /\ map fst (sent (run (ws_on_message "k5" (Some Demo.chat_frame_empty))
                        (Demo.world_with_clients Demo.seed)))
     = [ "k1"; "k2" ].
Proof. vm_compute. repeat split; reflexivity. Qed.

(** ** Responses that carry users *)

Lemma without_password_written (u : User.t) :
  JSON.stringify (without_password u)
  = JObj [ ("id", JStr (User.id u));
           ("username", JStr (User.username u));
           ("role", JStr (User.role u));
           ("name", JStr (User.name u));
           ("email", JStr (User.email u));
           ("isOnline", JSON.of_bool (User.isOnline u));
           ("createdAt", JSON.of_date (User.createdAt u)) ].
Proof.
  unfold without_password, User_to_js. cbn.
  destruct (User.isOnline u) as [b|], (User.createdAt u) as [t|]; reflexivity.
Qed.

Lemma without_password_is_safe (u : User.t) : written_without_password (without_password u).
Proof.
  split.
  - rewrite without_password_written. cbn.
    intros Hin. repeat (destruct Hin as [Hin|Hin]; [discriminate Hin|]). exact Hin.
  - exists u. intros p. now rewrite !without_password_written.
Qed.

Lemma public_members_no_password (u : User.t) :
  ~ In "password" (JSON.keys (public_members u)).
Proof.
  cbn. intros Hin. repeat (destruct Hin as [Hin|Hin]; [discriminate Hin|]). exact Hin.
Qed.

Lemma without_password_public (u : User.t) :
  JSON.stringify (without_password u) = public_members u.
Proof. apply without_password_written. Qed.

(** C10. A login with the password of the stored user of that name is
    answered 200 with a user object, and any other login with an error and
    no user object; GET /api/agents answers one user object for each user
    the store gives as online.  What is written for such an object is the
    members of that very user as they are stored, without a [password]
    member; only its [isOnline] member may be [true] where the user was
    stored otherwise, since the login sets it between reading the user and
    answering. *)
Theorem login_and_agent_list_strip_password (w : World MemStorage.t) :
  (forall username password : string,
      exists found,
        result (getUserByUsername username) w = Returned found
        /\ match found with
           | Some user =>
               if User.password user =? password then
                 exists answered online,
                   result (post_auth_login username password) w
                   = Returned (mkResponse 200 (LoginBody answered))
                   /\ (online = User.isOnline user \/ online = Some true)
                   /\ JSON.stringify answered
                      = public_members (User.with_isOnline user online)
                   /\ ~ In "password" (JSON.keys (JSON.stringify answered))
               else
                 result (post_auth_login username password) w
                 = Returned (mkResponse 401 (ErrorBody "Invalid credentials"))
           | None =>
               result (post_auth_login username password) w
               = Returned (mkResponse 401 (ErrorBody "Invalid credentials"))
           end)
  /\ exists agents answered,
      result getOnlineAgents w = Returned agents
      /\ result get_agents w = Returned (mkResponse 200 (AgentsBody answered))
      /\ map JSON.stringify answered = map public_members agents
      /\ Forall (fun v => ~ In "password" (JSON.keys (JSON.stringify v))) answered.
Proof.
  split.
  - intros username password. eexists. split; [reflexivity|].
    unfold post_auth_login. run_task.
    destruct (find _ _) as [user|]; run_task; [|reflexivity].
    destruct (User.password user =? password); run_task; [|reflexivity].
    assert (Hwritten : JSON.stringify (without_password user)
                       = public_members (User.with_isOnline user (User.isOnline user)))
      by (rewrite without_password_public; now destruct user).
    pose proof (public_members_no_password (User.with_isOnline user (User.isOnline user)))
      as Hno.
    rewrite <- Hwritten in Hno.
    destruct (JSMap.get _ _); run_task;
      (eexists _, (User.isOnline user); split; [reflexivity|]; split; [now left|];
       split; [exact Hwritten | exact Hno]).
  - eexists _, _. split; [reflexivity|]. split; [reflexivity|]. split.
    + rewrite map_map. apply map_ext. intros u. apply without_password_public.
    + apply Forall_forall. intros v Hin. apply in_map_iff in Hin.
      destruct Hin as (u & <- & _).
      pose proof (public_members_no_password u) as Hno.
      rewrite <- (without_password_public u) in Hno. exact Hno.
Qed.

Example login_response_written :
  match result (post_auth_login "agent1" "password123") (Demo.world Demo.seed) with
  | Returned (mkResponse 200 (LoginBody user)) => JSON.stringify user
  | _ => JNull
  end
  = JObj [ ("id", JStr "u-mike"); ("username", JStr "agent1"); ("role", JStr "agent");
           ("name", JStr "Mike Thompson"); ("email", JStr "mike.thompson@company.com");
           ("isOnline", JBool true); ("createdAt", JDate 1700000000000%N) ].
Proof. vm_compute. reflexivity. Qed.

Example login_with_wrong_password :
  result (post_auth_login "agent1" "guess") (Demo.world Demo.seed)
  = Returned (mkResponse 401 (ErrorBody "Invalid credentials")).
Proof. vm_compute. reflexivity. Qed.

(** ** Sessions are stored under their ids

    The transfer theorem assumes that the session found by its code is the
    one filed under its id.  That holds in every store the process can
    reach from one without sessions. *)

Lemma JSMap_keys_set {V} (m : JSMap.t V) k v :
  JSMap.keys (JSMap.set m k v)
  = match JSMap.get m k with
    | Some _ => JSMap.keys m
    | None => (JSMap.keys m ++ [k])%list
    end.
Proof.
  unfold JSMap.keys. induction m as [|[k' v'] m IH]; cbn; [reflexivity|].
  destruct (k' =? k) eqn:E; cbn; [reflexivity|].
  rewrite IH. now destruct (JSMap.get m k).
Qed.

Lemma JSMap_get_none_keys {V} (m : JSMap.t V) k :
  JSMap.get m k = None -> ~ In k (JSMap.keys m).
Proof.
  unfold JSMap.keys. induction m as [|[k' v'] m IH]; cbn; [tauto|].
  destruct (k' =? k) eqn:E; [discriminate|].
  intros Hg [Heq|Hin]; [subst; rewrite String.eqb_refl in E; discriminate | now apply IH].
Qed.

Lemma JSMap_NoDup_set {V} (m : JSMap.t V) k v :
  NoDup (JSMap.keys m) -> NoDup (JSMap.keys (JSMap.set m k v)).
Proof.
  intros Hnd. rewrite JSMap_keys_set. destruct (JSMap.get m k) eqn:Hg; [exact Hnd|].
  apply NoDup_app; [exact Hnd | repeat constructor; intros [] | ].
  intros x Hx [Heq|[]]. subst x. now apply (JSMap_get_none_keys m k).
Qed.

Lemma JSMap_In_get {V} (m : JSMap.t V) k v :
  NoDup (JSMap.keys m) -> In (k, v) m -> JSMap.get m k = Some v.
Proof.
  unfold JSMap.keys. induction m as [|[k' v'] m IH]; cbn; [tauto|].
  intros Hnd [Heq|Hin].
  - injection Heq as -> ->. now rewrite String.eqb_refl.
  - inversion Hnd as [|? ? Hnotin Hnd']; subst.
    destruct (k' =? k) eqn:E; [|now apply IH].
    apply String.eqb_eq in E. subst. exfalso. apply Hnotin.
    apply in_map_iff. now exists (k, v).
Qed.

Lemma stored_by_id_set st k s :
  stored_by_id st -> ChatSession.id s = k ->
  stored_by_id (MemStorage.with_chatSessions st (JSMap.set (MemStorage.chatSessions st) k s)).
Proof.
  intros [Hnd Hkey] Hid. split; cbn.
  - now apply JSMap_NoDup_set.
  - intros k' s' Hin. apply JSMap_In_set in Hin.
    destruct Hin as [[-> ->]|Hin]; [exact Hid | now apply Hkey].
Qed.

Lemma handle_keeps_stored_by_id (r : Request) (w : World MemStorage.t) :
  stored_by_id (storage w) -> stored_by_id (storage (run (handle r) w)).
Proof.
  intros Hwf. pose proof Hwf as [Hnd Hkey]. destruct r; unfold handle.
  - exact Hwf.
  - unfold ws_on_message, JSON_parse. destruct data as [message|]; run_task; [|exact Hwf].
    destruct (JSMap.get (connectedClients w) clientId) as [client|]; run_task; [|exact Hwf].
    destruct (WSMessage.type message =? "join_session"); [exact Hwf|].
    destruct (WSMessage.type message =? "chat_message").
    { unfold case_chat_message. destruct (WSMessage.data message); run_task; [|exact Hwf].
      destruct (JS.truthy (WSMessage.sessionId message)); run_task; exact Hwf. }
    destruct ((WSMessage.type message =? "agent_typing")
              || (WSMessage.type message =? "customer_typing")).
    { unfold case_typing. destruct (JS.truthy (WSMessage.sessionId message)); exact Hwf. }
    destruct (WSMessage.type message =? "session_transfer").
    { unfold case_session_transfer.
      destruct (WSMessage.sessionId message) as [sid|]; [|exact Hwf].
      destruct (WSMessage.data message) as [d|]; [|exact Hwf].
      destruct (JS.truthy (Some sid)); [|exact Hwf]. run_task.
      destruct (find _ _) as [s|] eqn:Hf; run_task; [|exact Hwf].
      destruct (JSMap.get _ _) as [s'|] eqn:Hg; run_task; [|exact Hwf].
      apply stored_by_id_set; [exact Hwf|]. cbn.
      apply JSMap_get_In in Hg. exact (Hkey _ _ Hg). }
    destruct (WSMessage.type message =? "session_ended"); [|exact Hwf].
    unfold case_session_ended.
    destruct (WSMessage.sessionId message) as [sid|]; [|exact Hwf].
    destruct (JS.truthy (Some sid)); [|exact Hwf]. run_task.
    destruct (find _ _) as [s|] eqn:Hf; run_task; [|exact Hwf].
    destruct (JSMap.get _ _) as [s'|] eqn:Hg; run_task; [|exact Hwf].
    apply stored_by_id_set; [exact Hwf|]. cbn.
    apply JSMap_get_In in Hg. exact (Hkey _ _ Hg).
  - unfold ws_on_close. run_task.
    destruct (JSMap.get (socket_closed (connectedClients w) clientId) clientId)
      as [client|]; run_task; [|exact Hwf].
    destruct (JS.truthy (ConnectedClient.sessionId client)); exact Hwf.
  - unfold post_auth_login. run_task.
    destruct (find _ _) as [u|]; run_task; [|exact Hwf].
    destruct (User.password u =? password); run_task; [|exact Hwf].
    destruct (JSMap.get _ _); run_task; exact Hwf.
  - unfold post_chat_start. run_task.
    destruct (find _ (JSMap.values (MemStorage.customers (storage w)))) as [c|]; run_task.
    + destruct (find _ _) as [a|]; run_task; [|exact Hwf].
      apply stored_by_id_set; [exact Hwf | reflexivity].
    + destruct (find _ _) as [a|]; run_task; [|exact Hwf].
      apply (stored_by_id_set (MemStorage.with_customers (storage w) _));
        [exact Hwf | reflexivity].
  - unfold post_chat_transfer. run_task.
    destruct (find _ _) as [s|] eqn:Hf; run_task; [|exact Hwf].
    destruct (JSMap.get (MemStorage.users _) _) as [a|]; run_task; [|exact Hwf].
    destruct (JSMap.get _ _) as [s'|] eqn:Hg; run_task; [|exact Hwf].
    apply (stored_by_id_set (MemStorage.with_messages (storage w) _)); [exact Hwf|].
    cbn. apply JSMap_get_In in Hg. exact (Hkey _ _ Hg).
  - unfold post_chat_end. run_task.
    destruct (find _ _) as [s|] eqn:Hf; run_task; [|exact Hwf].
    destruct (JSMap.get _ _) as [s'|] eqn:Hg; run_task; [|exact Hwf].
    apply stored_by_id_set; [exact Hwf|]. cbn.
    apply JSMap_get_In in Hg. exact (Hkey _ _ Hg).
  - unfold get_agents. run_task. exact Hwf.
Qed.

Lemma serve_keeps_stored_by_id (requests : list Request) (w : World MemStorage.t) :
  stored_by_id (storage w) -> stored_by_id (storage (serve requests w)).
Proof.
  revert w. induction requests as [|r rest IH]; intros w Hwf; cbn [serve];
    [exact Hwf | apply IH; now apply handle_keeps_stored_by_id].
Qed.

Lemma found_session_is_stored_under_its_id
      (w : World MemStorage.t) (sessionId : string) (session : ChatSession.t) :
  stored_by_id (storage w) ->
  result (getChatSessionBySessionId sessionId) w = Returned (Some session) ->
  JSMap.get (MemStorage.chatSessions (storage w)) (ChatSession.id session) = Some session.
Proof.
  intros [Hnd Hkey] Hfound. unfold result in Hfound. cbn in Hfound.
  injection Hfound as Hfound. apply find_values_In in Hfound.
  destruct Hfound as [[k Hin] _]. apply JSMap_In_get; [exact Hnd|].
  now rewrite (Hkey k session Hin).
Qed.

Lemma fresh_store_is_stored_by_id : stored_by_id Demo.seed.
Proof. split; [constructor | intros k s []]. Qed.

(** ** What the two transfer paths share, and what they do not *)

(** The session_transfer case of the socket handler never stores a message
    and never consults the users. *)
Lemma socket_transfer_stores_no_message
      (w : World MemStorage.t) (clientId : string) (message : WSMessage.t) :
  WSMessage.type message = "session_transfer" ->
  MemStorage.messages (storage (run (ws_on_message clientId (Some message)) w))
  = MemStorage.messages (storage w)
  /\ MemStorage.users (storage (run (ws_on_message clientId (Some message)) w))
     = MemStorage.users (storage w).
Proof.
  intros Htype. unfold ws_on_message, JSON_parse. run_task.
  destruct (JSMap.get (connectedClients w) clientId) as [client|]; run_task;
    [|split; reflexivity].
  rewrite Htype. cbn -[case_session_transfer]. unfold case_session_transfer.
  destruct (WSMessage.sessionId message) as [sid|]; [|split; reflexivity].
  destruct (WSMessage.data message) as [d|]; [|split; reflexivity].
  destruct (JS.truthy (Some sid)); [|split; reflexivity]. run_task.
  destruct (find _ _) as [s|]; run_task; [|split; reflexivity].
  destruct (JSMap.get _ _) as [s'|]; run_task; split; reflexivity.
Qed.

(** The REST route refuses a target that is no stored user and leaves the
    storage as it was. *)
Lemma rest_transfer_refuses_unknown_agent
      (w : World MemStorage.t) (sessionId newAgentId reason : string)
      (session : ChatSession.t) :
  result (getChatSessionBySessionId sessionId) w = Returned (Some session) ->
  result (getUser newAgentId) w = Returned None ->
  post_chat_transfer sessionId newAgentId reason w
  = (Returned (mkResponse 404 (ErrorBody "Agent not found")), w).
Proof.
  intros Hs Ha. unfold result in Hs, Ha. cbn in Hs, Ha.
  injection Hs as Hs. injection Ha as Ha.
  unfold post_chat_transfer. run_task. know_find Hs. run_task. rewrite Ha. reflexivity.
Qed.

(** The socket case reassigns the session to whatever id the frame
    carries, stored user or not. *)
Lemma socket_transfer_assigns_any_id
      (w : World MemStorage.t) (clientId : string) (client : ConnectedClient.t)
      (sessionId : string) (data : WSData) (userId userType : option string)
      (session : ChatSession.t) :
  JSMap.get (connectedClients w) clientId = Some client ->
  sessionId <> "" ->
  result (getChatSessionBySessionId sessionId) w = Returned (Some session) ->
  JSMap.get (MemStorage.chatSessions (storage w)) (ChatSession.id session) = Some session ->
  exists updated,
    JSMap.get
      (MemStorage.chatSessions
         (storage (run (ws_on_message clientId
                          (Some (WSMessage.mk "session_transfer" (Some sessionId)
                                              (Some data) userId userType)))
                       w)))
      (ChatSession.id session)
    = Some updated
    /\ ChatSession.agentId updated = WSData_.newAgentId data
    /\ ChatSession.transferHistory updated
       = Some (array_or_empty (ChatSession.transferHistory session)
               ++ [TransferRecord.mk (ChatSession.agentId session)
                                     (WSData_.newAgentId data)
                                     (clock_src w (clock_calls w))
                                     (WSData_.reason data)])%list.
Proof.
  intros Hclient Hne Hs Hkey. unfold result in Hs. cbn in Hs. injection Hs as Hs.
  assert (Hnonempty : (sessionId =? "") = false) by now apply String.eqb_neq.
  unfold ws_on_message, JSON_parse. run_task. rewrite Hclient. run_task.
  unfold case_session_transfer, JS.truthy. cbn [WSMessage.sessionId WSMessage.data].
  rewrite Hnonempty. run_task. know_find Hs. run_task. rewrite Hkey. run_task.
  eexists. split; [apply JSMap_get_set_same|]. split; reflexivity.
Qed.

(** ** The session code is built from the clock and a UUID alone *)

Lemma start_code_ignores_stored_sessions
      (w : World MemStorage.t) (customerEmail customerName : string)
      (session : ChatSession.t) (customer : Customer.t) (agent : User.t) :
  result (post_chat_start customerEmail customerName) w
  = Returned (mkResponse 200 (StartBody session customer agent)) ->
  exists now uuid : nat,
    ChatSession.sessionId session
    = "CHT-" ++ JS.number_to_string (clock_src w now) ++ "-" ++ JS.slice0 8 (uuid_src w uuid).
Proof.
  unfold post_chat_start. run_task.
  destruct (find _ (JSMap.values (MemStorage.customers (storage w)))) as [c|]; run_task;
    (destruct (find _ _) as [a|]; run_task; [|discriminate]);
    intros [= <- _ _]; eexists _, _; reflexivity.
Qed.

(** ** The agent list does not depend on stored passwords *)

Lemma without_password_forgets (u : User.t) (p : string) :
  without_password (User.with_password u p) = without_password u.
Proof. reflexivity. Qed.

Lemma agent_list_ignores_passwords (w1 w2 : World MemStorage.t) :
  map (fun u => User.with_password u "") (JSMap.values (MemStorage.users (storage w1)))
  = map (fun u => User.with_password u "") (JSMap.values (MemStorage.users (storage w2))) ->
  result get_agents w1 = result get_agents w2.
Proof.
  intros Hsame. unfold get_agents. run_task. do 3 f_equal.
  revert Hsame.
  generalize (JSMap.values (MemStorage.users (storage w1))) as l1.
  generalize (JSMap.values (MemStorage.users (storage w2))) as l2.
  intros l2 l1. revert l2.
  induction l1 as [|u1 l1 IH]; intros [|u2 l2] Hsame; try discriminate; [reflexivity|].
  cbn in Hsame. injection Hsame as Hid Huser Hrole Hname Hemail Honline Hcreated Hrest.
  cbn [filter]. rewrite Hrole, Honline.
  destruct (negb (User.role u2 =? "customer") && JS.is_true (User.isOnline u2)).
  - cbn [map]. rewrite Hid, Huser, Hrole, Hname, Hemail, Honline, Hcreated.
    f_equal. now apply IH.
  - now apply IH.
Qed.

(* ================================================================== *)
(** * The rest of the store and of the routes *)

(** Unfolds a request down to its storage calls and splits on every test
    the handler makes, innermost first. *)
Ltac open_handler :=
  unfold handle, ws_on_message, ws_on_close, ws_on_connection, JSON_parse,
    case_join_session, case_chat_message, case_typing, case_session_transfer,
    case_session_ended, post_auth_login, post_chat_start, post_chat_transfer,
    post_chat_end, get_agents, broadcastToSession;
  run_task;
  repeat (match goal with
          | |- context [match ?x with _ => _ end] =>
              lazymatch x with
              | context [match _ with _ => _ end] => fail
              | _ => destruct x eqn:?
              end
          end; run_task).

(** Closes [NoDup l] and [~ In x l] for a list of string literals. *)
Ltac distinct_literals := cbn; repeat constructor; cbn; intuition discriminate.

(* ------------------------------------------------------------------ *)
(** ** Arrays, maps and text *)

Lemma insert_by_perm {A} (key : A -> N) (x : A) (l : list A) :
  Permutation (JSArray.insert_by key x l) (x :: l).
Proof.
  induction l as [|y r IH]; cbn; [reflexivity|].
  destruct (key x <=? key y)%N; [reflexivity|].
  rewrite IH. apply perm_swap.
Qed.

Lemma sort_by_perm {A} (key : A -> N) (l : list A) :
  Permutation (JSArray.sort_by key l) l.
Proof.
  induction l as [|x l IH]; cbn; [reflexivity|].
  rewrite insert_by_perm. now constructor.
Qed.

Lemma insert_by_sorted {A} (key : A -> N) (x : A) (l : list A) :
  Sorted (fun a b => (key a <= key b)%N) l ->
  Sorted (fun a b => (key a <= key b)%N) (JSArray.insert_by key x l).
Proof.
  induction l as [|y r IH]; intros Hs; cbn.
  - repeat constructor.
  - destruct (key x <=? key y)%N eqn:E.
    + constructor; [exact Hs|]. constructor. now apply N.leb_le.
    + apply N.leb_gt in E. inversion Hs as [|? ? Hr Hhd]; subst.
      constructor; [now apply IH|].
      destruct r as [|z r']; cbn.
      * constructor. lia.
      * destruct (key x <=? key z)%N; constructor; [lia|].
        now inversion Hhd.
Qed.

Lemma sort_by_sorted {A} (key : A -> N) (l : list A) :
  Sorted (fun a b => (key a <= key b)%N) (JSArray.sort_by key l).
Proof.
  induction l as [|x l IH]; cbn; [constructor | now apply insert_by_sorted].
Qed.

(** Elements of equal key keep their order: the sort is stable. *)
Lemma insert_by_same_key {A} (key : A -> N) (t : N) (x : A) (l : list A) :
  filter (fun a => (key a =? t)%N) (JSArray.insert_by key x l)
  = filter (fun a => (key a =? t)%N) (x :: l).
Proof.
  induction l as [|y r IH]; [reflexivity|].
  cbn [JSArray.insert_by]. destruct (key x <=? key y)%N eqn:E; [reflexivity|].
  apply N.leb_gt in E. cbn [filter] in *. rewrite IH.
  destruct (key y =? t)%N eqn:Ey; [|reflexivity].
  apply N.eqb_eq in Ey.
  destruct (key x =? t)%N eqn:Ex; [apply N.eqb_eq in Ex; lia | reflexivity].
Qed.

Lemma sort_by_same_key {A} (key : A -> N) (t : N) (l : list A) :
  filter (fun a => (key a =? t)%N) (JSArray.sort_by key l)
  = filter (fun a => (key a =? t)%N) l.
Proof.
  induction l as [|x l IH]; [reflexivity|].
  cbn [JSArray.sort_by fold_right]. rewrite insert_by_same_key.
  cbn [filter]. fold (JSArray.sort_by key l). now rewrite IH.
Qed.

Lemma slice_last_spec {A} (n : nat) (l : list A) :
  exists older, l = (older ++ JSArray.slice_last n l)%list
                /\ match n with
                   | 0 => JSArray.slice_last n l = l
                   | S _ => List.length (JSArray.slice_last n l) = Nat.min n (List.length l)
                   end.
Proof.
  destruct n as [|n]; cbn [JSArray.slice_last].
  - exists []. split; reflexivity.
  - exists (firstn (List.length l - S n) l).
    split; [symmetry; apply firstn_skipn|].
    rewrite length_skipn. lia.
Qed.

Lemma last_of_sorted (l older : list Message.t) (m : Message.t) :
  Sorted not_later l -> l = (older ++ [m])%list ->
  forall m', In m' l -> not_later m' m.
Proof.
  intros Hs ->. apply Sorted_StronglySorted in Hs.
  2:{ intros a b c Hab Hbc. unfold not_later in *. lia. }
  induction older as [|x older IH]; cbn in *.
  - intros m' [<-|[]]. unfold not_later. lia.
  - inversion Hs as [|? ? Hrest Hall]; subst.
    intros m' [<-|Hin]; [|now apply IH].
    rewrite Forall_forall in Hall. apply Hall. apply in_or_app. right. now left.
Qed.

Lemma hd_slice_last_1 {A} (l : list A) (x : A) :
  hd_error (JSArray.slice_last 1 l) = Some x -> exists older, l = (older ++ [x])%list.
Proof.
  cbn [JSArray.slice_last]. intros Hhd.
  exists (firstn (List.length l - 1) l).
  rewrite <- (firstn_skipn (List.length l - 1) l) at 1. f_equal.
  assert (Hlen : List.length (skipn (List.length l - 1) l) <= 1)
    by (rewrite length_skipn; lia).
  destruct (skipn (List.length l - 1) l) as [|y [|z r]]; cbn in *;
    [discriminate | now injection Hhd as -> | exfalso; lia].
Qed.

Lemma hd_slice_last_1_none {A} (l : list A) :
  hd_error (JSArray.slice_last 1 l) = None -> l = [].
Proof.
  cbn [JSArray.slice_last]. destruct l as [|x l]; [reflexivity|].
  intros Hhd. exfalso.
  assert (Hlen : List.length (skipn (List.length (x :: l) - 1) (x :: l)) = 1)
    by (rewrite length_skipn; cbn [List.length]; lia).
  destruct (skipn _ _); cbn in *; [discriminate Hlen | discriminate Hhd].
Qed.

Lemma filter_filter_or {A} (p q : A -> bool) (l : list A) :
  filter p (filter (fun x => p x || q x) l) = filter p l.
Proof.
  induction l as [|x l IH]; [reflexivity|]. cbn.
  destruct (p x) eqn:Ep; cbn; [rewrite Ep; now f_equal|].
  destruct (q x); cbn; [rewrite Ep|]; exact IH.
Qed.

Lemma filter_filter_or_r {A} (p q : A -> bool) (l : list A) :
  filter q (filter (fun x => p x || q x) l) = filter q l.
Proof.
  induction l as [|x l IH]; [reflexivity|]. cbn.
  destruct (p x) eqn:Ep, (q x) eqn:Eq; cbn; rewrite ?Eq; first [now f_equal | exact IH].
Qed.

Lemma length_filter_disjoint_or {A} (p q : A -> bool) (l : list A) :
  (forall x, p x = true -> q x = false) ->
  List.length (filter (fun x => p x || q x) l)
  = List.length (filter p l) + List.length (filter q l).
Proof.
  intros Hd. induction l as [|x l IH]; [reflexivity|]. cbn.
  destruct (p x) eqn:Ep; cbn.
  - rewrite (Hd x Ep). cbn. now rewrite IH.
  - destruct (q x); cbn; rewrite IH; lia.
Qed.

Lemma find_app_found {A} (p : A -> bool) (l l' : list A) (x : A) :
  find p l = Some x -> find p (l ++ l') = Some x.
Proof.
  induction l as [|y l IH]; cbn; [discriminate|].
  destruct (p y); [trivial | exact IH].
Qed.

Lemma opt_eqb_eq (a b : option string) : JS.opt_eqb a b = true <-> a = b.
Proof.
  destruct a as [x|], b as [y|]; cbn; split; try discriminate; try reflexivity.
  - intros E. apply String.eqb_eq in E. now subst.
  - intros [= ->]. apply String.eqb_refl.
Qed.

Lemma JSMap_get_set_other {V} (m : JSMap.t V) k k' v :
  k' <> k -> JSMap.get (JSMap.set m k' v) k = JSMap.get m k.
Proof.
  intros Hne. induction m as [|[k0 v0] m IH]; cbn.
  - destruct (k' =? k) eqn:E; [apply String.eqb_eq in E; contradiction | reflexivity].
  - destruct (k0 =? k') eqn:E0; cbn.
    + apply String.eqb_eq in E0. subst k0.
      destruct (k' =? k) eqn:E; [apply String.eqb_eq in E; contradiction | reflexivity].
    + destruct (k0 =? k); [reflexivity | exact IH].
Qed.

Lemma JSMap_In_set_same {V} (m : JSMap.t V) k v v' :
  NoDup (JSMap.keys m) -> In (k, v') (JSMap.set m k v) -> v' = v.
Proof.
  intros Hnd Hin.
  assert (Hnd' : NoDup (JSMap.keys (JSMap.set m k v))) by now apply JSMap_NoDup_set.
  pose proof (JSMap_In_get _ _ _ Hnd' Hin) as Hg.
  rewrite JSMap_get_set_same in Hg. now injection Hg.
Qed.

Lemma keys_set_incl {V} (m : JSMap.t V) k v :
  incl (JSMap.keys m) (JSMap.keys (JSMap.set m k v)).
Proof.
  rewrite JSMap_keys_set.
  destruct (JSMap.get m k); [apply incl_refl | now apply incl_appl, incl_refl].
Qed.

Lemma JSMap_delete_not_in {V} (m : JSMap.t V) (k : string) :
  NoDup (JSMap.keys m) -> ~ In k (JSMap.keys (JSMap.delete m k)).
Proof.
  unfold JSMap.keys. induction m as [|[k' v'] m IH]; cbn; [tauto|].
  intros Hnd. inversion Hnd as [|? ? Hnotin Hnd']; subst.
  destruct (k' =? k) eqn:E.
  - apply String.eqb_eq in E. now subst.
  - cbn. intros [Heq|Hin]; [subst; rewrite String.eqb_refl in E; discriminate|].
    now apply IH.
Qed.

Lemma JSMap_get_delete_same {V} (m : JSMap.t V) k :
  NoDup (JSMap.keys m) -> JSMap.get (JSMap.delete m k) k = None.
Proof.
  unfold JSMap.keys. induction m as [|[k' v'] m IH]; cbn; [reflexivity|].
  intros Hnd. inversion Hnd as [|? ? Hnotin Hnd']; subst.
  destruct (k' =? k) eqn:E.
  - apply String.eqb_eq in E. subst k'.
    destruct (JSMap.get m k) eqn:Hg; [|reflexivity].
    exfalso. apply Hnotin. apply JSMap_get_In in Hg. apply in_map_iff. now exists (k, v).
  - cbn. rewrite E. now apply IH.
Qed.

Lemma JSMap_get_delete_other {V} (m : JSMap.t V) k k' :
  k' <> k -> JSMap.get (JSMap.delete m k) k' = JSMap.get m k'.
Proof.
  intros Hne. induction m as [|[k0 v0] m IH]; cbn; [reflexivity|].
  destruct (k0 =? k) eqn:E.
  - apply String.eqb_eq in E. subst k0.
    destruct (k =? k') eqn:E'; [apply String.eqb_eq in E'; subst; contradiction | reflexivity].
  - cbn. destruct (k0 =? k'); [reflexivity | exact IH].
Qed.

Lemma JSMap_delete_absent {V} (m : JSMap.t V) k :
  JSMap.get m k = None -> JSMap.delete m k = m.
Proof.
  induction m as [|[k' v'] m IH]; cbn; [reflexivity|].
  destruct (k' =? k); [discriminate|]. intros Hg. now rewrite IH.
Qed.

(** Replacing the value under a key by one the test [p] judges alike
    moves what [find p] answers only from the old value to the new. *)
Lemma find_after_set {V} (p : V -> bool) (m : JSMap.t V) k s0 v f :
  JSMap.get m k = Some s0 -> p v = p s0 ->
  find p (JSMap.values m) = Some f ->
  exists f', find p (JSMap.values (JSMap.set m k v)) = Some f'
             /\ (f' = f \/ (f = s0 /\ f' = v)).
Proof.
  intros Hg Hp. induction m as [|[k' v'] m IH]; cbn in *; [discriminate|].
  destruct (k' =? k) eqn:E.
  - injection Hg as ->. cbn. rewrite Hp.
    destruct (p s0); [intros [= <-]; exists v; split; [reflexivity | now right]|].
    intros Hf. exists f. split; [exact Hf | now left].
  - cbn. destruct (p v'); [intros [= <-]; exists v'; split; [reflexivity | now left]|].
    now apply IH.
Qed.

Lemma includes_empty (s : string) : JS.includes "" s = true.
Proof. destruct s; reflexivity. Qed.

Lemma includes_self (s : string) : JS.includes s s = true.
Proof.
  destruct s as [|c s]; [reflexivity|].
  cbn [JS.includes].
  assert (Hp : prefix (String c s) (String c s) = true).
  { pose proof (prefix_append (String c s) "") as Hp.
    assert (Hnil : forall t, t ++ "" = t) by (induction t as [|a t IH]; cbn; congruence).
    now rewrite Hnil in Hp. }
  now rewrite Hp.
Qed.

Lemma prefix_append2 (a b c : string) : prefix (a ++ b) (a ++ b ++ c) = true.
Proof.
  induction a as [|x a IH]; cbn; [apply prefix_append|].
  destruct (ascii_dec x x) as [_|Hne]; [exact IH | now elim Hne].
Qed.

(** A loop over [l] whose body only reads is [map]. *)
Lemma for_each_reads {St A B} (f : A -> Task St B) (g : A -> B) (w : World St) (l : list A) :
  (forall x, f x w = (Returned (g x), w)) ->
  for_each f l w = (Returned (map g l), w).
Proof.
  intros Hf. induction l as [|x l IH]; [reflexivity|].
  cbn [for_each map]. unfold bind. rewrite Hf, IH. reflexivity.
Qed.

(* ------------------------------------------------------------------ *)
(** ** Messages of a session *)

(** X1. [getMessagesBySession] answers exactly the stored messages filed
    under the given id, each once, in the order of their timestamps (a
    missing timestamp counting as the epoch); messages of equal timestamp
    keep the order in which they were stored.  The store is not
    changed. *)
Theorem messages_by_session_in_time_order (w : World MemStorage.t) (sessionId : string) :
  exists transcript,
    MemStorageRest.getMessagesBySession sessionId w = (Returned transcript, w)
    /\ Sorted not_later transcript
    /\ Permutation transcript (filed_under (storage w) sessionId)
    /\ forall t : N,
        filter (fun m => (MemStorageRest.time_or_zero m =? t)%N) transcript
        = filter (fun m => (MemStorageRest.time_or_zero m =? t)%N)
                 (filed_under (storage w) sessionId).
Proof.
  eexists. split; [reflexivity|].
  split; [apply sort_by_sorted|]. split; [apply sort_by_perm|].
  intros t. apply sort_by_same_key.
Qed.

(** X2. [getRecentMessages] answers the end of the transcript that
    [getMessagesBySession] gives: for a limit [n > 0] its last [n] messages,
    all of them when there are fewer; for the limit [0] the whole
    transcript, not the empty list. *)
Theorem recent_messages_are_the_latest (w : World MemStorage.t) (sessionId : string)
        (limit : nat) :
  exists transcript recent older,
    MemStorageRest.getMessagesBySession sessionId w = (Returned transcript, w)
    /\ MemStorageRest.getRecentMessages sessionId limit w = (Returned recent, w)
    /\ transcript = (older ++ recent)%list
    /\ match limit with
       | 0 => recent = transcript
       | S _ => List.length recent = Nat.min limit (List.length transcript)
       end.
Proof.
  destruct (slice_last_spec limit
              (JSArray.sort_by MemStorageRest.time_or_zero (filed_under (storage w) sessionId)))
    as (older & Hsplit & Hlimit).
  eexists _, _, older. split; [reflexivity|]. split; [reflexivity|].
  split; [exact Hsplit | exact Hlimit].
Qed.

(* ------------------------------------------------------------------ *)
(** ** Users *)

(** X3. [createUser] files the new user under the UUID it draws, offline,
    with a role that is never empty ([agent] when none is given), and
    [getUser] then finds it.  It does not look the username up first: when
    the id is new and an earlier user has the same username,
    [getUserByUsername] still answers the earlier one. *)
Theorem created_user_is_stored_offline
        (w : World MemStorage.t) (insertUser : InsertUser.t) :
  let w' := run (MemStorageRest.createUser insertUser) w in
  exists user,
    result (MemStorageRest.createUser insertUser) w = Returned user
    /\ User.id user = uuid_src w (uuid_calls w)
    /\ User.isOnline user = Some false
    /\ User.role user <> ""
    /\ (JS.truthy (InsertUser.role insertUser) = false -> User.role user = "agent")
    /\ result (getUser (User.id user)) w' = Returned (Some user)
    /\ forall earlier,
        JSMap.get (MemStorage.users (storage w)) (User.id user) = None ->
        result (getUserByUsername (InsertUser.username insertUser)) w = Returned (Some earlier) ->
        result (getUserByUsername (InsertUser.username insertUser)) w' = Returned (Some earlier).
Proof.
  intros w'. subst w'. unfold MemStorageRest.createUser. run_task.
  eexists. split; [reflexivity|]. split; [reflexivity|]. split; [reflexivity|].
  split.
  { cbn. unfold JS.or_else. destruct (InsertUser.role insertUser) as [r|]; cbn; [|discriminate].
    destruct (r =? "") eqn:E; cbn; [discriminate|]. now apply String.eqb_neq. }
  split.
  { cbn. intros Hrole. unfold JS.or_else. now rewrite Hrole. }
  split; [now rewrite JSMap_get_set_same|].
  intros earlier Hfresh Hfound. cbn in Hfresh. rewrite (JSMap_set_fresh _ _ _ Hfresh).
  injection Hfound as Hfound.
  unfold JSMap.values. rewrite map_app.
  f_equal. apply find_app_found. exact Hfound.
Qed.

(* ------------------------------------------------------------------ *)
(** ** SOP documents *)

Lemma mentions_empty (sop : SOPDocument.t) : SopStorage.mentions sop "" = true.
Proof. unfold SopStorage.mentions. cbn. now rewrite includes_empty. Qed.

(** When every keyword is a string the search is a plain filter. *)
Lemma filter_some_strings (keywords : list string) (docs : list SOPDocument.t) :
  SopStorage.filter_some (map Some keywords) docs
  = Returned (filter (fun sop => existsb (SopStorage.mentions sop) keywords) docs).
Proof.
  assert (Hsome : forall sop, SopStorage.some_keyword sop (map Some keywords)
                              = Returned (existsb (SopStorage.mentions sop) keywords)).
  { intros sop. induction keywords as [|k ks IH]; [reflexivity|].
    cbn. destruct (SopStorage.mentions sop k); [reflexivity | exact IH]. }
  induction docs as [|sop docs IH]; [reflexivity|].
  cbn [SopStorage.filter_some filter]. rewrite Hsome, IH. reflexivity.
Qed.

(** X4. POST /api/sop/search at its edges: an empty keyword array finds
    nothing; the empty keyword finds every document; a body without
    [keywords] is answered 500 as soon as one document is stored, and by
    the empty list when none is.  The store is never changed. *)
Theorem sop_search_edge_cases (w : World SopStorage.t) :
  let docs := JSMap.values (SopStorage.sopDocuments (storage w)) in
  post_sop_search (KeywordArray []) w = (Returned (Answer 200 []), w)
  /\ post_sop_search (KeywordValue (Some "")) w = (Returned (Answer 200 docs), w)
  /\ post_sop_search (KeywordValue None) w
     = (Returned (match docs with
                  | [] => Answer 200 []
                  | _ :: _ => Refusal 500 "Failed to search SOP documents"
                  end), w).
Proof.
  intros docs. unfold post_sop_search, SopStorage.searchSOPs, try_catch, bind, ret.
  fold docs. split; [|split].
  - pose proof (filter_some_strings [] docs) as Hs. cbn [map] in Hs. rewrite Hs.
    replace (filter (fun sop => existsb (SopStorage.mentions sop) []) docs)
      with (@nil SOPDocument.t); [reflexivity|].
    clear Hs. induction docs as [|d docs' IH]; [reflexivity | exact IH].
  - pose proof (filter_some_strings [""] docs) as Hs. cbn [map] in Hs. rewrite Hs.
    replace (filter (fun sop => existsb (SopStorage.mentions sop) [""]) docs) with docs;
      [reflexivity|].
    clear Hs. induction docs as [|d docs' IH]; [reflexivity|].
    cbn [filter existsb]. rewrite mentions_empty. cbn [orb]. now f_equal.
  - destruct docs; reflexivity.
Qed.

(** X5. A search for one keyword that agrees with a stored document's
    title once the letters A to Z of both are put in lower case, all other
    characters being the same, finds that document, and everything found is
    a stored document.  (Nothing is said of keywords that differ from the
    title in the case of other letters.) *)
Theorem sop_search_finds_title_in_any_ascii_case
        (w : World SopStorage.t) (keyword : string) (k : string) (sop : SOPDocument.t) :
  In (k, sop) (SopStorage.sopDocuments (storage w)) ->
  JSString.toLowerCase keyword = JSString.toLowerCase (SOPDocument.title sop) ->
  exists found,
    post_sop_search (KeywordValue (Some keyword)) w = (Returned (Answer 200 found), w)
    /\ In sop found
    /\ forall d, In d found ->
                 exists k', In (k', d) (SopStorage.sopDocuments (storage w)).
Proof.
  intros Hin Hcase. unfold post_sop_search, SopStorage.searchSOPs, try_catch, bind, ret.
  pose proof (filter_some_strings [keyword]
                (JSMap.values (SopStorage.sopDocuments (storage w)))) as Hs.
  cbn [map] in Hs. rewrite Hs. eexists. split; [reflexivity|]. split.
  - apply filter_In. split.
    + unfold JSMap.values. apply in_map_iff. now exists (k, sop).
    + cbn. unfold SopStorage.mentions. rewrite Hcase, includes_self. reflexivity.
  - intros d Hd. apply filter_In in Hd. destruct Hd as [Hd _].
    unfold JSMap.values in Hd. apply in_map_iff in Hd.
    destruct Hd as [[k' d'] [Hd' Hin']]. cbn in Hd'. subst d'. now exists k'.
Qed.

Lemma sop_search_finds_title_in_any_ascii_case_witness :
  In ("sop-1", Samples.refunds) (SopStorage.sopDocuments (storage Samples.sop_world))
  /\ exists found,
      post_sop_search (KeywordValue (Some "REFUND policy")) Samples.sop_world
      = (Returned (Answer 200 found), Samples.sop_world)
      /\ In Samples.refunds found.
Proof.
  assert (Hin : In ("sop-1", Samples.refunds)
                   (SopStorage.sopDocuments (storage Samples.sop_world))) by now left.
  split; [exact Hin|].
  destruct (sop_search_finds_title_in_any_ascii_case
              Samples.sop_world "REFUND policy" "sop-1" Samples.refunds Hin)
    as (found & Hanswer & Hfound & _).
  - vm_compute. reflexivity.
  - exists found. split; [exact Hanswer | exact Hfound].
Defined.

(** X6. POST /api/sop with a body the schema rejects is answered 500 and
    stores nothing; with a valid body the document is stored under the UUID
    drawn for it, stamped with the current time, with the version the body
    gives and with version 1.0 when the body gives none or an empty one;
    [getSOPDocument] then finds it, and so does a search for its title. *)
Theorem sop_create_then_found
        (w : World SopStorage.t) (body : option InsertSOPDocument.t) :
  match body with
  | None => post_sop body w = (Returned (Refusal 500 "Failed to create SOP document"), w)
  | Some sopData =>
      exists sop,
        result (post_sop body) w = Returned (Answer 200 sop)
        /\ SOPDocument.id sop = uuid_src w (uuid_calls w)
        /\ SOPDocument.title sop = InsertSOPDocument.title sopData
        /\ SOPDocument.lastUpdated sop = Some (clock_src w (clock_calls w))
        /\ SOPDocument.version sop
           = match InsertSOPDocument.version sopData with
             | Some given => if given =? "" then Some "1.0" else Some given
             | None => Some "1.0"
             end
        /\ result (SopStorage.getSOPDocument (SOPDocument.id sop)) (run (post_sop body) w)
           = Returned (Some sop)
        /\ exists found,
            result (post_sop_search (KeywordValue (Some (SOPDocument.title sop))))
                   (run (post_sop body) w)
            = Returned (Answer 200 found)
            /\ In sop found
  end.
Proof.
  destruct body as [sopData|]; [|reflexivity].
  unfold post_sop, SopStorage.createSOPDocument. run_task.
  eexists. split; [reflexivity|]. split; [reflexivity|]. split; [reflexivity|].
  split; [reflexivity|]. split.
  { cbn. unfold JS.or_else, JS.truthy.
    destruct (InsertSOPDocument.version sopData) as [given|]; [|reflexivity].
    destruct (given =? ""); reflexivity. }
  split; [unfold SopStorage.getSOPDocument; run_task; now rewrite JSMap_get_set_same|].
  unfold post_sop_search, SopStorage.searchSOPs, try_catch, bind, ret.
  cbn [storage with_storage SopStorage.sopDocuments].
  match goal with
  | |- context [SopStorage.filter_some [Some ?t] ?docs] =>
      pose proof (filter_some_strings [t] docs) as Hs; cbn [map] in Hs; rewrite Hs
  end.
  eexists. split; [reflexivity|]. apply filter_In. split.
  - unfold JSMap.values. apply in_map_iff. eexists (_, _). split; [reflexivity|].
    apply JSMap_get_In, JSMap_get_set_same.
  - cbn. unfold SopStorage.mentions. cbn. rewrite includes_self. reflexivity.
Qed.

(** X7. PUT /api/sop/:id for an id that is not stored is answered 404 and
    changes nothing.  For a stored id the document is replaced under the
    same key by the old one overridden with the body, and [lastUpdated] is
    the current time whatever the body says; the [id] member itself is taken
    from the body when it has one, so a document can come to carry an id
    other than the key it is filed under. *)
Theorem sop_update_stamps_the_current_time
        (w : World SopStorage.t) (id : string) (updates : PartialSOPDocument.t) :
  match JSMap.get (SopStorage.sopDocuments (storage w)) id with
  | None => put_sop id updates w = (Returned (Refusal 404 "SOP document not found"), w)
  | Some sop =>
      exists updated,
        result (put_sop id updates) w = Returned (Answer 200 updated)
        /\ result (SopStorage.getSOPDocument id) (run (put_sop id updates) w)
           = Returned (Some updated)
        /\ SOPDocument.lastUpdated updated = Some (clock_src w (clock_calls w))
        /\ SOPDocument.id updated
           = match PartialSOPDocument.id updates with
             | Some other => other
             | None => SOPDocument.id sop
             end
        /\ SOPDocument.title updated
           = match PartialSOPDocument.title updates with
             | Some title => title
             | None => SOPDocument.title sop
             end
        /\ SOPDocument.content updated
           = match PartialSOPDocument.content updates with
             | Some content => content
             | None => SOPDocument.content sop
             end
  end.
Proof.
  unfold put_sop, SopStorage.updateSOPDocument, SopStorage.getSOPDocument. run_task.
  destruct (JSMap.get _ _) as [sop|]; run_task; [|reflexivity].
  eexists. split; [reflexivity|]. split; [now rewrite JSMap_get_set_same|].
  repeat split; reflexivity.
Qed.

(** X8. DELETE /api/sop/:id is answered 200 when the id is stored and 404,
    with the store unchanged, when it is not.  Either way the id is not
    stored afterwards, a second DELETE is answered 404, and every other
    document is still found. *)
Theorem sop_delete_then_gone
        (w : World SopStorage.t) (id : string) :
  NoDup (JSMap.keys (SopStorage.sopDocuments (storage w))) ->
  let w' := run (delete_sop id) w in
  match JSMap.get (SopStorage.sopDocuments (storage w)) id with
  | Some _ => result (delete_sop id) w = Returned (Answer 200 tt)
  | None => result (delete_sop id) w = Returned (Refusal 404 "SOP document not found")
            /\ SopStorage.sopDocuments (storage w') = SopStorage.sopDocuments (storage w)
  end
  /\ result (SopStorage.getSOPDocument id) w' = Returned None
  /\ result (delete_sop id) w' = Returned (Refusal 404 "SOP document not found")
  /\ forall other, other <> id ->
                   result (SopStorage.getSOPDocument other) w'
                   = result (SopStorage.getSOPDocument other) w.
Proof.
  intros Hnd w'. subst w'.
  pose proof (JSMap_get_delete_same (SopStorage.sopDocuments (storage w)) id Hnd) as Hgone.
  unfold delete_sop, SopStorage.deleteSOPDocument, SopStorage.getSOPDocument. run_task.
  split; [|split; [|split]].
  - destruct (JSMap.get (SopStorage.sopDocuments (storage w)) id) eqn:Hg; run_task;
      [reflexivity|].
    split; [reflexivity|]. now apply JSMap_delete_absent.
  - destruct (JSMap.get (SopStorage.sopDocuments (storage w)) id); run_task; now rewrite Hgone.
  - destruct (JSMap.get (SopStorage.sopDocuments (storage w)) id); run_task;
      rewrite Hgone; reflexivity.
  - intros other Hne.
    destruct (JSMap.get (SopStorage.sopDocuments (storage w)) id); run_task;
      now rewrite JSMap_get_delete_other.
Qed.

Lemma sop_delete_then_gone_witness :
  NoDup (JSMap.keys (SopStorage.sopDocuments (storage Samples.sop_world)))
  /\ result (delete_sop "sop-1") Samples.sop_world = Returned (Answer 200 tt)
  /\ result (SopStorage.getSOPDocument "sop-1") (run (delete_sop "sop-1") Samples.sop_world)
     = Returned None
  /\ result (SopStorage.getSOPDocument "sop-2") (run (delete_sop "sop-1") Samples.sop_world)
     = Returned (Some Samples.escalation).
Proof.
  assert (Hnd : NoDup (JSMap.keys (SopStorage.sopDocuments (storage Samples.sop_world))))
    by distinct_literals.
  split; [exact Hnd|].
  destruct (sop_delete_then_gone Samples.sop_world "sop-1" Hnd)
    as (Hanswer & Hgone & _ & Hothers).
  split; [exact Hanswer|]. split; [exact Hgone|].
  rewrite (Hothers "sop-2") by discriminate. reflexivity.
Defined.

(* ------------------------------------------------------------------ *)
(** ** Transcripts *)

Lemma transcript_answer (w : World MemStorage.t) (code : string) (session : ChatSession.t) :
  find (fun s => ChatSession.sessionId s =? code)
       (JSMap.values (MemStorage.chatSessions (storage w))) = Some session ->
  get_session_messages code w
  = (Returned
       (Answer 200
          (JSArray.sort_by MemStorageRest.time_or_zero
             (filed_under (storage w) (ChatSession.id session)))),
     w).
Proof.
  intros Hfound. unfold get_session_messages. run_task. know_find Hfound. reflexivity.
Qed.

(** X9. GET /api/chat/sessions/:sessionId/messages for a code no stored
    session carries is answered 404, and nothing is changed. *)
Theorem transcript_of_unknown_code_is_404 (w : World MemStorage.t) (sessionId : string) :
  (forall k s, In (k, s) (MemStorage.chatSessions (storage w)) ->
               ChatSession.sessionId s <> sessionId) ->
  get_session_messages sessionId w = (Returned (Refusal 404 "Session not found"), w).
Proof.
  intros Hnone.
  assert (Hf : find (fun session => ChatSession.sessionId session =? sessionId)
                    (JSMap.values (MemStorage.chatSessions (storage w))) = None).
  { apply find_values_none. intros k s Hin. apply String.eqb_neq. now apply (Hnone k). }
  unfold get_session_messages. run_task. know_find Hf. reflexivity.
Qed.

Lemma transcript_of_unknown_code_is_404_witness :
  get_session_messages "CHT-9" Samples.world
  = (Returned (Refusal 404 "Session not found"), Samples.world).
Proof.
  apply (transcript_of_unknown_code_is_404 Samples.world "CHT-9").
  intros k s Hin. cbn in Hin. destruct Hin as [Heq|[]].
  injection Heq as _ <-. cbn. discriminate.
Defined.

(** X10. A chat_message frame that names its session by the session code
    is stored with that code as its [sessionId], while the transcript route
    reads the messages filed under the session's id: when code and id
    differ, the stored message does not appear in the transcript, which is
    what it was before. *)
Theorem socket_chat_messages_miss_the_transcript
        (w : World MemStorage.t) (clientId : string) (client : ConnectedClient.t)
        (message : WSMessage.t) (data : WSData) (code : string) (session : ChatSession.t) :
  JSMap.get (connectedClients w) clientId = Some client ->
  WSMessage.type message = "chat_message" ->
  WSMessage.sessionId message = Some code ->
  WSMessage.data message = Some data ->
  code <> "" ->
  result (getChatSessionBySessionId code) w = Returned (Some session) ->
  ChatSession.id session <> code ->
  JSMap.get (MemStorage.messages (storage w)) (uuid_src w (uuid_calls w)) = None ->
  let w' := run (ws_on_message clientId (Some message)) w in
  (exists stored, In stored (JSMap.values (MemStorage.messages (storage w')))
                  /\ Message.content stored = WSData_.content data
                  /\ Message.sessionId stored = Some code)
  /\ result (get_session_messages code) w' = result (get_session_messages code) w.
Proof.
  intros Hclient Htype Hsid Hdata Hne Hfound Hid Hfresh w'.
  unfold result in Hfound. cbn in Hfound. injection Hfound as Hfound.
  assert (Hnonempty : (code =? "") = false) by now apply String.eqb_neq.
  assert (Hstore : exists stored,
             storage w'
             = MemStorage.with_messages (storage w)
                 (MemStorage.messages (storage w) ++ [(uuid_src w (uuid_calls w), stored)])%list
             /\ Message.content stored = WSData_.content data
             /\ Message.sessionId stored = Some code).
  { subst w'. unfold run.
    rewrite (chat_message_dispatch w clientId client message Hclient Htype).
    unfold case_chat_message. rewrite Hdata, Hsid. unfold JS.truthy. rewrite Hnonempty.
    run_task. rewrite (JSMap_set_fresh _ _ _ Hfresh).
    eexists. split; [reflexivity|]. split; [reflexivity|].
    cbn. unfold JS.or_null, JS.truthy. rewrite Hnonempty. reflexivity. }
  destruct Hstore as (stored & Hstore & Hcontent & Hfiled).
  split.
  - exists stored. split; [|split; assumption].
    rewrite Hstore. cbn. unfold JSMap.values. rewrite map_app. apply in_or_app. right. now left.
  - unfold result.
    rewrite (transcript_answer w code session Hfound).
    rewrite (transcript_answer w' code session) by (rewrite Hstore; exact Hfound).
    cbn [fst]. unfold filed_under. rewrite Hstore.
    cbn [MemStorage.messages MemStorage.with_messages].
    unfold JSMap.values. rewrite map_app, filter_app. cbn [map filter snd].
    rewrite Hfiled. cbn [JS.opt_eqb].
    destruct (code =? ChatSession.id session) eqn:E;
      [apply String.eqb_eq in E; symmetry in E; contradiction|].
    now rewrite app_nil_r.
Qed.

Lemma socket_chat_messages_miss_the_transcript_witness :
  let w' := run (ws_on_message "k1" (Some Demo.chat_frame_hello)) Samples.world in
  (exists stored, In stored (JSMap.values (MemStorage.messages (storage w')))
                  /\ Message.content stored = Some "Hello"
                  /\ Message.sessionId stored = Some "CHT-1")
  /\ result (get_session_messages "CHT-1") w' = Returned (Answer 200 []).
Proof.
  destruct (socket_chat_messages_miss_the_transcript
              Samples.world "k1" (Demo.open_client (Some "CHT-1")) Demo.chat_frame_hello
              (Payload (Some "Hello") (Some "Jane") None None) "CHT-1" Samples.session)
    as [Hstored Hsame].
  - reflexivity.
  - reflexivity.
  - reflexivity.
  - reflexivity.
  - discriminate.
  - vm_compute. reflexivity.
  - cbn. discriminate.
  - vm_compute. reflexivity.
  - split; [exact Hstored|].
    etransitivity; [exact Hsame|]. vm_compute. reflexivity.
Defined.

(** X11. After a transfer through POST /api/chat/transfer the transcript
    of the session holds the system notice of the transfer, which names the
    new agent and the role as displayed. *)
Theorem transfer_notice_shows_in_transcript
        (w : World MemStorage.t) (sessionId newAgentId reason : string)
        (session : ChatSession.t) (newAgent : User.t) :
  result (getChatSessionBySessionId sessionId) w = Returned (Some session) ->
  JSMap.get (MemStorage.chatSessions (storage w)) (ChatSession.id session) = Some session ->
  ChatSession.id session <> "" ->
  result (getUser newAgentId) w = Returned (Some newAgent) ->
  let w' := run (post_chat_transfer sessionId newAgentId reason) w in
  exists transcript notice,
    result (get_session_messages sessionId) w' = Returned (Answer 200 transcript)
    /\ In notice transcript
    /\ Message.senderType notice = Some "system"
    /\ Message.messageType notice = Some "system"
    /\ Message.content notice
       = Some ("Chat transferred to " ++ User.name newAgent ++ " ("
               ++ JS.replace "_" " " (User.role newAgent) ++ ")").
Proof.
  intros Hs Hkey Hid Ha w'.
  unfold result in Hs, Ha. cbn in Hs, Ha. injection Hs as Hs. injection Ha as Ha.
  assert (Hnonempty : (ChatSession.id session =? "") = false) by now apply String.eqb_neq.
  assert (Hstore : exists updated notice,
             storage w'
             = MemStorage.with_messages
                 (MemStorage.with_chatSessions (storage w)
                    (JSMap.set (MemStorage.chatSessions (storage w))
                               (ChatSession.id session) updated))
                 (JSMap.set (MemStorage.messages (storage w))
                            (uuid_src w (uuid_calls w)) notice)
             /\ ChatSession.id updated = ChatSession.id session
             /\ ChatSession.sessionId updated = ChatSession.sessionId session
             /\ Message.sessionId notice = Some (ChatSession.id session)
             /\ Message.senderType notice = Some "system"
             /\ Message.messageType notice = Some "system"
             /\ Message.content notice
                = Some ("Chat transferred to " ++ User.name newAgent ++ " ("
                        ++ JS.replace "_" " " (User.role newAgent) ++ ")")).
  { subst w'. unfold post_chat_transfer. run_task. know_find Hs.
    run_task. rewrite Ha. run_task. rewrite Hkey. run_task.
    eexists _, _. split; [reflexivity|]. split; [reflexivity|]. split; [reflexivity|].
    split; [cbn; unfold JS.or_null, JS.truthy; rewrite Hnonempty; reflexivity|].
    repeat split; reflexivity. }
  destruct Hstore
    as (updated & notice & Hstore & Hsameid & Hsamecode & Hfiled & Hkind & Hmt & Htext).
  destruct (find_after_set (fun s => ChatSession.sessionId s =? sessionId)
              (MemStorage.chatSessions (storage w)) (ChatSession.id session)
              session updated session Hkey)
    as (found & Hfound & Hwhich); [now rewrite Hsamecode | exact Hs |].
  assert (Hfoundid : ChatSession.id found = ChatSession.id session)
    by (destruct Hwhich as [->|[_ ->]]; [reflexivity | exact Hsameid]).
  eexists _, notice. unfold result.
  rewrite (transcript_answer w' sessionId found) by (rewrite Hstore; exact Hfound).
  split; [reflexivity|]. split; [|repeat split; assumption].
  eapply Permutation_in; [symmetry; apply sort_by_perm|].
  apply filter_In. split.
  - rewrite Hstore. cbn. unfold JSMap.values. apply in_map_iff.
    exists (uuid_src w (uuid_calls w), notice). split; [reflexivity|].
    apply JSMap_get_In, JSMap_get_set_same.
  - rewrite Hfiled, Hfoundid. cbn. apply String.eqb_refl.
Qed.

Lemma transfer_notice_shows_in_transcript_witness :
  exists transcript notice,
    result (get_session_messages "CHT-1")
           (run (post_chat_transfer "CHT-1" "u-senior" "needs billing expertise")
                Samples.world)
    = Returned (Answer 200 transcript)
    /\ In notice transcript
    /\ Message.content notice = Some "Chat transferred to David Kim (senior agent)".
Proof.
  destruct (transfer_notice_shows_in_transcript
              Samples.world "CHT-1" "u-senior" "needs billing expertise"
              Samples.session Demo.seniorAgent)
    as (transcript & notice & Hanswer & Hin & _ & _ & Htext).
  - vm_compute. reflexivity.
  - vm_compute. reflexivity.
  - cbn. discriminate.
  - vm_compute. reflexivity.
  - exists transcript, notice. split; [exact Hanswer|]. split; [exact Hin | exact Htext].
Defined.

(* ------------------------------------------------------------------ *)
(** ** The session list and the dashboard *)

Lemma enrich_session_reads (w : World MemStorage.t) (s : ChatSession.t) :
  exists customer agent,
    enrich_session s w
    = (Returned
         (EnrichedSession.mk s customer agent
            (hd_error
               (JSArray.slice_last 1
                  (JSArray.sort_by MemStorageRest.time_or_zero
                     (filed_under (storage w) (ChatSession.id s)))))),
       w).
Proof.
  unfold enrich_session, bind, ret.
  destruct (ChatSession.customerId s) as [c|], (ChatSession.agentId s) as [a|];
    repeat match goal with
           | |- context [JS.truthy ?x] => destruct (JS.truthy x)
           end; eexists _, _; reflexivity.
Qed.

(** What GET /api/chat/sessions answers: the listed sessions in the order
    of the map, each with the last message of its transcript. *)
Lemma session_list_answer (w : World MemStorage.t) :
  exists listed,
    get_chat_sessions w = (Returned (Answer 200 listed), w)
    /\ map EnrichedSession.session listed
       = filter is_listed (JSMap.values (MemStorage.chatSessions (storage w)))
    /\ Forall
         (fun e =>
            EnrichedSession.lastMessage e
            = hd_error
                (JSArray.slice_last 1
                   (JSArray.sort_by MemStorageRest.time_or_zero
                      (filed_under (storage w) (ChatSession.id (EnrichedSession.session e))))))
         listed.
Proof.
  unfold get_chat_sessions, try_catch, bind, ret.
  unfold MemStorageRest.getActiveSessions, MemStorage.read.
  change (fun session : ChatSession.t =>
            JS.opt_eqb (ChatSession.status session) (Some "active")
            || JS.opt_eqb (ChatSession.status session) (Some "waiting"))
    with is_listed.
  induction (filter is_listed (JSMap.values (MemStorage.chatSessions (storage w))))
    as [|s l IH].
  - exists []. repeat split. constructor.
  - destruct IH as (listed & Hrun & Hsessions & Hlast).
    destruct (enrich_session_reads w s) as (customer & agent & Hs).
    cbn [for_each]. unfold bind, ret. rewrite Hs.
    destruct (for_each enrich_session l w) as [[ys|e] w1] eqn:Hl; [|discriminate Hrun].
    injection Hrun as -> ->.
    eexists. split; [reflexivity|]. split.
    + cbn [map EnrichedSession.session]. now rewrite Hsessions.
    + constructor; [reflexivity | exact Hlast].
Qed.

(** X12. GET /api/chat/sessions lists exactly the stored sessions whose
    status is active or waiting, in the order of the map, and changes
    nothing.  The [lastMessage] of an entry is a message filed under the
    session's id than which none is later; it is missing exactly when no
    message is filed under that id. *)
Theorem session_list_shows_open_sessions_with_latest_message (w : World MemStorage.t) :
  exists listed,
    get_chat_sessions w = (Returned (Answer 200 listed), w)
    /\ map EnrichedSession.session listed
       = filter is_listed (JSMap.values (MemStorage.chatSessions (storage w)))
    /\ Forall
         (fun e =>
            let filed := filed_under (storage w) (ChatSession.id (EnrichedSession.session e)) in
            match EnrichedSession.lastMessage e with
            | Some m => In m filed /\ forall m', In m' filed -> not_later m' m
            | None => filed = []
            end)
         listed.
Proof.
  destruct (session_list_answer w) as (listed & Hrun & Hsessions & Hlast).
  exists listed. split; [exact Hrun|]. split; [exact Hsessions|].
  eapply Forall_impl; [|exact Hlast]. intros e He. cbv zeta. rewrite He.
  set (filed := filed_under (storage w) (ChatSession.id (EnrichedSession.session e))).
  pose proof (sort_by_sorted MemStorageRest.time_or_zero filed) as Hsorted.
  pose proof (sort_by_perm MemStorageRest.time_or_zero filed) as Hperm.
  destruct (hd_error _) as [m|] eqn:Hhd.
  - apply hd_slice_last_1 in Hhd. destruct Hhd as [older Hsplit].
    split.
    + eapply Permutation_in; [exact Hperm|]. rewrite Hsplit.
      apply in_or_app. right. now left.
    + intros m' Hin'. apply (last_of_sorted _ older m Hsorted Hsplit).
      eapply Permutation_in; [symmetry; exact Hperm | exact Hin'].
  - apply hd_slice_last_1_none in Hhd.
    apply Permutation_nil. rewrite <- Hhd. exact Hperm.
Qed.

(** X13. POST /api/chat/end/:sessionId for the code of a stored session
    answers the session as resolved, with the current time as its end, and
    stores it so; the session list no longer shows a session of that
    id. *)
Theorem ended_session_is_resolved_and_unlisted
        (w : World MemStorage.t) (sessionId : string) (session : ChatSession.t) :
  stored_by_id (storage w) ->
  result (getChatSessionBySessionId sessionId) w = Returned (Some session) ->
  let w' := run (post_chat_end sessionId) w in
  exists updated,
    result (post_chat_end sessionId) w = Returned (mkResponse 200 (SessionBody (Some updated)))
    /\ JSMap.get (MemStorage.chatSessions (storage w')) (ChatSession.id session) = Some updated
    /\ ChatSession.status updated = Some "resolved"
    /\ ChatSession.endTime updated = Some (clock_src w (clock_calls w))
    /\ forall listed,
        result get_chat_sessions w' = Returned (Answer 200 listed) ->
        forall e, In e listed ->
                  ChatSession.id (EnrichedSession.session e) <> ChatSession.id session.
Proof.
  intros Hwf Hfound w'.
  pose proof (found_session_is_stored_under_its_id w sessionId session Hwf Hfound) as Hkey.
  destruct Hwf as [Hnd Hkeyed].
  unfold result in Hfound. cbn in Hfound. injection Hfound as Hfound.
  assert (Hstore : exists updated,
             post_chat_end sessionId w
             = (Returned (mkResponse 200 (SessionBody (Some updated))),
                mkWorld
                  (MemStorage.with_chatSessions (storage w)
                     (JSMap.set (MemStorage.chatSessions (storage w))
                                (ChatSession.id session) updated))
                  (connectedClients w) (sent w) (console w)
                  (uuid_src w) (uuid_calls w) (clock_src w) (S (clock_calls w)))
             /\ ChatSession.id updated = ChatSession.id session
             /\ ChatSession.status updated = Some "resolved"
             /\ ChatSession.endTime updated = Some (clock_src w (clock_calls w))).
  { unfold post_chat_end. run_task. know_find Hfound. run_task. rewrite Hkey. run_task.
    eexists. repeat split; reflexivity. }
  destruct Hstore as (updated & Hrun & Hsameid & Hstatus & Hend).
  exists updated. subst w'. unfold result, run. rewrite Hrun. cbn [fst snd storage].
  split; [reflexivity|]. split; [cbn; apply JSMap_get_set_same|].
  split; [exact Hstatus|]. split; [exact Hend|].
  intros listed Hlisted e Hin Hsame.
  destruct (session_list_answer
              (mkWorld
                 (MemStorage.with_chatSessions (storage w)
                    (JSMap.set (MemStorage.chatSessions (storage w))
                               (ChatSession.id session) updated))
                 (connectedClients w) (sent w) (console w)
                 (uuid_src w) (uuid_calls w) (clock_src w) (S (clock_calls w))))
    as (listed' & Hanswer & Hsessions & _).
  rewrite Hanswer in Hlisted. cbn in Hlisted. injection Hlisted as <-.
  assert (Hs : In (EnrichedSession.session e) (map EnrichedSession.session listed'))
    by now apply in_map.
  rewrite Hsessions in Hs. cbn in Hs. apply filter_In in Hs. destruct Hs as [Hs Hopen].
  unfold JSMap.values in Hs. apply in_map_iff in Hs. destruct Hs as [[k s'] [Hs' Hin']].
  cbn in Hs'. subst s'.
  assert (Hk : k = ChatSession.id session).
  { apply JSMap_In_set in Hin'. destruct Hin' as [[-> _]|Hin']; [reflexivity|].
    rewrite <- Hsame. symmetry. now apply Hkeyed. }
  subst k. apply JSMap_In_set_same in Hin'; [|exact Hnd].
  rewrite Hin' in Hopen. unfold is_listed, has_status in Hopen. rewrite Hstatus in Hopen.
  discriminate Hopen.
Qed.

Lemma samples_stored_by_id : stored_by_id (storage Samples.world).
Proof.
  split; [distinct_literals|].
  intros k s Hin. cbn in Hin. destruct Hin as [Heq|[]]. now injection Heq as <- <-.
Qed.

Lemma ended_session_is_resolved_and_unlisted_witness :
  exists updated,
    result (post_chat_end "CHT-1") Samples.world
    = Returned (mkResponse 200 (SessionBody (Some updated)))
    /\ ChatSession.status updated = Some "resolved"
    /\ ChatSession.endTime updated = Some 1700000000000%N
    /\ result get_chat_sessions (run (post_chat_end "CHT-1") Samples.world)
       = Returned (Answer 200 []).
Proof.
  destruct (ended_session_is_resolved_and_unlisted
              Samples.world "CHT-1" Samples.session samples_stored_by_id)
    as (updated & Hanswer & _ & Hstatus & Hend & _).
  - vm_compute. reflexivity.
  - exists updated. split; [exact Hanswer|]. split; [exact Hstatus|].
    split; [exact Hend|]. vm_compute. reflexivity.
Defined.

(** X14. GET /api/dashboard/stats counts the stored sessions of status
    active and those of status waiting, and its [totalSessions] is the sum
    of the two: sessions that are resolved or terminated are not in the
    total. *)
Theorem dashboard_total_is_active_plus_waiting (w : World MemStorage.t) :
  let stored := JSMap.values (MemStorage.chatSessions (storage w)) in
  exists stats,
    get_dashboard_stats w = (Returned (Answer 200 stats), w)
    /\ DashboardStats.activeChats stats = List.length (filter (has_status "active") stored)
    /\ DashboardStats.waitingChats stats = List.length (filter (has_status "waiting") stored)
    /\ DashboardStats.totalSessions stats
       = DashboardStats.activeChats stats + DashboardStats.waitingChats stats.
Proof.
  intros stored. eexists. split; [reflexivity|]. cbn.
  split; [now rewrite (filter_filter_or (has_status "active") (has_status "waiting"))|].
  split; [now rewrite (filter_filter_or_r (has_status "active") (has_status "waiting"))|].
  rewrite (filter_filter_or (has_status "active") (has_status "waiting")).
  rewrite (filter_filter_or_r (has_status "active") (has_status "waiting")).
  apply (length_filter_disjoint_or (has_status "active") (has_status "waiting")).
  intros s. unfold has_status.
  destruct (ChatSession.status s) as [st|]; cbn; [|discriminate].
  intros E. apply String.eqb_eq in E. now subst.
Qed.

(* ------------------------------------------------------------------ *)
(** ** The export *)

Lemma export_session_reads (w : World MemStorage.t) (s : ChatSession.t) :
  export_session s w = (Returned (exported (storage w) s), w).
Proof.
  unfold export_session, exported, bind, ret.
  destruct (ChatSession.customerId s) as [c|], (ChatSession.agentId s) as [a|];
    repeat match goal with
           | |- context [JS.truthy ?x] => destruct (JS.truthy x)
           end; reflexivity.
Qed.

Lemma csv_rows_count (st : MemStorage.t) (sessions : list ChatSession.t) :
  List.length (flat_map csv_rows (map (exported st) sessions))
  = list_sum (map (fun s => List.length (filed_under st (ChatSession.id s))) sessions).
Proof.
  induction sessions as [|s l IH]; [reflexivity|].
  cbn [map flat_map list_sum fold_right]. rewrite length_app, IH.
  unfold csv_rows at 1. rewrite length_map. cbn [ExportEntry.messages exported].
  rewrite (Permutation_length (sort_by_perm MemStorageRest.time_or_zero
                                            (filed_under st (ChatSession.id s)))).
  reflexivity.
Qed.

Section ExportFacts.

Variable Date_toString : N -> string.

(** X15. An export of a type other than [all] for which no customer, or
    no agent, is selected (or of a type the route does not know) is
    answered 200 with no data: the empty array, or for the format csv the
    empty text.  The store is not changed. *)
Theorem export_without_selection_is_empty
        (w : World MemStorage.t) (type : string) (format customerId agentId : option string) :
  type <> "all" ->
  (type = "customer-wise" -> JS.truthy customerId = false) ->
  (type = "agent-wise" -> JS.truthy agentId = false) ->
  exists answer,
    result (get_export_conversations Date_toString type format customerId agentId) w
    = Returned (Answer 200 answer)
    /\ ExportAnswer.body answer
       = (if match format with Some f => f | None => "json" end =? "csv"
          then ExportCsv "" else ExportJson [])
    /\ storage (run (get_export_conversations Date_toString type format customerId agentId) w)
       = storage w.
Proof.
  intros Hall Hcust Hagent.
  unfold get_export_conversations. run_task.
  destruct (type =? "all") eqn:E0; [apply String.eqb_eq in E0; contradiction|].
  destruct (type =? "customer-wise") eqn:E1.
  { apply String.eqb_eq in E1. specialize (Hcust E1).
    destruct customerId as [c|]; cbn in Hcust; [rewrite Hcust|]; run_task;
      destruct (_ =? "csv"); run_task; eexists; repeat split; reflexivity. }
  destruct (type =? "agent-wise") eqn:E2.
  { apply String.eqb_eq in E2. specialize (Hagent E2).
    destruct agentId as [c|]; cbn in Hagent; [rewrite Hagent|]; run_task;
      destruct (_ =? "csv"); run_task; eexists; repeat split; reflexivity. }
  run_task. destruct (_ =? "csv"); run_task; eexists; repeat split; reflexivity.
Qed.

(** X16. An export of type [all] in the default format holds one entry
    for every stored session, whatever its status, in the order of the map.
    The messages of an entry are those filed under the session's id, each
    once, and the agent of an entry is written without a password. *)
Theorem export_all_covers_every_session
        (w : World MemStorage.t) (customerId agentId : option string) :
  exists answer exportData,
    result (get_export_conversations Date_toString "all" None customerId agentId) w
    = Returned (Answer 200 answer)
    /\ ExportAnswer.body answer = ExportJson exportData
    /\ map ExportEntry.session exportData = JSMap.values (MemStorage.chatSessions (storage w))
    /\ Forall
         (fun entry =>
            Permutation (ExportEntry.messages entry)
              (filed_under (storage w) (ChatSession.id (ExportEntry.session entry)))
            /\ match ExportEntry.agent entry with
               | Some agent => written_without_password agent
               | None => True
               end)
         exportData.
Proof.
  unfold result, get_export_conversations, try_catch, bind, ret, MemStorage.read.
  cbn -[for_each export_session append JS.number_to_string].
  rewrite (for_each_reads export_session (exported (storage w)) w _ (export_session_reads w)).
  cbn -[append JS.number_to_string].
  eexists _, _. split; [reflexivity|]. split; [reflexivity|]. split.
  - rewrite map_map. cbn. apply map_id.
  - apply Forall_forall. intros entry Hin. apply in_map_iff in Hin.
    destruct Hin as (s & <- & _). cbn. split.
    + apply sort_by_perm.
    + destruct (ChatSession.agentId s) as [a|]; cbn; [|exact I].
      destruct (negb (a =? "")); cbn; [|exact I].
      destruct (JSMap.get _ a); cbn; [apply without_password_is_safe | exact I].
Qed.

(** X17. An export of type [all] in the format csv has one row for every
    message filed under the id of a stored session.  With at least one row
    the text starts with the line of the eleven column names; with none,
    the text is empty and has no header line either. *)
Theorem csv_export_has_one_row_per_filed_message
        (w : World MemStorage.t) (customerId agentId : option string) :
  exists answer rows,
    result (get_export_conversations Date_toString "all" (Some "csv") customerId agentId) w
    = Returned (Answer 200 answer)
    /\ ExportAnswer.body answer = ExportCsv (csv_text Date_toString rows)
    /\ List.length rows
       = list_sum (map (fun s => List.length (filed_under (storage w) (ChatSession.id s)))
                       (JSMap.values (MemStorage.chatSessions (storage w))))
    /\ match rows with
       | [] => csv_text Date_toString rows = ""
       | _ :: _ =>
           prefix (JSText.join "," CsvRow.keys ++ JSText.newline)
                  (csv_text Date_toString rows) = true
       end.
Proof.
  unfold result, get_export_conversations, try_catch, bind, ret, MemStorage.read.
  cbn -[for_each export_session append JS.number_to_string flat_map csv_text].
  rewrite (for_each_reads export_session (exported (storage w)) w _ (export_session_reads w)).
  cbn -[append JS.number_to_string flat_map csv_text].
  eexists _, _. split; [reflexivity|]. split; [reflexivity|].
  split; [apply csv_rows_count|].
  destruct (flat_map csv_rows _) as [|row rows]; [reflexivity|].
  change (prefix (JSText.join "," CsvRow.keys ++ JSText.newline)
                 (JSText.join "," CsvRow.keys ++ JSText.newline
                    ++ JSText.join JSText.newline
                         (map (csv_line Date_toString) (row :: rows))) = true).
  apply prefix_append2.
Qed.

End ExportFacts.

Lemma export_without_selection_is_empty_witness :
  exists answer,
    result (get_export_conversations Samples.millis "agent-wise" (Some "csv") (Some "c-emma")
                                     None)
           Samples.world
    = Returned (Answer 200 answer)
    /\ ExportAnswer.body answer = ExportCsv "".
Proof.
  destruct (export_without_selection_is_empty
              Samples.millis Samples.world "agent-wise" (Some "csv") (Some "c-emma") None)
    as (answer & Hanswer & Hbody & _).
  - discriminate.
  - discriminate.
  - reflexivity.
  - exists answer. split; [exact Hanswer | exact Hbody].
Defined.

(* ------------------------------------------------------------------ *)
(** ** Logging in *)

(** X18. A login with a username no user has, or with a password that is
    not that user's, is answered 401 and changes nothing: no user is put
    online and nothing is logged. *)
Theorem failed_login_changes_nothing (w : World MemStorage.t) (username password : string) :
  (forall k u, In (k, u) (MemStorage.users (storage w)) ->
               User.username u = username -> User.password u <> password) ->
  post_auth_login username password w
  = (Returned (mkResponse 401 (ErrorBody "Invalid credentials")), w).
Proof.
  intros Hno. unfold post_auth_login. run_task.
  destruct (find _ _) as [u|] eqn:Hf; [|reflexivity].
  apply find_values_In in Hf. destruct Hf as [[k Hin] Hname].
  apply String.eqb_eq in Hname.
  destruct (User.password u =? password) eqn:Hp; [|reflexivity].
  apply String.eqb_eq in Hp. elim (Hno k u Hin Hname Hp).
Qed.

Lemma failed_login_changes_nothing_witness :
  post_auth_login "agent1" "letmein" (Demo.world Demo.seed)
  = (Returned (mkResponse 401 (ErrorBody "Invalid credentials")), Demo.world Demo.seed).
Proof.
  apply (failed_login_changes_nothing (Demo.world Demo.seed) "agent1" "letmein").
  intros k u Hin Hname. cbn in Hin.
  repeat (destruct Hin as [Heq|Hin]; [injection Heq as _ <-; cbn; discriminate|]).
  destruct Hin.
Defined.

(** X19. A login with the password of the stored user of that name is
    answered 200 with a user object, and stores the user as online; when
    the user is no customer the agent list then shows the user online. *)
Theorem login_puts_user_online (w : World MemStorage.t) (username password : string)
        (user : User.t) :
  result (getUserByUsername username) w = Returned (Some user) ->
  User.password user = password ->
  JSMap.get (MemStorage.users (storage w)) (User.id user) = Some user ->
  User.role user <> "customer" ->
  let w' := run (post_auth_login username password) w in
  (exists answered,
      result (post_auth_login username password) w
      = Returned (mkResponse 200 (LoginBody answered)))
  /\ JSMap.get (MemStorage.users (storage w')) (User.id user)
     = Some (User.with_isOnline user (Some true))
  /\ exists agents,
      result get_agents w' = Returned (mkResponse 200 (AgentsBody agents))
      /\ In (without_password (User.with_isOnline user (Some true))) agents.
Proof.
  intros Hfound Hpw Hkey Hrole w'. subst w'.
  unfold result in Hfound. cbn in Hfound. injection Hfound as Hfound.
  unfold post_auth_login. run_task. know_find Hfound. run_task.
  rewrite Hpw, String.eqb_refl. run_task. rewrite Hkey. run_task.
  split; [eexists; reflexivity|]. split; [apply JSMap_get_set_same|].
  eexists. split; [reflexivity|].
  apply in_map_iff. exists (User.with_isOnline user (Some true)).
  split; [reflexivity|]. apply filter_In. split.
  - unfold JSMap.values. apply in_map_iff.
    exists (User.id user, User.with_isOnline user (Some true)). split; [reflexivity|].
    apply JSMap_get_In. apply JSMap_get_set_same.
  - cbn. destruct (User.role user =? "customer") eqn:E; [|reflexivity].
    apply String.eqb_eq in E. contradiction.
Qed.

Lemma login_puts_user_online_witness :
  let w := Demo.world Demo.seed_agents_offline in
  JSMap.get (MemStorage.users (storage w)) "u-mike"
  = Some (User.with_isOnline Demo.mike (Some false))
  /\ JSMap.get (MemStorage.users (storage (run (post_auth_login "agent1" "password123") w)))
               "u-mike"
     = Some Demo.mike.
Proof.
  assert (Hkey : JSMap.get (MemStorage.users (storage (Demo.world Demo.seed_agents_offline)))
                           (User.id (User.with_isOnline Demo.mike (Some false)))
                 = Some (User.with_isOnline Demo.mike (Some false)))
    by (vm_compute; reflexivity).
  split; [exact Hkey|].
  destruct (login_puts_user_online
              (Demo.world Demo.seed_agents_offline) "agent1" "password123"
              (User.with_isOnline Demo.mike (Some false)))
    as (_ & Hstored & _).
  - vm_compute. reflexivity.
  - reflexivity.
  - exact Hkey.
  - cbn. discriminate.
  - exact Hstored.
Defined.

(* ------------------------------------------------------------------ *)
(** ** Starting a chat: the answer *)

(** X20. When POST /api/chat/start answers 200, the agent of the answer
    is a stored user of role agent who is online, and the session of the
    answer is assigned to that agent, active, without end and with an empty
    transfer history, and is stored under its id. *)
Theorem started_chat_is_active_with_online_base_agent
        (w : World MemStorage.t) (customerEmail customerName : string)
        (session : ChatSession.t) (customer : Customer.t) (agent : User.t) :
  result (post_chat_start customerEmail customerName) w
  = Returned (mkResponse 200 (StartBody session customer agent)) ->
  (exists k, In (k, agent) (MemStorage.users (storage w)))
  /\ User.role agent = "agent"
  /\ User.isOnline agent = Some true
  /\ ChatSession.agentId session = JS.or_null (Some (User.id agent))
  /\ ChatSession.status session = Some "active"
  /\ ChatSession.endTime session = None
  /\ ChatSession.transferHistory session = Some []
  /\ JSMap.get (MemStorage.chatSessions
                  (storage (run (post_chat_start customerEmail customerName) w)))
               (ChatSession.id session)
     = Some session.
Proof.
  unfold post_chat_start. run_task.
  destruct (find _ (JSMap.values (MemStorage.customers (storage w)))) as [c|]; run_task;
    (destruct (find _ _) as [a|] eqn:Hf; run_task; [|discriminate]);
    intros [= <- <- <-];
    apply find_some in Hf; destruct Hf as [Hin Honline];
    apply filter_In in Hin; destruct Hin as [Hin Hrole];
    apply String.eqb_eq in Hrole;
    (split; [unfold JSMap.values in Hin; apply in_map_iff in Hin;
             destruct Hin as [[k a'] [Ha Hin]]; cbn in Ha; subst a'; now exists k|]);
    (split; [exact Hrole|]);
    (split; [now destruct (User.isOnline a) as [[|]|]|]);
    (split; [reflexivity|]); (split; [reflexivity|]); (split; [reflexivity|]);
    (split; [reflexivity|]); cbn; apply JSMap_get_set_same.
Qed.

Lemma jane_started :
  result (post_chat_start "jane@x.com" "Jane Doe") (Demo.world Demo.seed)
  = Returned (mkResponse 200 (StartBody Samples.jane_session Samples.jane Demo.mike)).
Proof. vm_compute. reflexivity. Qed.

Lemma started_chat_is_active_with_online_base_agent_witness :
  User.isOnline Demo.mike = Some true
  /\ ChatSession.status Samples.jane_session = Some "active"
  /\ JSMap.get (MemStorage.chatSessions
                  (storage (run (post_chat_start "jane@x.com" "Jane Doe")
                                (Demo.world Demo.seed))))
               (ChatSession.id Samples.jane_session)
     = Some Samples.jane_session.
Proof.
  destruct (started_chat_is_active_with_online_base_agent
              (Demo.world Demo.seed) "jane@x.com" "Jane Doe"
              Samples.jane_session Samples.jane Demo.mike jane_started)
    as (_ & _ & Honline & _ & Hstatus & _ & _ & Hstored).
  split; [exact Honline|]. split; [exact Hstatus | exact Hstored].
Defined.

(** X21. The agent member of a 200 answer of POST /api/chat/start is a
    stored user written as it is stored: unlike the login and agent-list
    answers it carries the agent's password. *)
Theorem start_answer_carries_agent_password
        (w : World MemStorage.t) (customerEmail customerName : string)
        (session : ChatSession.t) (customer : Customer.t) (agent : User.t) :
  result (post_chat_start customerEmail customerName) w
  = Returned (mkResponse 200 (StartBody session customer agent)) ->
  (exists k, In (k, agent) (MemStorage.users (storage w)))
  /\ exists members,
      JSON.stringify (User_to_js agent) = JObj members
      /\ In ("password", JStr (User.password agent)) members.
Proof.
  intros Hr. split.
  - revert Hr. unfold post_chat_start. run_task.
    destruct (find _ (JSMap.values (MemStorage.customers (storage w)))) as [c|]; run_task;
      (destruct (find _ _) as [a|] eqn:Hf; run_task; [|discriminate]);
      intros [= <- <- <-];
      apply find_some in Hf; destruct Hf as [Hin _];
      apply filter_In in Hin; destruct Hin as [Hin _];
      unfold JSMap.values in Hin; apply in_map_iff in Hin;
      destruct Hin as [[k a'] [Ha Hin]]; cbn in Ha; subst a'; now exists k.
  - unfold User_to_js. cbn.
    destruct (User.isOnline agent), (User.createdAt agent); cbn;
      eexists; (split; [reflexivity|]); cbn; tauto.
Qed.

Lemma start_answer_carries_agent_password_witness :
  exists members,
    JSON.stringify (User_to_js Demo.mike) = JObj members
    /\ In ("password", JStr "password123") members.
Proof.
  exact (proj2 (start_answer_carries_agent_password
                  (Demo.world Demo.seed) "jane@x.com" "Jane Doe"
                  Samples.jane_session Samples.jane Demo.mike jane_started)).
Defined.

(** X22. When no agent of the base tier is online and the email is new,
    POST /api/chat/start is answered 503 and yet has stored the new
    customer: the customer is created before an agent is looked for. *)
Theorem start_without_agent_still_creates_customer
        (w : World MemStorage.t) (customerEmail customerName : string) :
  (forall k u, In (k, u) (MemStorage.users (storage w)) ->
               User.role u = "agent" -> User.isOnline u <> Some true) ->
  (forall k c, In (k, c) (MemStorage.customers (storage w)) ->
               Customer.email c <> customerEmail) ->
  let w' := run (post_chat_start customerEmail customerName) w in
  result (post_chat_start customerEmail customerName) w
  = Returned (mkResponse 503 (ErrorBody "No agents available"))
  /\ MemStorage.customers (storage w')
     = JSMap.set (MemStorage.customers (storage w)) (uuid_src w (uuid_calls w))
         (Customer.mk (uuid_src w (uuid_calls w)) customerName customerEmail
            (Some ("CUS-" ++ JS.number_to_string (clock_src w (clock_calls w))))
            (Some (clock_src w (S (clock_calls w))))
            (Some 0%N) (Some "regular")).
Proof.
  intros Hno Hnew w'. subst w'.
  pose proof (no_online_agent_find _ Hno) as Hagents.
  assert (Hf : find (fun customer => Customer.email customer =? customerEmail)
                    (JSMap.values (MemStorage.customers (storage w))) = None).
  { apply find_values_none. intros k c Hin. apply String.eqb_neq. now apply (Hnew k). }
  unfold post_chat_start. run_task. know_find Hf. clear Hf. run_task.
  know_find Hagents. run_task. split; [reflexivity|].
  unfold JS.or_null, JS.truthy. cbn. reflexivity.
Qed.

Lemma start_without_agent_still_creates_customer_witness :
  let w := Demo.world Demo.seed_agents_offline in
  result (post_chat_start "jane@x.com" "Jane Doe") w
  = Returned (mkResponse 503 (ErrorBody "No agents available"))
  /\ map fst (MemStorage.customers (storage (run (post_chat_start "jane@x.com" "Jane Doe") w)))
     = [ "c-emma"; "c-alex"; "c0ffee00-0000-4000-8000-000000000000" ].
Proof.
  destruct (start_without_agent_still_creates_customer
              (Demo.world Demo.seed_agents_offline) "jane@x.com" "Jane Doe")
    as [Hanswer Hstored].
  - intros k u Hin Hrole. cbn in Hin.
    repeat (destruct Hin as [Heq|Hin];
            [injection Heq as _ <-; first [discriminate Hrole | cbn; discriminate]|]).
    destruct Hin.
  - intros k c Hin. cbn in Hin.
    repeat (destruct Hin as [Heq|Hin]; [injection Heq as _ <-; cbn; discriminate|]).
    destruct Hin.
  - split; [exact Hanswer|]. rewrite Hstored. vm_compute. reflexivity.
Defined.

(* ------------------------------------------------------------------ *)
(** ** The hub *)

Lemma receivers_are_open (clients : JSMap.t ConnectedClient.t)
      (sessionId excludeClientId : option string) (c : string) :
  In c (receivers clients sessionId excludeClientId) ->
  exists client, In (c, client) clients
                 /\ ConnectedClient.sessionId client = sessionId
                 /\ ConnectedClient.ws client = OPEN.
Proof.
  unfold receivers, JSMap.entries. rewrite in_map_iff.
  intros [[c' client] [Hc Hin]]. cbn in Hc. subst c'.
  apply filter_In in Hin. destruct Hin as [Hin Hp].
  apply andb_true_iff in Hp. destruct Hp as [Hp Hopen].
  apply andb_true_iff in Hp. destruct Hp as [Hsid _].
  exists client. split; [exact Hin|]. split; [now apply opt_eqb_eq|].
  now destruct (ConnectedClient.ws client).
Qed.

Lemma in_receivers_all (clients : JSMap.t ConnectedClient.t) (sessionId : option string)
      (c : string) :
  In c (receivers clients sessionId None)
  <-> exists client, In (c, client) clients
                     /\ ConnectedClient.sessionId client = sessionId
                     /\ ConnectedClient.ws client = OPEN.
Proof.
  split; [apply receivers_are_open|].
  unfold receivers, JSMap.entries. rewrite in_map_iff.
  intros (client & Hin & Hsid & Hopen). exists (c, client). split; [reflexivity|].
  apply filter_In. split; [exact Hin|].
  rewrite Hopen. apply opt_eqb_eq in Hsid. rewrite Hsid. reflexivity.
Qed.

Lemma broadcast_to_open clients sessionId excludeClientId message :
  to_open_sockets clients
    (map (fun c => (c, message)) (receivers clients sessionId excludeClientId)).
Proof.
  intros c frame Hin. apply in_map_iff in Hin. destruct Hin as (c' & [= <- <-] & Hin).
  apply receivers_are_open in Hin. destruct Hin as (client & Hin & _ & Hopen).
  now exists client.
Qed.

Lemma socket_closed_In (clients : JSMap.t ConnectedClient.t) (clientId c : string)
      (client : ConnectedClient.t) :
  In (c, client) (socket_closed clients clientId) ->
  ConnectedClient.ws client = OPEN ->
  In (c, client) clients.
Proof.
  unfold socket_closed. destruct (JSMap.get clients clientId) as [old|]; [|trivial].
  intros Hin Hopen. apply JSMap_In_set in Hin. destruct Hin as [[_ ->]|Hin]; [|exact Hin].
  discriminate Hopen.
Qed.

Lemma broadcast_after_close_to_open clients clientId sessionId excludeClientId message :
  to_open_sockets clients
    (map (fun c => (c, message))
         (receivers (socket_closed clients clientId) sessionId excludeClientId)).
Proof.
  intros c frame Hin. apply in_map_iff in Hin. destruct Hin as (c' & [= <- <-] & Hin).
  apply receivers_are_open in Hin. destruct Hin as (client & Hin & _ & Hopen).
  exists client. split; [now apply (socket_closed_In clients clientId) | exact Hopen].
Qed.

Lemma receivers_cons (k0 : string) (c0 : ConnectedClient.t) (m : JSMap.t ConnectedClient.t)
      (sessionId excl : option string) :
  receivers ((k0, c0) :: m) sessionId excl
  = if JS.opt_eqb (ConnectedClient.sessionId c0) sessionId
       && negb (JS.opt_eqb (Some k0) excl)
       && ReadyState_eqb (ConnectedClient.ws c0) OPEN
    then k0 :: receivers m sessionId excl
    else receivers m sessionId excl.
Proof.
  unfold receivers, JSMap.entries. cbn [filter].
  destruct (_ && _); reflexivity.
Qed.

Lemma receivers_exclude_absent (clients : JSMap.t ConnectedClient.t)
      (sessionId : option string) (k : string) :
  ~ In k (JSMap.keys clients) ->
  receivers clients sessionId (Some k) = receivers clients sessionId None.
Proof.
  induction clients as [|[k0 c0] m IH]; intros Hnotin; [reflexivity|].
  rewrite !receivers_cons.
  assert (Hne : (k0 =? k) = false).
  { apply String.eqb_neq. intros ->. apply Hnotin. now left. }
  cbn [JS.opt_eqb]. rewrite Hne. cbn [negb].
  rewrite IH by (intros Hin; apply Hnotin; now right). reflexivity.
Qed.

(** Once its socket is closed a connection receives what it would
    receive were it excluded. *)
Lemma receivers_socket_closed (clients : JSMap.t ConnectedClient.t)
      (sessionId : option string) (k : string) (client : ConnectedClient.t) :
  NoDup (JSMap.keys clients) ->
  JSMap.get clients k = Some client ->
  receivers (socket_closed clients k) sessionId None = receivers clients sessionId (Some k).
Proof.
  unfold socket_closed. intros Hnd Hget. rewrite Hget.
  generalize (ConnectedClient.userId client), (ConnectedClient.userType client),
    (ConnectedClient.sessionId client).
  intros u t s. revert Hnd Hget.
  induction clients as [|[k0 c0] m IH]; intros Hnd Hget; [discriminate Hget|].
  unfold JSMap.keys in Hnd. cbn [map fst] in Hnd.
  inversion Hnd as [|? ? Hnotin Hnd']; subst.
  cbn [JSMap.get] in Hget. cbn [JSMap.set].
  destruct (k0 =? k) eqn:E.
  - apply String.eqb_eq in E. subst k0. rewrite !receivers_cons.
    cbn [ConnectedClient.ws ReadyState_eqb JS.opt_eqb]. rewrite String.eqb_refl.
    cbn [negb]. rewrite !andb_false_r.
    symmetry. exact (receivers_exclude_absent m sessionId k Hnotin).
  - rewrite !receivers_cons. cbn [JS.opt_eqb]. rewrite E. cbn [negb].
    rewrite (IH Hnd' Hget). reflexivity.
Qed.

Lemma delete_socket_closed (clients : JSMap.t ConnectedClient.t) (k : string) :
  JSMap.delete (socket_closed clients k) k = JSMap.delete clients k.
Proof.
  unfold socket_closed. destruct (JSMap.get clients k) as [client|] eqn:Hget; [|reflexivity].
  generalize (ConnectedClient.mk CLOSED (ConnectedClient.userId client)
                                 (ConnectedClient.userType client)
                                 (ConnectedClient.sessionId client)) as closed.
  intros closed. revert Hget.
  induction clients as [|[k0 c0] m IH]; cbn; [discriminate|].
  destruct (k0 =? k) eqn:E; cbn; rewrite E; [reflexivity|].
  intros Hget. now rewrite IH.
Qed.

(** X23. The REST routes for login, start, transfer and end write to no
    socket and leave the connections as they are: a transfer or an end made
    over REST is announced to no connected client. *)
Theorem rest_requests_write_to_no_socket (w : World MemStorage.t) :
  (forall username password,
      let w' := run (post_auth_login username password) w in
      sent w' = sent w /\ connectedClients w' = connectedClients w)
  /\ (forall customerEmail customerName,
         let w' := run (post_chat_start customerEmail customerName) w in
         sent w' = sent w /\ connectedClients w' = connectedClients w)
  /\ (forall sessionId newAgentId reason,
         let w' := run (post_chat_transfer sessionId newAgentId reason) w in
         sent w' = sent w /\ connectedClients w' = connectedClients w)
  /\ (forall sessionId,
         let w' := run (post_chat_end sessionId) w in
         sent w' = sent w /\ connectedClients w' = connectedClients w).
Proof.
  repeat split; open_handler; reflexivity.
Qed.

(** X24. Whatever the request, the frames it writes are added after those
    written before, and each goes to a connection that was in the map, with
    an open socket, when the request arrived. *)
Theorem frames_go_to_open_sockets_only (r : Request) (w : World MemStorage.t) :
  exists frames,
    sent (run (handle r) w) = (sent w ++ frames)%list
    /\ to_open_sockets (connectedClients w) frames.
Proof.
  assert (Hnone : forall s : list (string * WSMessage.t),
             exists frames, s = (s ++ frames)%list
                            /\ to_open_sockets (connectedClients w) frames).
  { intros s. exists []. split; [now rewrite app_nil_r | intros c f []]. }
  destruct r; open_handler; try apply Hnone;
    try (eexists; split; [reflexivity|]; apply broadcast_to_open);
    try (eexists; split; [reflexivity|]; apply broadcast_after_close_to_open).
  (* join_session: the map was updated first *)
  eexists. split; [reflexivity|].
  intros c frame Hin. apply in_map_iff in Hin. destruct Hin as (c' & [= <- <-] & Hin).
  apply receivers_are_open in Hin. destruct Hin as (client & Hin & _ & Hopen).
  apply JSMap_In_set in Hin. destruct Hin as [[-> ->]|Hin]; [|now exists client].
  match goal with H : JSMap.get _ _ = Some ?old |- _ =>
    exists old; split; [now apply JSMap_get_In | exact Hopen] end.
Qed.

(** X25. A join_session frame that names a session, from a known
    connection, binds the connection to the user, user type and session the
    frame names, keeps its socket, touches no storage, and writes the joined
    notice to exactly the open connections bound to that session after the
    binding, the joining one among them when its socket is open. *)
Theorem join_binds_and_notifies_the_session
        (w : World MemStorage.t) (clientId : string) (client : ConnectedClient.t)
        (message : WSMessage.t) (sid : string) :
  JSMap.get (connectedClients w) clientId = Some client ->
  WSMessage.type message = "join_session" ->
  WSMessage.sessionId message = Some sid ->
  let w' := run (ws_on_message clientId (Some message)) w in
  let bound := ConnectedClient.mk (ConnectedClient.ws client) (WSMessage.userId message)
                                  (WSMessage.userType message) (Some sid) in
  connectedClients w' = JSMap.set (connectedClients w) clientId bound
  /\ storage w' = storage w
  /\ sent w'
     = (sent w ++ map (fun c => (c, joined_frame message))
                      (receivers (connectedClients w') (Some sid) None))%list
  /\ (forall c,
         In c (receivers (connectedClients w') (Some sid) None)
         <-> exists other, In (c, other) (connectedClients w')
                           /\ ConnectedClient.sessionId other = Some sid
                           /\ ConnectedClient.ws other = OPEN)
  /\ (ConnectedClient.ws client = OPEN ->
      In (clientId, joined_frame message) (sent w')).
Proof.
  intros Hclient Htype Hsid. rewrite <- Hsid. intros w' bound. subst w'.
  assert (Hrun : ws_on_message clientId (Some message) w
                 = (Returned tt,
                    with_sent (with_clients w (JSMap.set (connectedClients w) clientId bound))
                      (sent w ++ map (fun c => (c, joined_frame message))
                                     (receivers (JSMap.set (connectedClients w) clientId bound)
                                                (WSMessage.sessionId message) None))%list)).
  { unfold ws_on_message, JSON_parse. run_task. rewrite Hclient. run_task.
    rewrite Htype. reflexivity. }
  unfold run. rewrite Hrun. cbn [snd connectedClients storage sent with_sent with_clients].
  split; [reflexivity|]. split; [reflexivity|]. split; [reflexivity|].
  split; [intros c; apply in_receivers_all|].
  intros Hopen. apply in_or_app. right. apply in_map_iff. exists clientId.
  split; [reflexivity|]. apply in_receivers_all. exists bound.
  split; [apply JSMap_get_In, JSMap_get_set_same|]. split; [reflexivity | exact Hopen].
Qed.

Lemma join_binds_and_notifies_the_session_witness :
  let w' := run (ws_on_message "k5" (Some Samples.join_frame)) Samples.world in
  JSMap.get (connectedClients w') "k5"
  = Some (ConnectedClient.mk OPEN (Some "visitor-5") (Some "customer") (Some "CHT-1"))
  /\ map fst (sent w') = [ "k1"; "k2"; "k5" ].
Proof.
  destruct (join_binds_and_notifies_the_session
              Samples.world "k5" (Demo.open_client None) Samples.join_frame "CHT-1")
    as (Hbound & _ & Hsent & _).
  - reflexivity.
  - reflexivity.
  - reflexivity.
  - split.
    + rewrite Hbound. vm_compute. reflexivity.
    + rewrite Hsent, Hbound. vm_compute. reflexivity.
Defined.

(** X26. A frame whose type the message handler has no case for changes
    nothing, whatever the storage: nothing is stored, sent or logged, and
    the sender gets no answer. *)
Theorem unhandled_frames_change_nothing
        {St : Type} `{IStorage St} (w : World St) (clientId : string)
        (message : WSMessage.t) :
  ~ In (WSMessage.type message) handled_types ->
  ws_on_message clientId (Some message) w = (Returned tt, w).
Proof.
  intros Hnot. unfold ws_on_message, JSON_parse, try_catch, bind, ret.
  destruct (JSMap.get (connectedClients w) clientId) as [client|]; [|reflexivity].
  assert (Hne : forall t, In t handled_types -> (WSMessage.type message =? t) = false).
  { intros t Hin. apply String.eqb_neq. intros E. rewrite E in Hnot. contradiction. }
  cbv zeta.
  rewrite (Hne "join_session") by (cbn; tauto).
  rewrite (Hne "chat_message") by (cbn; tauto).
  rewrite (Hne "agent_typing") by (cbn; tauto).
  rewrite (Hne "customer_typing") by (cbn; tauto).
  rewrite (Hne "session_transfer") by (cbn; tauto).
  rewrite (Hne "session_ended") by (cbn; tauto).
  reflexivity.
Qed.

Lemma unhandled_frames_change_nothing_witness :
  ws_on_message "k1" (Some Samples.ping_frame) Samples.world = (Returned tt, Samples.world).
Proof.
  apply (unhandled_frames_change_nothing Samples.world "k1" Samples.ping_frame).
  distinct_literals.
Defined.

(** X27. When a connection bound to a session closes, the left notice is
    written to the other connections bound to that session whose socket is
    open, and not to the closing connection, whose socket is closed by
    then; the connection is removed from the map, so no later broadcast
    reaches it.  No storage is touched: neither the session nor the user's
    online status is changed by a disconnect. *)
Theorem close_notifies_the_session_and_forgets_the_connection
        (w : World MemStorage.t) (clientId : string) (client : ConnectedClient.t)
        (sid : string) :
  NoDup (JSMap.keys (connectedClients w)) ->
  JSMap.get (connectedClients w) clientId = Some client ->
  ConnectedClient.sessionId client = Some sid ->
  sid <> "" ->
  let w' := run (ws_on_close clientId) w in
  let notified := receivers (connectedClients w) (Some sid) (Some clientId) in
  storage w' = storage w
  /\ connectedClients w' = JSMap.delete (connectedClients w) clientId
  /\ sent w' = (sent w ++ map (fun c => (c, left_frame client)) notified)%list
  /\ (forall c,
         In c notified
         <-> c <> clientId
             /\ exists other, In (c, other) (connectedClients w)
                              /\ ConnectedClient.sessionId other = Some sid
                              /\ ConnectedClient.ws other = OPEN)
  /\ forall sessionId excludeClientId,
      ~ In clientId (receivers (connectedClients w') sessionId excludeClientId).
Proof.
  intros Hnd Hclient Hsid Hne w' notified. subst w' notified.
  assert (Hnonempty : (sid =? "") = false) by now apply String.eqb_neq.
  assert (Hclosed : JSMap.get (socket_closed (connectedClients w) clientId) clientId
                    = Some (ConnectedClient.mk CLOSED (ConnectedClient.userId client)
                                               (ConnectedClient.userType client)
                                               (ConnectedClient.sessionId client))).
  { unfold socket_closed. rewrite Hclient. apply JSMap_get_set_same. }
  assert (Hrun : ws_on_close clientId w
                 = (Returned tt,
                    with_clients
                      (with_sent w (sent w ++ map (fun c => (c, left_frame client))
                                                  (receivers (connectedClients w) (Some sid)
                                                             (Some clientId)))%list)
                      (JSMap.delete (connectedClients w) clientId))).
  { unfold ws_on_close. run_task. rewrite Hclosed. run_task.
    rewrite Hsid. unfold JS.truthy. rewrite Hnonempty.
    unfold broadcastToSession. cbn -[receivers socket_closed].
    rewrite (receivers_socket_closed _ _ _ client Hnd Hclient), delete_socket_closed.
    reflexivity. }
  unfold run. rewrite Hrun. cbn [snd connectedClients storage sent with_sent with_clients].
  split; [reflexivity|]. split; [reflexivity|]. split; [reflexivity|].
  split; [intros c; apply in_receivers|].
  intros sessionId excludeClientId Hin.
  apply receivers_are_open in Hin. destruct Hin as (other & Hin & _).
  apply (JSMap_delete_not_in (connectedClients w) clientId Hnd).
  unfold JSMap.keys. apply in_map_iff. now exists (clientId, other).
Qed.

Lemma close_notifies_the_session_and_forgets_the_connection_witness :
  let w' := run (ws_on_close "k2") Samples.world in
  JSMap.keys (connectedClients w') = [ "k1"; "k3"; "k4"; "k5" ]
  /\ map fst (sent w') = [ "k1" ].
Proof.
  destruct (close_notifies_the_session_and_forgets_the_connection
              Samples.world "k2" (Demo.open_client (Some "CHT-1")) "CHT-1")
    as (_ & Hclients & Hsent & _).
  - distinct_literals.
  - reflexivity.
  - reflexivity.
  - discriminate.
  - split.
    + rewrite Hclients. vm_compute. reflexivity.
    + rewrite Hsent. vm_compute. reflexivity.
Defined.

(* ------------------------------------------------------------------ *)
(** ** What the requests keep of the store *)

Lemma users_kept_refl us : users_kept us us.
Proof. induction us; constructor; [split; [reflexivity | now left] | assumption]. Qed.

Lemma same_but_online_trans u1 u2 u3 :
  same_but_online u1 u2 -> same_but_online u2 u3 -> same_but_online u1 u3.
Proof.
  intros [ -> | -> ] [ -> | -> ]; [now left | now right | now right | now right].
Qed.

Lemma users_kept_trans us1 us2 us3 :
  users_kept us1 us2 -> users_kept us2 us3 -> users_kept us1 us3.
Proof.
  intros H12. revert us3. induction H12 as [|e1 e2 l1 l2 [Hk Hu] _ IH]; intros us3 H23.
  - inversion H23. constructor.
  - inversion H23 as [|? e3 ? l3 [Hk' Hu'] Hrest]; subst. constructor.
    + split; [congruence | eapply same_but_online_trans; eassumption].
    + now apply IH.
Qed.

Lemma users_kept_online us k u :
  JSMap.get us k = Some u ->
  users_kept us (JSMap.set us k (User.with_isOnline u (Some true))).
Proof.
  induction us as [|[k' v'] us IH]; cbn; [discriminate|].
  destruct (k' =? k) eqn:E.
  - intros [= ->]. constructor; [split; [reflexivity | now right] | apply users_kept_refl].
  - intros Hg. constructor; [split; [reflexivity | now left] | now apply IH].
Qed.

Lemma handle_keeps_users (r : Request) (w : World MemStorage.t) :
  users_kept (MemStorage.users (storage w)) (MemStorage.users (storage (run (handle r) w))).
Proof.
  destruct r; open_handler;
    first [apply users_kept_refl | now apply users_kept_online].
Qed.

Lemma users_kept_get us us' k u :
  users_kept us us' -> JSMap.get us k = Some u ->
  exists u', JSMap.get us' k = Some u' /\ same_but_online u u'.
Proof.
  intros Hk. induction Hk as [|[k1 u1] [k2 u2] l1 l2 [Hkey Hu] _ IH]; cbn; [discriminate|].
  cbn in Hkey, Hu. subst k2. destruct (k1 =? k); [|exact IH].
  intros [= ->]. now exists u2.
Qed.

Lemma users_kept_keys us us' : users_kept us us' -> JSMap.keys us' = JSMap.keys us.
Proof.
  unfold JSMap.keys. intros Hk.
  induction Hk as [|e e' l l' [Hkey _] _ IH]; cbn; [reflexivity | now rewrite Hkey, IH].
Qed.

(** X28. Whatever requests are served, the users map keeps its keys, and
    each user is afterwards as before or as before but online: no request
    adds, removes or renames a user, changes a password or a role, or puts a
    user offline. *)
Theorem users_only_ever_go_online (requests : list Request) (w : World MemStorage.t) :
  let before := MemStorage.users (storage w) in
  let after := MemStorage.users (storage (serve requests w)) in
  JSMap.keys after = JSMap.keys before
  /\ forall k u, JSMap.get before k = Some u ->
                 exists u', JSMap.get after k = Some u'
                            /\ (u' = u \/ u' = User.with_isOnline u (Some true)).
Proof.
  cbv zeta.
  assert (Hkept : users_kept (MemStorage.users (storage w))
                             (MemStorage.users (storage (serve requests w)))).
  { revert w. induction requests as [|r rest IH]; intros w; cbn [serve].
    - apply users_kept_refl.
    - eapply users_kept_trans; [apply handle_keeps_users | apply IH]. }
  split; [now apply users_kept_keys|].
  intros k u Hg. exact (users_kept_get _ _ k u Hkept Hg).
Qed.

Lemma nothing_removed_refl st : nothing_removed st st.
Proof. repeat split; apply incl_refl. Qed.

Lemma nothing_removed_trans a b c :
  nothing_removed a b -> nothing_removed b c -> nothing_removed a c.
Proof.
  intros (H1 & H2 & H3) (H1' & H2' & H3').
  repeat split; eapply incl_tran; eassumption.
Qed.

Lemma handle_removes_nothing (r : Request) (w : World MemStorage.t) :
  nothing_removed (storage w) (storage (run (handle r) w)).
Proof.
  destruct r; open_handler; unfold nothing_removed; cbn;
    repeat split;
    first [apply incl_refl | apply keys_set_incl].
Qed.

(** X29. Whatever requests are served, every customer, session and
    message key of the store is still a key afterwards: no request deletes
    a record. *)
Theorem no_request_removes_a_record (requests : list Request) (w : World MemStorage.t) :
  nothing_removed (storage w) (storage (serve requests w)).
Proof.
  revert w. induction requests as [|r rest IH]; intros w; cbn [serve].
  - apply nothing_removed_refl.
  - eapply nothing_removed_trans; [apply handle_removes_nothing | apply IH].
Qed.

Lemma session_continues_refl s : session_continues s s.
Proof.
  repeat split; try tauto. exists []. now rewrite app_nil_r.
Qed.

Lemma session_continues_trans s1 s2 s3 :
  session_continues s1 s2 -> session_continues s2 s3 -> session_continues s1 s3.
Proof.
  intros (A1 & A2 & A3 & A4 & [h Ah] & A6 & A7) (B1 & B2 & B3 & B4 & [h' Bh] & B6 & B7).
  repeat split; try congruence; try tauto.
  exists (h ++ h')%list. now rewrite Bh, Ah, app_assoc.
Qed.

Lemma session_continues_end s now :
  session_continues s
    (PartialChatSession.spread s
       (PartialChatSession.mk None None None None (Some (Some "resolved")) None
                              (Some (Some now)) None None)).
Proof.
  repeat split; cbn; try discriminate. exists []. now rewrite app_nil_r.
Qed.

Lemma session_continues_transfer s a record :
  session_continues s
    (PartialChatSession.spread s
       (PartialChatSession.mk None None None (Some a) None None None
          (Some (Some (array_or_empty (ChatSession.transferHistory s) ++ [record])%list))
          None)).
Proof.
  repeat split; cbn; try tauto. now exists [record].
Qed.

Lemma continues_after_update (m : JSMap.t ChatSession.t) k k0 s s0 v :
  JSMap.get m k = Some s -> JSMap.get m k0 = Some s0 -> session_continues s0 v ->
  exists s', JSMap.get (JSMap.set m k0 v) k = Some s' /\ session_continues s s'.
Proof.
  intros Hk Hk0 Hv. destruct (string_dec k0 k) as [->|Hne].
  - rewrite Hk in Hk0. injection Hk0 as ->. exists v.
    split; [apply JSMap_get_set_same | exact Hv].
  - exists s. rewrite (JSMap_get_set_other m k k0 v Hne).
    split; [exact Hk | apply session_continues_refl].
Qed.

Lemma continues_after_create (m : JSMap.t ChatSession.t) k k0 s v :
  JSMap.get m k = Some s -> k0 <> k ->
  exists s', JSMap.get (JSMap.set m k0 v) k = Some s' /\ session_continues s s'.
Proof.
  intros Hk Hne. exists s. rewrite (JSMap_get_set_other m k k0 v Hne).
  split; [exact Hk | apply session_continues_refl].
Qed.

Lemma found_is_stored (st : MemStorage.t) (p : ChatSession.t -> bool) found s0 :
  stored_by_id st ->
  find p (JSMap.values (MemStorage.chatSessions st)) = Some found ->
  JSMap.get (MemStorage.chatSessions st) (ChatSession.id found) = Some s0 ->
  s0 = found.
Proof.
  intros [Hnd Hkey] Hf Hg. apply find_values_In in Hf. destruct Hf as [[k Hin] _].
  rewrite <- (Hkey k found Hin) in Hin.
  rewrite (JSMap_In_get _ _ _ Hnd Hin) in Hg. now injection Hg.
Qed.

Lemma handle_continues (r : Request) (w : World MemStorage.t) (k : string)
      (s : ChatSession.t) :
  stored_by_id (storage w) ->
  (forall n, uuid_calls w <= n -> uuid_src w n <> k) ->
  JSMap.get (MemStorage.chatSessions (storage w)) k = Some s ->
  exists s', JSMap.get (MemStorage.chatSessions (storage (run (handle r) w))) k = Some s'
             /\ session_continues s s'.
Proof.
  intros Hwf Hfresh Hk.
  assert (Hsame : exists s', JSMap.get (MemStorage.chatSessions (storage w)) k = Some s'
                             /\ session_continues s s')
    by (exists s; split; [exact Hk | apply session_continues_refl]).
  destruct r; open_handler; try exact Hsame;
    try (apply continues_after_create; [exact Hk | apply Hfresh; lia]);
    try (match goal with
         | Hf : find _ _ = Some ?found,
           Hg : JSMap.get _ (ChatSession.id ?found) = Some ?s0 |- _ =>
             pose proof (found_is_stored _ _ _ _ Hwf Hf Hg) as ->;
             eapply continues_after_update;
             [exact Hk | exact Hg
              | first [apply session_continues_end | apply session_continues_transfer]]
         end).
Qed.

Lemma handle_keeps_uuid_src (r : Request) (w : World MemStorage.t) :
  uuid_src (run (handle r) w) = uuid_src w
  /\ uuid_calls w <= uuid_calls (run (handle r) w).
Proof. destruct r; open_handler; split; first [reflexivity | lia]. Qed.

(** X30. A session stored under a key that no later UUID repeats stays
    stored under that key whatever requests are served, with the same id,
    code, customer and start; its transfer history is only added to at the
    end, and once it is resolved, or has an end time, it stays so. *)
Theorem stored_sessions_only_move_forward
        (requests : list Request) (w : World MemStorage.t) (k : string) (s : ChatSession.t) :
  stored_by_id (storage w) ->
  (forall n, uuid_calls w <= n -> uuid_src w n <> k) ->
  JSMap.get (MemStorage.chatSessions (storage w)) k = Some s ->
  exists s', JSMap.get (MemStorage.chatSessions (storage (serve requests w))) k = Some s'
             /\ session_continues s s'.
Proof.
  revert w s. induction requests as [|r rest IH]; intros w s Hwf Hfresh Hk; cbn [serve].
  - exists s. split; [exact Hk | apply session_continues_refl].
  - destruct (handle_continues r w k s Hwf Hfresh Hk) as (s1 & Hk1 & Hc1).
    destruct (IH (run (handle r) w) s1) as (s' & Hk' & Hc').
    + now apply handle_keeps_stored_by_id.
    + destruct (handle_keeps_uuid_src r w) as [Hsrc Hcalls].
      intros n Hn. rewrite Hsrc. apply Hfresh. lia.
    + exact Hk1.
    + exists s'. split; [exact Hk' | eapply session_continues_trans; eassumption].
Qed.

Lemma stored_sessions_only_move_forward_witness :
  exists s',
    JSMap.get
      (MemStorage.chatSessions
         (storage (serve [ PostChatTransfer "CHT-1" "u-anna" "needs billing expertise";
                           PostChatEnd "CHT-1";
                           PostChatStart "jane@x.com" "Jane Doe";
                           PostChatTransfer "CHT-1" "u-senior" "escalation" ]
                         Samples.world)))
      "s-1"
    = Some s'
    /\ session_continues Samples.session s'.
Proof.
  apply (stored_sessions_only_move_forward _ Samples.world "s-1" Samples.session).
  - exact samples_stored_by_id.
  - intros n _ Hsame. unfold Demo.uuids in Hsame. cbn in Hsame. discriminate Hsame.
  - reflexivity.
Defined.
